(** * obs_base: curated-calibration loader and FITS exposure formatter

    A shallow embedding of
      - [python/lsst/obs/base/_read_curated_calibs.py]
        ([check_metadata], [read_one_chip], [read_all]) and
      - [python/lsst/obs/base/fitsExposureFormatter.py]
        ([readComponent], [getImageCompressionSettings],
        [validateWriteRecipes]),
    together with the properties the specification states about them.

    Python exceptions are values of [exn] carried by the [result] monad;
    dictionaries are insertion-ordered association lists; what the
    interpreter and the file system decide (string parsing, [repr], [hash],
    [glob], the decoders) is gathered in environment records. *)

From Stdlib Require Import ZArith List String Ascii Bool Lia.
From Stdlib Require Import Floats.SpecFloat DecimalString.
Import ListNotations.

Local Open Scope string_scope.
Local Open Scope Z_scope.

(** ** Exceptions and results *)

Inductive exn : Type :=
| KeyError (key : string)
| TypeError (msg : string)
| ValueError (msg : string)
| RuntimeError (msg : string)
| AttributeError (msg : string)
| OverflowError (msg : string)
| OSError (msg : string).

Inductive result (A : Type) : Type :=
| Ok (a : A)
| Raise (e : exn).

Arguments Ok {A} a.
Arguments Raise {A} e.

Definition bind {A B : Type} (c : result A) (k : A -> result B) : result B :=
  match c with
  | Ok a => k a
  | Raise e => Raise e
  end.

Notation "x <- c ;; k" := (bind c (fun x => k))
  (at level 61, c at next level, right associativity).
Notation "' pat <- c ;; k" := (bind c (fun x => match x with pat => k end))
  (at level 61, pat pattern, c at next level, right associativity).
Notation "c ;;; k" := (bind c (fun _ => k))
  (at level 61, right associativity).

Definition raises {A : Type} (c : result A) : Prop := exists e, c = Raise e.

(** ** Dictionaries

    A Python [dict] keeps its keys in insertion order and holds each key
    once.  [set] overwrites in place or appends, as item assignment does. *)

Class Key (K : Type) : Type := {
  key_eqb : K -> K -> bool;
  key_eqb_spec : forall a b : K, reflect (a = b) (key_eqb a b)
}.

#[export] Instance string_Key : Key string :=
  {| key_eqb := String.eqb; key_eqb_spec := String.eqb_spec |}.

#[export] Instance Z_Key : Key Z :=
  {| key_eqb := Z.eqb; key_eqb_spec := Z.eqb_spec |}.

Module Dict.

Definition t (K V : Type) : Type := list (K * V).

Section Ops.
Context {K V : Type} `{Key K}.

Fixpoint get (k : K) (d : t K V) : option V :=
  match d with
  | [] => None
  | (k', v) :: r => if key_eqb k k' then Some v else get k r
  end.

Definition mem (k : K) (d : t K V) : bool :=
  match get k d with
  | Some _ => true
  | None => false
  end.

Fixpoint set (k : K) (v : V) (d : t K V) : t K V :=
  match d with
  | [] => [(k, v)]
  | (k', v') :: r =>
      if key_eqb k k' then (k, v) :: r else (k', v') :: set k v r
  end.

Definition keys (d : t K V) : list K := map fst d.

Definition values (d : t K V) : list V := map snd d.

Definition is_empty (d : t K V) : bool :=
  match d with
  | [] => true
  | _ :: _ => false
  end.
End Ops.

(** [d[k]] with a string key: [KeyError] when the key is absent. *)
Definition getitem {V : Type} (k : string) (d : t string V) : result V :=
  match get k d with
  | Some v => Ok v
  | None => Raise (KeyError k)
  end.

End Dict.

(** Membership of a name in a list of names ([k in seq]). *)
Definition in_names (k : string) (l : list string) : bool :=
  existsb (String.eqb k) l.

(** ** Python values *)

#[local] Set Warnings "-register-all".

Inductive PyVal : Type :=
| VNone
| VBool (b : bool)
| VInt (z : Z)
| VFloat (f : spec_float)
| VStr (s : string)
| VList (l : list PyVal)
| VDict (d : list (string * PyVal)).

(** What the interpreter decides and this development does not compute:
    parsing of numerals, [repr] of containers and floats, the text of a set,
    the hash of a tuple of items, and the conversion specifiers of the [%]
    operator other than [%s] and [%%]. *)
Record PyEnv : Type := {
  int_of_str : string -> option Z;
  float_of_str : string -> option spec_float;
  repr_other : PyVal -> string;
  set_repr : list string -> string;
  hash_items : list (string * PyVal) -> Z;
  pct_other : string -> option string -> result string
}.

Module Py.

(** Binary64 parameters of CPython's [float]. *)
Definition prec : Z := 53.
Definition emax : Z := 1024.

Definition float_of_Z (z : Z) : spec_float := binary_normalize prec emax z 0 false.

Definition str_of_Z (z : Z) : string := NilZero.string_of_int (Z.to_int z).

Definition lower_ascii (c : ascii) : ascii :=
  let n := nat_of_ascii c in
  if (Nat.leb 65 n && Nat.leb n 90)%bool then ascii_of_nat (n + 32) else c.

(** [s.lower()], on ASCII text. *)
Fixpoint lower (s : string) : string :=
  match s with
  | EmptyString => EmptyString
  | String c r => String (lower_ascii c) (lower r)
  end.

(** No percent sign occurs in the text. *)
Fixpoint no_pct (s : string) : bool :=
  match s with
  | EmptyString => true
  | String c r => negb (Ascii.eqb c "%") && no_pct r
  end.

(** [sep.join(l)]. *)
Fixpoint join (sep : string) (l : list string) : string :=
  match l with
  | [] => ""
  | [x] => x
  | x :: r => x ++ sep ++ join sep r
  end.

(** Truth value of an object ([bool(v)], [if v:]). *)
Definition truthy (v : PyVal) : bool :=
  match v with
  | VNone => false
  | VBool b => b
  | VInt z => negb (z =? 0)
  | VFloat (S754_zero _) => false
  | VFloat _ => true
  | VStr s => negb (String.eqb s "")
  | VList l => match l with [] => false | _ => true end
  | VDict d => match d with [] => false | _ => true end
  end.

Section Builtins.
Variable py : PyEnv.

(** [str(v)]. *)
Definition str (v : PyVal) : string :=
  match v with
  | VStr s => s
  | VInt z => str_of_Z z
  | VBool true => "True"
  | VBool false => "False"
  | VNone => "None"
  | _ => repr_other py v
  end.

(** [int(v)]. *)
Definition int (v : PyVal) : result Z :=
  match v with
  | VInt z => Ok z
  | VBool b => Ok (if b then 1 else 0)
  | VFloat (S754_zero _) => Ok 0
  | VFloat (S754_finite s m e) =>
      let mag := if 0 <=? e then Z.shiftl (Zpos m) e else Z.shiftr (Zpos m) (- e) in
      Ok (if s then - mag else mag)
  | VFloat (S754_infinity _) =>
      Raise (OverflowError "cannot convert float infinity to integer")
  | VFloat S754_nan => Raise (ValueError "cannot convert float NaN to integer")
  | VStr s =>
      match int_of_str py s with
      | Some z => Ok z
      | None => Raise (ValueError ("invalid literal for int() with base 10: " ++ s))
      end
  | _ => Raise (TypeError "int() argument must be a string, a bytes-like object or a real number")
  end.

(** [float(v)]. *)
Definition float (v : PyVal) : result spec_float :=
  match v with
  | VFloat f => Ok f
  | VInt z =>
      match float_of_Z z with
      | S754_infinity _ => Raise (OverflowError "int too large to convert to float")
      | f => Ok f
      end
  | VBool b => Ok (float_of_Z (if b then 1 else 0))
  | VStr s =>
      match float_of_str py s with
      | Some f => Ok f
      | None => Raise (ValueError ("could not convert string to float: " ++ s))
      end
  | _ => Raise (TypeError "float() argument must be a string or a real number")
  end.

(** [list(v)]. *)
Definition list_of (v : PyVal) : result (list PyVal) :=
  match v with
  | VList l => Ok l
  | VStr s => Ok (map (fun c => VStr (String c EmptyString)) (list_ascii_of_string s))
  | VDict d => Ok (map (fun kv => VStr (fst kv)) d)
  | _ => Raise (TypeError "object is not iterable")
  end.

(** [type(dflt)(v)]: the constructor of the default's type applied to
    the raw value. *)
Definition coerce (dflt v : PyVal) : result PyVal :=
  match dflt with
  | VStr _ => Ok (VStr (str v))
  | VInt _ => z <- int v ;; Ok (VInt z)
  | VFloat _ => f <- float v ;; Ok (VFloat f)
  | VBool _ => Ok (VBool (truthy v))
  | VList _ => l <- list_of v ;; Ok (VList l)
  | VNone => Raise (TypeError "NoneType takes no arguments")
  | VDict _ =>
      match v with
      | VDict d => Ok (VDict d)
      | _ => Raise (TypeError "cannot convert dictionary update sequence")
      end
  end.

(** [fmt % arg] with a single string argument.  [%s] takes the
    argument, [%%] is a percent sign; every other specifier is left to
    the interpreter. *)
Fixpoint pct_format (fmt : string) (arg : option string) : result string :=
  match fmt with
  | EmptyString =>
      match arg with
      | None => Ok ""
      | Some _ => Raise (TypeError "not all arguments converted during string formatting")
      end
  | String "%" (String "s" rest) =>
      match arg with
      | Some a => r <- pct_format rest None ;; Ok (a ++ r)
      | None => Raise (TypeError "not enough arguments for format string")
      end
  | String "%" (String "%" rest) =>
      r <- pct_format rest arg ;; Ok (String "%" r)
  | String "%" rest => pct_other py rest arg
  | String c rest => r <- pct_format rest arg ;; Ok (String c r)
  end.

End Builtins.

(** Values of the same Python type. *)
Definition same_type (a b : PyVal) : bool :=
  match a, b with
  | VNone, VNone | VBool _, VBool _ | VInt _, VInt _ | VFloat _, VFloat _
  | VStr _, VStr _ | VList _, VList _ | VDict _, VDict _ => true
  | _, _ => false
  end.

End Py.


(** ** POSIX path functions used by the loader ([os.path]) *)

Module Path.

Definition is_slash (c : ascii) : bool := Ascii.eqb c "/".

(** [(p[:i], p[i:])] with [i = p.rfind(c) + 1]. *)
Fixpoint rsplit_at (c : ascii) (p : string) : string * string :=
  match p with
  | EmptyString => ("", "")
  | String a r =>
      let (h, t) := rsplit_at c r in
      match h with
      | EmptyString => if Ascii.eqb a c then (String a "", r) else ("", String a r)
      | _ => (String a h, t)
      end
  end.

Fixpoint all_char (c : ascii) (s : string) : bool :=
  match s with
  | EmptyString => true
  | String a r => Ascii.eqb a c && all_char c r
  end.

(** [s.rstrip(c)]. *)
Fixpoint rstrip (c : ascii) (s : string) : string :=
  match s with
  | EmptyString => ""
  | String a r =>
      match rstrip c r with
      | EmptyString => if Ascii.eqb a c then "" else String a ""
      | r' => String a r'
      end
  end.

(** [os.path.split]. *)
Definition split (p : string) : string * string :=
  let (head, tail) := rsplit_at "/" p in
  (if all_char "/" head then head else rstrip "/" head, tail).

(** [os.path.basename]. *)
Definition basename (p : string) : string := snd (rsplit_at "/" p).

Definition ends_with_slash (p : string) : bool :=
  match snd (rsplit_at "/" p), fst (rsplit_at "/" p) with
  | EmptyString, String _ _ => true
  | _, _ => false
  end.

(** [os.path.join(a, b)]. *)
Definition join (a b : string) : string :=
  match b with
  | String "/" _ => b
  | _ =>
      if String.eqb a "" || ends_with_slash a then a ++ b else a ++ "/" ++ b
  end.

Definition drop_last (s : string) : string :=
  substring 0 (String.length s - 1) s.

(** [os.path.splitext], on a name without directory part. *)
Definition splitext (p : string) : string * string :=
  let (h, t) := rsplit_at "." p in
  match h with
  | EmptyString => (p, "")
  | _ =>
      let stem := drop_last h in
      if all_char "." stem then (p, "") else (stem, String "." t)
  end.

End Path.

(** ** The curated-calibration loader ([_read_curated_calibs.py]) *)

Module CuratedCalibs.

(** The decoder classes of [lsst.ip.isr] and [lsst.meas.algorithms]. *)
Inductive Factory : Type :=
| Curve
| Defects
| Linearizer
| CrosstalkCalib
| BrighterFatterKernel
| PhotodiodeCalib.

(** A decoded calibration: its header ([getMetadata()]) and its body. *)
Record Calib : Type := {
  getMetadata : Dict.t string PyVal;
  body : string
}.

Definition datetime : Type := Z.

(** What the storage layer and the external decoders decide. *)
Record FsEnv : Type := {
  normpath : string -> string;
  listdir : string -> result (list string);
  isdir : string -> bool;
  glob : string -> list string;
  parse_date : string -> result datetime;
  readText : Factory -> string -> result Calib
}.

Record Detector : Type := {
  detName : string;
  detId : Z
}.

Record Camera : Type := {
  cameraName : string;
  detectors : list Detector
}.

Definition factory_map : Dict.t string Factory :=
  [ ("qe_curve", Curve);
    ("defects", Defects);
    ("linearizer", Linearizer);
    ("crosstalk", CrosstalkCalib);
    ("bfk", BrighterFatterKernel);
    ("photodiode", PhotodiodeCalib) ].

Definition extensions : list string := [".ecsv"; ".yaml"].

Definition ChipData : Type := Dict.t datetime Calib.

Section Loader.
Variable py : PyEnv.
Variable fs : FsEnv.

(** [obj.lower()] for a header value: only [str] has the method. *)
Definition lower_of (v : PyVal) : result string :=
  match v with
  | VStr s => Ok (Py.lower s)
  | _ => Raise (AttributeError "object has no attribute 'lower'")
  end.

Definition newline : string := String "010" "".

(** The text of the mismatch report up to the file name: the f-string
    with its six fields filled in. *)
Definition mismatch_prefix (instrument : string) (chip_id : Z) (data_name : string)
  (finst fchip_id fdata_name : PyVal) : string :=
  "Path and file metadata do not agree:" ++ newline ++
  "Path metadata: " ++ instrument ++ " " ++ Py.str_of_Z chip_id ++ " " ++ data_name
    ++ newline ++
  "File metadata: " ++ Py.str py finst ++ " " ++ Py.str py fchip_id ++ " "
    ++ Py.str py fdata_name ++ newline ++
  "File read from : ".

(** The left operand of [%]: the filled-in f-string. *)
Definition mismatch_format (instrument : string) (chip_id : Z) (data_name : string)
  (finst fchip_id fdata_name : PyVal) : string :=
  mismatch_prefix instrument chip_id data_name finst fchip_id fdata_name
  ++ "%s" ++ newline.

(** The triple read from the header, as the comparison normalises it. *)
Definition header_triple (obj : Calib) : result (string * Z * string) :=
  let md := getMetadata obj in
  finst <- Dict.getitem "INSTRUME" md ;;
  fchip_id <- Dict.getitem "DETECTOR" md ;;
  fdata_name <- Dict.getitem "OBSTYPE" md ;;
  a <- lower_of finst ;;
  b <- Py.int py fchip_id ;;
  c <- lower_of fdata_name ;;
  Ok (a, b, c).

(** The triple derived from the path, normalised the same way. *)
Definition path_triple (instrument : string) (chip_id : Z) (data_name : string)
  : string * Z * string :=
  (Py.lower instrument, chip_id, Py.lower data_name).

Definition check_metadata (obj : Calib) (valid_start : datetime) (instrument : string)
  (chip_id : Z) (filepath : string) (data_name : string) : result unit :=
  let md := getMetadata obj in
  finst <- Dict.getitem "INSTRUME" md ;;
  fchip_id <- Dict.getitem "DETECTOR" md ;;
  fdata_name <- Dict.getitem "OBSTYPE" md ;;
  a <- lower_of finst ;;
  b <- Py.int py fchip_id ;;
  c <- lower_of fdata_name ;;
  if String.eqb a (Py.lower instrument) && (b =? chip_id) && String.eqb c (Py.lower data_name)
  then Ok tt
  else
    msg <- Py.pct_format py
             (mismatch_format instrument chip_id data_name finst fchip_id fdata_name)
             (Some filepath) ;;
    Raise (ValueError msg).

Definition unknown_type_msg (data_name : string) : string :=
  "Unknown calibration data type, '" ++ data_name ++ "' found. Only understand "
  ++ Py.join "," (Dict.keys factory_map).

(** The body of [for f in files:]. *)
Fixpoint read_files (factory : Factory) (instrument : string) (chip_id : Z)
  (data_name : string) (files : list string) (data_dict : ChipData) : result ChipData :=
  match files with
  | [] => Ok data_dict
  | f :: rest =>
      let date_str := fst (Path.splitext (Path.basename f)) in
      valid_start <- parse_date fs date_str ;;
      obj <- readText fs factory f ;;
      let data_dict := Dict.set valid_start obj data_dict in
      check_metadata obj valid_start instrument chip_id f data_name ;;;
      read_files factory instrument chip_id data_name rest data_dict
  end.

Definition read_one_chip (root chip_name : string) (chip_id : Z)
  : result (ChipData * string) :=
  let files :=
    flat_map (fun ext => glob fs (Path.join (Path.join root chip_name) ("*" ++ ext)))
             extensions in
  let parts := Path.split root in
  let instrument := snd (Path.split (fst parts)) in
  let data_name := snd parts in
  match Dict.get data_name factory_map with
  | None => Raise (ValueError (unknown_type_msg data_name))
  | Some factory =>
      data_dict <- read_files factory instrument chip_id data_name files [] ;;
      Ok (data_dict, data_name)
  end.

(** [{det.getName().lower(): det.getName() for det in camera}]. *)
Definition name_map (camera : Camera) : Dict.t string string :=
  fold_left (fun m det => Dict.set (Py.lower (detName det)) (detName det) m)
            (detectors camera) [].

(** [camera[name]]. *)
Definition camera_getitem (camera : Camera) (name : string) : result Detector :=
  match find (fun det => String.eqb (detName det) name) (detectors camera) with
  | Some det => Ok det
  | None => Raise (KeyError name)
  end.

Definition max_detectors : nat := 10.

(** The names shown by the unknown-detector report and their framing. *)
Definition shown_detectors (camera : Camera) : string * list string :=
  let detectors := map detName (detectors camera) in
  if Nat.ltb max_detectors (List.length detectors)
  then ("examples", firstn max_detectors detectors)
  else ("knows", detectors).

Definition unknown_detector_msg (chip_name : string) (camera : Camera) : string :=
  let (note_str, detectors) := shown_detectors camera in
  "Detector " ++ chip_name ++ " not known to supplied camera " ++ cameraName camera
  ++ " (" ++ note_str ++ ": " ++ Py.join "," detectors ++ ")".

(** [calib_types.add(calib_type)] on a set kept in insertion order. *)
Definition set_add (x : string) (s : list string) : list string :=
  if in_names x s then s else s ++ [x].

Definition mixing_msg (calib_types : list string) : string :=
  "Error mixing calib types: " ++ set_repr py calib_types.

(** The directories [read_all] loops over: the entries of the normalised
    root that are directories. *)
Definition sensor_dirs (root : string) : result (list string) :=
  let root := normpath fs root in
  dirs <- listdir fs root ;;
  Ok (filter (fun d => isdir fs (Path.join root d)) dirs).

Section Aggregate.
(** The per-sensor loader [read_all] calls. *)
Variable loader : string -> string -> Z -> result (ChipData * string).

(** The first half of an iteration of [for d in dirs:]: the directory name
    is looked up in the name table and the sensor's files are loaded. *)
Definition load_sensor (root : string) (camera : Camera) (d : string)
  : result (ChipData * string) :=
  let chip_name := Path.basename d in
  match Dict.get chip_name (name_map camera) with
  | None => Raise (RuntimeError (unknown_detector_msg chip_name camera))
  | Some canonical =>
      det <- camera_getitem camera canonical ;;
      loader root chip_name (detId det)
  end.

(** The loop [for d in dirs:], with its variables as state:
    [data_by_chip], [calib_types] and the last [calib_type] bound. *)
Fixpoint read_dirs (root : string) (camera : Camera) (dirs : list string)
  (data_by_chip : Dict.t string ChipData) (calib_types : list string)
  (calib_type : option string)
  : result (Dict.t string ChipData * option string) :=
  match dirs with
  | [] => Ok (data_by_chip, calib_type)
  | d :: rest =>
      ' (data, calib_type) <- load_sensor root camera d ;;
      let data_by_chip := Dict.set (Path.basename d) data data_by_chip in
      let calib_types := set_add calib_type calib_types in
      if negb (Nat.eqb (List.length calib_types) 1)
      then Raise (ValueError (mixing_msg calib_types))
      else read_dirs root camera rest data_by_chip calib_types (Some calib_type)
  end.

(** [data_by_chip] after the loop has stored [datas] for [dirs]. *)
Definition store_all (dirs : list string) (datas : list ChipData)
  (data_by_chip : Dict.t string ChipData) : Dict.t string ChipData :=
  fold_left (fun m p => Dict.set (Path.basename (fst p)) (snd p) m)
            (combine dirs datas) data_by_chip.

Definition read_all_with (root : string) (camera : Camera)
  : result (Dict.t string ChipData * option string) :=
  dirs <- sensor_dirs root ;;
  let root := normpath fs root in
  match dirs with
  | [] => Raise (RuntimeError ("No data found on path " ++ root))
  | _ =>
      ' (data_by_chip, calib_type) <- read_dirs root camera dirs [] [] None ;;
      let no_data := forallb Dict.is_empty (Dict.values data_by_chip) in
      if no_data then Raise (RuntimeError "No data to ingest")
      else Ok (data_by_chip, calib_type)
  end.

End Aggregate.

Definition read_all (root : string) (camera : Camera)
  : result (Dict.t string ChipData * option string) :=
  read_all_with read_one_chip root camera.

(** The two path segments [read_one_chip] takes from the root: the
    instrument is the segment above the last, the data name is the last. *)
Definition path_instrument (root : string) : string :=
  snd (Path.split (fst (Path.split root))).

Definition path_data_name (root : string) : string := snd (Path.split root).

(** The files [read_one_chip] looks at, in the order it reads them. *)
Definition chip_files (root chip_name : string) : list string :=
  flat_map (fun ext => glob fs (Path.join (Path.join root chip_name) ("*" ++ ext)))
           extensions.

(** What it takes for one file to be taken in. *)
Definition file_passes (factory : Factory) (instrument : string) (chip_id : Z)
  (data_name : string) (f : string) (date : datetime) (obj : Calib) : Prop :=
  parse_date fs (fst (Path.splitext (Path.basename f))) = Ok date
  /\ readText fs factory f = Ok obj
  /\ check_metadata obj date instrument chip_id f data_name = Ok tt.

(** The loop of [read_all] with the test on [calib_types] left out. *)
Fixpoint read_dirs_unchecked (root : string) (camera : Camera) (dirs : list string)
  (data_by_chip : Dict.t string ChipData) (calib_type : option string)
  : result (Dict.t string ChipData * option string) :=
  match dirs with
  | [] => Ok (data_by_chip, calib_type)
  | d :: rest =>
      ' (data, calib_type) <- load_sensor read_one_chip root camera d ;;
      read_dirs_unchecked root camera rest
        (Dict.set (Path.basename d) data data_by_chip) (Some calib_type)
  end.

(** [read_all] with that loop. *)
Definition read_all_unchecked (root : string) (camera : Camera)
  : result (Dict.t string ChipData * option string) :=
  dirs <- sensor_dirs root ;;
  let root := normpath fs root in
  match dirs with
  | [] => Raise (RuntimeError ("No data found on path " ++ root))
  | _ =>
      ' (data_by_chip, calib_type) <- read_dirs_unchecked root camera dirs [] None ;;
      let no_data := forallb Dict.is_empty (Dict.values data_by_chip) in
      if no_data then Raise (RuntimeError "No data to ingest")
      else Ok (data_by_chip, calib_type)
  end.

End Loader.

End CuratedCalibs.


(** ** The FITS exposure formatter ([fitsExposureFormatter.py]) *)

Module FitsExposure.

(** Recipe mappings, raw or validated:
    recipe name -> plane -> settings -> key -> value. *)
Definition Settings : Type := Dict.t string PyVal.
Definition Plane : Type := Dict.t string Settings.
Definition Recipe : Type := Dict.t string Plane.
Definition Recipes : Type := Dict.t string Recipe.

Definition planes : list string := ["image"; "mask"; "variance"].

(** *** Component reads *)

Definition componentMap : Dict.t string (string * bool) :=
  [ ("wcs", ("readWcs", false));
    ("coaddInputs", ("readCoaddInputs", false));
    ("psf", ("readPsf", false));
    ("image", ("readImage", true));
    ("mask", ("readMask", true));
    ("variance", ("readVariance", true));
    ("photoCalib", ("readPhotoCalib", false));
    ("bbox", ("readBBox", true));
    ("xy0", ("readXY0", true));
    ("metadata", ("readMetadata", false));
    ("filter", ("readFilter", false));
    ("polygon", ("readValidPolygon", false));
    ("apCorrMap", ("readApCorrMap", false));
    ("visitInfo", ("readVisitInfo", false));
    ("transmissionCurve", ("readTransmissionCurve", false));
    ("detector", ("readDetector", false));
    ("extras", ("readExtraComponents", false));
    ("exposureInfo", ("readExposureInfo", false)) ].

(** [a, b = v] where [v] is what [dict.get(key, None)] returned. *)
Definition unpack_pair {A B : Type} (v : option (A * B)) : result (A * B) :=
  match v with
  | Some p => Ok p
  | None => Raise (TypeError "cannot unpack non-iterable NoneType object")
  end.

Definition unknown_component_msg (component : string) : string :=
  "Unknown component requested: " ++ component.

Section Read.
(** In-memory component objects. *)
Variable Obj : Type.

Definition Parameters : Type := Dict.t string PyVal.

(** An [ExposureFitsReader]: [getattr(reader, method, None)]. *)
Record Reader : Type := {
  getattr : string -> option (Parameters -> result Obj)
}.

(** The formatter's file descriptor and the collaborators behind it. *)
Record FileDescriptor : Type := {
  location_path : string;
  fd_parameters : option Parameters;
  validateParameters : Parameters -> result unit;
  ExposureFitsReader : string -> result Reader
}.

Variable fileDescriptor : FileDescriptor.

(** The result is [None] where the Python function falls off its end. *)
Definition readComponent (component : string) (parameters : option Parameters)
  : result (option Obj) :=
  ' (method, hasParams) <- unpack_pair (Dict.get component componentMap) ;;
  if negb (String.eqb method "") then
    reader <- ExposureFitsReader fileDescriptor (location_path fileDescriptor) ;;
    match getattr reader method with
    | Some caller =>
        let parameters :=
          match parameters with
          | Some p => Some p
          | None => fd_parameters fileDescriptor
          end in
        let parameters :=
          match parameters with
          | Some p => p
          | None => []
          end in
        validateParameters fileDescriptor parameters ;;;
        if hasParams && negb (Dict.is_empty parameters)
        then o <- caller parameters ;; Ok (Some o)
        else o <- caller [] ;; Ok (Some o)
    | None => Ok None
    end
  else Raise (KeyError (unknown_component_msg component)).

End Read.

(** *** Write recipes *)

Definition compressionSchema : Settings :=
  [ ("algorithm", VStr "NONE");
    ("rows", VInt 1);
    ("columns", VInt 0);
    ("quantizeLevel", VFloat (Py.float_of_Z 0)) ].

Definition scalingSchema : Settings :=
  [ ("algorithm", VStr "NONE");
    ("bitpix", VInt 0);
    ("maskPlanes", VList [VStr "NO_DATA"]);
    ("seed", VInt 0);
    ("quantizeLevel", VFloat (Py.float_of_Z 4));
    ("quantizePad", VFloat (Py.float_of_Z 5));
    ("fuzz", VBool true);
    ("bscale", VFloat (Py.float_of_Z 1));
    ("bzero", VFloat (Py.float_of_Z 0)) ].

Definition schemas : list (string * Settings) :=
  [ ("compression", compressionSchema); ("scaling", scalingSchema) ].

Section Recipes.
Variable py : PyEnv.

(** [set(entry) - set(allowed)], in the order of [entry]. *)
Definition unrecognized {V : Type} (entry : Dict.t string V) (allowed : list string)
  : list string :=
  filter (fun k => negb (in_names k allowed)) (nodup string_dec (Dict.keys entry)).

Definition unrecognized_msg (description : string) (unrec : list string) : string :=
  "Unrecognized entries when parsing image compression recipe " ++ description ++ ": "
  ++ set_repr py unrec.

Definition checkUnrecognized {V : Type} (entry : Dict.t string V) (allowed : list string)
  (description : string) : result unit :=
  match unrecognized entry allowed with
  | [] => Ok tt
  | unrec => Raise (RuntimeError (unrecognized_msg description unrec))
  end.

(** The body of [for key in schema:] for a settings entry that is present. *)
Fixpoint fill_settings (entry : Settings) (schema : Settings) (np : Settings)
  : result Settings :=
  match schema with
  | [] => Ok np
  | (key, dflt) :: rest =>
      value <- match Dict.get key entry with
               | Some raw => Py.coerce py dflt raw
               | None => Ok dflt
               end ;;
      fill_settings entry rest (Dict.set key value np)
  end.

(** The same loop for an absent entry: every key takes its default. *)
Definition default_settings (schema : Settings) : Settings :=
  fold_left (fun np kv => Dict.set (fst kv) (snd kv) np) schema [].

Definition arrow (a b : string) : string := a ++ "->" ++ b.

(** One iteration of [for settings, schema in (...)]. *)
Definition validate_settings (name plane : string) (raw : Plane)
  (settings : string) (schema : Settings) : result Settings :=
  match Dict.get settings raw with
  | None => Ok (default_settings schema)
  | Some entry =>
      checkUnrecognized entry (Dict.keys schema) (arrow (arrow name plane) settings) ;;;
      fill_settings entry schema []
  end.

Fixpoint validate_sections (name plane : string) (raw : Plane)
  (todo : list (string * Settings)) (np : Plane) : result Plane :=
  match todo with
  | [] => Ok np
  | (settings, schema) :: rest =>
      s <- validate_settings name plane raw settings schema ;;
      validate_sections name plane raw rest (Dict.set settings s np)
  end.

(** One iteration of [for plane in ("image", "mask", "variance")]. *)
Definition validate_plane (name : string) (recipe : Recipe) (plane : string)
  : result Plane :=
  raw <- Dict.getitem plane recipe ;;
  checkUnrecognized raw ["compression"; "scaling"] (arrow name plane) ;;;
  validate_sections name plane raw schemas [].

Fixpoint validate_planes (name : string) (recipe : Recipe) (todo : list string)
  (acc : Recipe) : result Recipe :=
  match todo with
  | [] => Ok acc
  | plane :: rest =>
      np <- validate_plane name recipe plane ;;
      validate_planes name recipe rest (Dict.set plane np acc)
  end.

(** One iteration of [for name in recipes]. *)
Definition validate_recipe (recipes : Recipes) (name : string) : result Recipe :=
  recipe <- Dict.getitem name recipes ;;
  checkUnrecognized recipe planes name ;;;
  validate_planes name recipe planes [].

Fixpoint validate_names (recipes : Recipes) (names : list string) (validated : Recipes)
  : result Recipes :=
  match names with
  | [] => Ok validated
  | name :: rest =>
      v <- validate_recipe recipes name ;;
      validate_names recipes rest (Dict.set name v validated)
  end.

(** [recipes] is [None] or a mapping; both [None] and [{}] are falsy. *)
Definition validateWriteRecipes (recipes : option Recipes) : result (option Recipes) :=
  match recipes with
  | None => Ok None
  | Some [] => Ok (Some [])
  | Some r =>
      validated <- validate_names r (Dict.keys r) [] ;;
      Ok (Some validated)
  end.

(** *** What a validated mapping is, in the words of the specification *)

(** The value a validated settings mapping holds for [key]: the raw value
    coerced to the type of the default when the entry is there and has the
    key, the default otherwise. *)
Definition expected_value (entry : option Settings) (key : string) (dflt : PyVal)
  : result PyVal :=
  match entry with
  | None => Ok dflt
  | Some e =>
      match Dict.get key e with
      | Some raw => Py.coerce py dflt raw
      | None => Ok dflt
      end
  end.

(** [vs] has exactly the fields of the schema, in its order, each with its
    expected value, which is of the type of the default. *)
Definition settings_from (schema : Settings) (entry : option Settings) (vs : Settings)
  : Prop :=
  Forall2 (fun kd kv =>
             fst kv = fst kd
             /\ expected_value entry (fst kd) (snd kd) = Ok (snd kv)
             /\ Py.same_type (snd kv) (snd kd) = true)
          schema vs.

(** [vp] has both sub-sections, each normalised from the raw plane. *)
Definition plane_from (raw vp : Plane) : Prop :=
  exists c s,
    vp = [("compression", c); ("scaling", s)]
    /\ settings_from compressionSchema (Dict.get "compression" raw) c
    /\ settings_from scalingSchema (Dict.get "scaling" raw) s.

(** [v] has the three planes, each normalised from the raw recipe. *)
Definition recipe_from (raw v : Recipe) : Prop :=
  exists ri rm rv vi vm vv,
    Dict.get "image" raw = Some ri
    /\ Dict.get "mask" raw = Some rm
    /\ Dict.get "variance" raw = Some rv
    /\ v = [("image", vi); ("mask", vm); ("variance", vv)]
    /\ plane_from ri vi /\ plane_from rm vm /\ plane_from rv vv.

(** [validated] has the recipe names of [raw], each once, and every recipe
    is normalised from the raw recipe of its name. *)
Definition recipes_from (raw validated : Recipes) : Prop :=
  NoDup (Dict.keys validated)
  /\ (forall name, In name (Dict.keys validated) <-> In name (Dict.keys raw))
  /\ (forall name v, Dict.get name validated = Some v ->
        exists r, Dict.get name raw = Some r /\ recipe_from r v).

(** A set of unrecognized keys and the place it is found at: in a recipe,
    in a plane of a recipe, or in a sub-section of a plane. *)
Inductive unrecognized_at (recipes : Recipes) : string -> list string -> Prop :=
| at_recipe (name : string) (r : Recipe) :
    Dict.get name recipes = Some r ->
    unrecognized r planes <> [] ->
    unrecognized_at recipes name (unrecognized r planes)
| at_plane (name plane : string) (r : Recipe) (raw : Plane) :
    Dict.get name recipes = Some r -> In plane planes ->
    Dict.get plane r = Some raw ->
    unrecognized raw ["compression"; "scaling"] <> [] ->
    unrecognized_at recipes (arrow name plane)
      (unrecognized raw ["compression"; "scaling"])
| at_settings (name plane settings : string) (r : Recipe) (raw : Plane)
    (schema entry : Settings) :
    Dict.get name recipes = Some r -> In plane planes ->
    Dict.get plane r = Some raw -> In (settings, schema) schemas ->
    Dict.get settings raw = Some entry ->
    unrecognized entry (Dict.keys schema) <> [] ->
    unrecognized_at recipes (arrow (arrow name plane) settings)
      (unrecognized entry (Dict.keys schema)).

(** Every recipe listed before [name] validates. *)
Definition recipes_before_ok (recipes : Recipes) (name : string) : Prop :=
  exists pre post,
    Dict.keys recipes = (pre ++ name :: post)%list
    /\ forall n, In n pre -> exists v, validate_recipe recipes n = Ok v.

(** Every plane visited before [plane] validates. *)
Definition planes_before_ok (name : string) (r : Recipe) (plane : string) : Prop :=
  exists pre post,
    planes = (pre ++ plane :: post)%list
    /\ forall q, In q pre -> exists vq, validate_plane name r q = Ok vq.

(** Every sub-section visited before [settings] validates. *)
Definition sections_before_ok (name plane : string) (raw : Plane) (settings : string)
  : Prop :=
  exists pre post schema,
    schemas = (pre ++ (settings, schema) :: post)%list
    /\ forall p, In p pre ->
         exists vs, validate_settings name plane raw (fst p) (snd p) = Ok vs.

(** *** Compression settings for a write *)

(** [x == 0] for a value of a settings mapping. *)
Definition eq_zero (v : PyVal) : bool :=
  match v with
  | VInt z => z =? 0
  | VBool b => negb b
  | VFloat (S754_zero _) => true
  | _ => false
  end.

(** [hash(tuple(self.dataId.items())) % 2**31]. *)
Definition seed_of (dataId : Dict.t string PyVal) : Z :=
  hash_items py dataId mod 2 ^ 31.

(** One iteration of [for plane in ("image", "mask", "variance")]: the
    assignment goes through [recipe[plane]["scaling"]] into [recipe]. *)
Definition set_seed (seed : Z) (recipe : Recipe) (plane : string) : Recipe :=
  match Dict.get plane recipe with
  | None => recipe
  | Some p =>
      match Dict.get "scaling" p with
      | None => recipe
      | Some scaling =>
          match Dict.get "seed" scaling with
          | None => recipe
          | Some v =>
              if eq_zero v
              then Dict.set plane (Dict.set "scaling" (Dict.set "seed" (VInt seed) scaling) p)
                            recipe
              else recipe
          end
      end
  end.

(** [recipe[plane]["scaling"]["seed"]], where every level is present. *)
Definition recipe_seed (plane : string) (recipe : Recipe) : option PyVal :=
  match Dict.get plane recipe with
  | None => None
  | Some p =>
      match Dict.get "scaling" p with
      | None => None
      | Some scaling => Dict.get "seed" scaling
      end
  end.

Definition unrecognized_recipe_msg (recipeName : string) : string :=
  "Unrecognized recipe option given for compression: " ++ recipeName.

(** Returns the selected settings and [self.writeRecipes] as the call
    leaves it: the selected recipe is the stored object itself, so the
    seeds written into it are written into the store. *)
Definition getImageCompressionSettings (writeRecipes : Recipes)
  (dataId : Dict.t string PyVal) (recipeName : option string)
  : result (Recipe * Recipes) :=
  let falsy := match recipeName with
               | None => true
               | Some s => String.eqb s ""
               end in
  if falsy && negb (Dict.mem "default" writeRecipes) then Ok ([], writeRecipes)
  else
    let recipeName := if falsy then "default"
                      else match recipeName with Some s => s | None => "default" end in
    match Dict.get recipeName writeRecipes with
    | None => Raise (RuntimeError (unrecognized_recipe_msg recipeName))
    | Some recipe =>
        let seed := seed_of dataId in
        let recipe := fold_left (set_seed seed) planes recipe in
        Ok (recipe, Dict.set recipeName recipe writeRecipes)
    end.

(** The name [getImageCompressionSettings] looks up: the requested one, or
    ["default"] when none is requested. *)
Definition effective_name (recipeName : option string) : string :=
  match recipeName with
  | Some s => if String.eqb s "" then "default" else s
  | None => "default"
  end.

(** The seed a plane has after the loop over the planes, given the one it
    had: the sentinel is replaced, anything else is kept. *)
Definition seed_after (seed : Z) (old : option PyVal) : option PyVal :=
  match old with
  | Some v => if eq_zero v then Some (VInt seed) else Some v
  | None => None
  end.

(** [recipe[plane][settings]] and [recipe[plane][settings][key]], where
    every level is present. *)
Definition recipe_section (plane settings : string) (recipe : Recipe) : option Settings :=
  match Dict.get plane recipe with
  | None => None
  | Some p => Dict.get settings p
  end.

Definition recipe_value (plane settings key : string) (recipe : Recipe) : option PyVal :=
  match recipe_section plane settings recipe with
  | None => None
  | Some entry => Dict.get key entry
  end.

(** Two recipes with the same planes, sub-sections and keys, and the same
    values everywhere but at [scaling.seed]. *)
Definition same_but_seeds (a b : Recipe) : Prop :=
  Dict.keys b = Dict.keys a
  /\ (forall plane,
        option_map Dict.keys (Dict.get plane b) = option_map Dict.keys (Dict.get plane a))
  /\ (forall plane settings,
        option_map Dict.keys (recipe_section plane settings b)
        = option_map Dict.keys (recipe_section plane settings a))
  /\ (forall plane settings key,
        settings <> "scaling" \/ key <> "seed" ->
        recipe_value plane settings key b = recipe_value plane settings key a).

End Recipes.

(** *** Reading and writing a dataset *)

Section Formatter.
(** In-memory datasets and components, and header metadata. *)
Variable Obj : Type.
Variable Md : Type.
Variable py : PyEnv.

(** The location of the file ([fileDescriptor.location]). *)
Record Location : Type := {
  path : string;
  pathInStore : string
}.

(** A call of one of the two write methods of the in-memory dataset. *)
Inductive WriteCall : Type :=
| writeFits (outputPath : string)
| writeFitsWithOptions (outputPath : string) (options : Recipe).

(** What [write] works through: the location's change of extension and the
    dataset being written. *)
Record WriteEnv : Type := {
  updateExtension : Location -> string -> Location;
  dataset_write : WriteCall -> result unit
}.

Definition extension : string := ".fits".

(** Returns the path in the store together with the call made on the
    dataset and [self.writeRecipes] as the call leaves it.  The options
    passed are the recipe, which the code first copies into a
    [PropertySet]. *)
Definition write (env : WriteEnv) (location : Location)
  (writeParameters : Dict.t string string) (writeRecipes : Recipes)
  (dataId : Dict.t string PyVal) : result (string * WriteCall * Recipes) :=
  let location := updateExtension env location extension in
  let outputPath := path location in
  let recipeName := Dict.get "recipe" writeParameters in
  ' (recipe, writeRecipes) <-
      getImageCompressionSettings py writeRecipes dataId recipeName ;;
  let call := if negb (Dict.is_empty recipe)
              then writeFitsWithOptions outputPath recipe
              else writeFits outputPath in
  dataset_write env call ;;;
  Ok (pathInStore location, call, writeRecipes).

(** What [read] works through, next to the file descriptor: the comparison
    of the two storage classes and their names, the constructor of the
    stored type, and the functions that read and strip the header. *)
Record ReadEnv : Type := {
  fileDescriptor : FileDescriptor Obj;
  storageClasses_differ : bool;
  readStorageClass_name : string;
  storageClass_name : string;
  pytype : string -> Parameters -> result Obj;
  afw_readMetadata : string -> result Md;
  fix_header : Md -> Md;
  bboxFromMetadata : Md -> result Md;
  makeSkyWcs_strip : Md -> result Md
}.

(** What a read returns. *)
Inductive Dataset : Type :=
| FullObject (o : Obj)
| ComponentObject (o : option Obj)
| Header (md : Md).

Definition effective_parameters (env : ReadEnv) (parameters : option Parameters)
  : Parameters :=
  match parameters with
  | Some p => p
  | None =>
      match fd_parameters Obj (fileDescriptor env) with
      | Some p => p
      | None => []
      end
  end.

Definition readFull (env : ReadEnv) (parameters : option Parameters) : result Obj :=
  let fd := fileDescriptor env in
  let parameters := effective_parameters env parameters in
  validateParameters Obj fd parameters ;;;
  match pytype env (location_path Obj fd) parameters with
  | Raise (TypeError _) =>
      reader <- ExposureFitsReader Obj fd (location_path Obj fd) ;;
      match getattr Obj reader "read" with
      | Some read => read parameters
      | None => Raise (AttributeError "object has no attribute 'read'")
      end
  | output => output
  end.

(** The [metadata] property: the header is read on first use and kept in
    [_metadata], which is the state threaded here. *)
Definition metadata (env : ReadEnv) (_metadata : option Md) : result (Md * option Md) :=
  match _metadata with
  | Some md => Ok (md, _metadata)
  | None =>
      md <- afw_readMetadata env (location_path Obj (fileDescriptor env)) ;;
      let md := fix_header env md in
      Ok (md, Some md)
  end.

(** Both functions strip the header object in place, so what they leave is
    what [_metadata] holds. *)
Definition stripMetadata (env : ReadEnv) (_metadata : option Md) : result (option Md) :=
  ' (md, _) <- metadata env _metadata ;;
  md <- bboxFromMetadata env md ;;
  ' (md, _) <- metadata env (Some md) ;;
  md <- makeSkyWcs_strip env md ;;
  Ok (Some md).

Definition inconsistency_msg (env : ReadEnv) : string :=
  "Storage class inconsistency (" ++ readStorageClass_name env ++ " vs "
  ++ storageClass_name env ++ ") but no component requested".

Definition read (env : ReadEnv) (_metadata : option Md) (component : option string)
  (parameters : option Parameters) : result (Dataset * option Md) :=
  if storageClasses_differ env then
    match component with
    | Some c =>
        if String.eqb c "metadata" then
          _metadata <- stripMetadata env _metadata ;;
          ' (md, _metadata) <- metadata env _metadata ;;
          Ok (Header md, _metadata)
        else
          o <- readComponent Obj (fileDescriptor env) c parameters ;;
          Ok (ComponentObject o, _metadata)
    | None => Raise (ValueError (inconsistency_msg env))
    end
  else
    o <- readFull env parameters ;;
    Ok (FullObject o, _metadata).

End Formatter.

End FitsExposure.

(** ** Instrument registration ([instrument.py]) *)

Module InstrumentBase.

Record FilterDefinition : Type := {
  physical_filter : string;
  abstract_filter : option string
}.

(** A call of [registry.insertDimensionData]. *)
Inductive RegistryCall : Type :=
| insertDimensionData (element : string) (record : Dict.t string PyVal).

(** The errors of a registry: [LookupError] (or a subclass of it) and any
    other. *)
Inductive RegistryError : Type :=
| LookupError (msg : string)
| OtherError (e : exn).

Inductive outcome (A : Type) : Type :=
| Done (a : A)
| Failed (e : RegistryError).

Arguments Done {A} a.
Arguments Failed {A} e.

(** A registry, seen through the insertions made on it so far: whether it
    refuses the next one, and what it answers to [expandDataId]. *)
Record Registry (DataId : Type) : Type := {
  refuses : list RegistryCall -> RegistryCall -> option RegistryError;
  expandDataId : list RegistryCall -> Dict.t string PyVal -> outcome DataId
}.

Section Registration.
Variable DataId : Type.
Variable registry : Registry DataId.

(** The record [_registerFilters] inserts for one filter. *)
Definition filter_record (instrument : string) (filter : FilterDefinition)
  : Dict.t string PyVal :=
  let abstract_filter :=
    match abstract_filter filter with
    | None => physical_filter filter
    | Some a => a
    end in
  [ ("instrument", VStr instrument);
    ("name", VStr (physical_filter filter));
    ("abstract_filter", VStr abstract_filter) ].

(** [inserted] are the insertions made on the registry so far. *)
Fixpoint _registerFilters (instrument : string) (filterDefinitions : list FilterDefinition)
  (inserted : list RegistryCall) : outcome (list RegistryCall) :=
  match filterDefinitions with
  | [] => Done inserted
  | filter :: rest =>
      let call := insertDimensionData "physical_filter" (filter_record instrument filter) in
      match refuses DataId registry inserted call with
      | Some e => Failed e
      | None => _registerFilters instrument rest (inserted ++ [call])
      end
  end.

(** [TIMESPAN_MIN] and [TIMESPAN_MAX] of [lsst.daf.butler]. *)
Variable TIMESPAN_MIN TIMESPAN_MAX : PyVal.

Definition unbounded_id (instrumentName : string) : Dict.t string PyVal :=
  [ ("instrument", VStr instrumentName); ("calibration_label", VStr "unbounded") ].

Definition unbounded_entry (instrumentName : string) : Dict.t string PyVal :=
  Dict.set "datetime_end" TIMESPAN_MAX
    (Dict.set "datetime_begin" TIMESPAN_MIN (unbounded_id instrumentName)).

Definition addUnboundedCalibrationLabel (instrumentName : string)
  (inserted : list RegistryCall) : outcome (DataId * list RegistryCall) :=
  let d := unbounded_id instrumentName in
  match expandDataId DataId registry inserted d with
  | Done dataId => Done (dataId, inserted)
  | Failed (LookupError _) =>
      let call := insertDimensionData "calibration_label"
                    (unbounded_entry instrumentName) in
      match refuses DataId registry inserted call with
      | Some e => Failed e
      | None =>
          let inserted := (inserted ++ [call])%list in
          match expandDataId DataId registry inserted d with
          | Done dataId => Done (dataId, inserted)
          | Failed e => Failed e
          end
      end
  | Failed e => Failed e
  end.

End Registration.

Section ConfigOverrides.
(** Task configurations, [os.path.exists] and [config.load]. *)
Variable Config : Type.
Variable exists_ : string -> bool.
Variable load : Config -> string -> result Config.

Fixpoint applyConfigOverrides (configPaths : list string) (name : string)
  (config : Config) : result Config :=
  match configPaths with
  | [] => Ok config
  | root :: rest =>
      let path := Path.join root (name ++ ".py") in
      if exists_ path
      then config <- load config path ;; applyConfigOverrides rest name config
      else applyConfigOverrides rest name config
  end.

(** The files a call loads, in the order it loads them. *)
Definition override_files (configPaths : list string) (name : string) : list string :=
  filter exists_ (map (fun root => Path.join root (name ++ ".py")) configPaths).

(** Loading files one after the other. *)
Fixpoint load_all (files : list string) (config : Config) : result Config :=
  match files with
  | [] => Ok config
  | f :: rest => config <- load config f ;; load_all rest config
  end.

End ConfigOverrides.

End InstrumentBase.


(** ** Environments and inputs of the examples *)

Module Examples.

(** An interpreter that reads decimal numerals, prints sets in insertion
    order and hashes every identity to [h identity]. *)
Definition py_with_hash (h : Dict.t string PyVal -> Z) : PyEnv := {|
  int_of_str := fun s => option_map Z.of_int (NilZero.int_of_string s);
  float_of_str := fun _ => None;
  repr_other := fun _ => "<object>";
  set_repr := fun l => "{" ++ Py.join ", " (map (fun s => "'" ++ s ++ "'") l) ++ "}";
  hash_items := h;
  pct_other := fun _ _ => Raise (ValueError "unsupported format character")
|}.

(** A hash that only looks at the integer values of the identity. *)
Definition sum_hash (d : Dict.t string PyVal) : Z :=
  fold_left (fun acc kv => match snd kv with VInt z => acc + z | _ => acc end) d 0.

Definition py0 : PyEnv := py_with_hash sum_hash.

(** The recipe of the specification:
    [{"default": {"image": {"scaling": {"seed": 0}}}}]. *)
Definition seed0_recipes : FitsExposure.Recipes :=
  [ ("default", [ ("image", [ ("scaling", [ ("seed", VInt 0) ]) ]) ]) ].

(** The header of the failing input: an instrument name with [%s] in it. *)
Definition percent_header : CuratedCalibs.Calib :=
  {| CuratedCalibs.getMetadata := [ ("INSTRUME", VStr "LSST%sCam");
                      ("DETECTOR", VInt 3);
                      ("OBSTYPE", VStr "defects") ];
     CuratedCalibs.body := "" |}.

(** A camera with two sensors. *)
Definition cam : CuratedCalibs.Camera :=
  {| CuratedCalibs.cameraName := "TestCam";
     CuratedCalibs.detectors :=
       [ {| CuratedCalibs.detName := "CCD01"; CuratedCalibs.detId := 3 |};
         {| CuratedCalibs.detName := "CCD02"; CuratedCalibs.detId := 4 |} ] |}.

(** A storage layer: [entries] are the directories under every root,
    [files] answers [glob], every file name parses to the same date and
    decodes to an object whose header is [header] of the file. *)
Definition fs_with (entries : list string) (files : string -> list string)
  (header : string -> Dict.t string PyVal) : CuratedCalibs.FsEnv :=
  {| CuratedCalibs.normpath := fun p => p;
     CuratedCalibs.listdir := fun _ => Ok entries;
     CuratedCalibs.isdir := fun _ => true;
     CuratedCalibs.glob := files;
     CuratedCalibs.parse_date := fun _ => Ok 20210501;
     CuratedCalibs.readText :=
       fun _ f => Ok {| CuratedCalibs.getMetadata := header f; CuratedCalibs.body := "" |} |}.

(** An archive whose sensor directories hold no file. *)
Definition fs_no_files (entries : list string) : CuratedCalibs.FsEnv :=
  fs_with entries (fun _ => []) (fun _ => []).

(** The archive of the specification: one file under [ccd01] whose header
    reports detector 7, and a directory [amp99] next to it. *)
Definition fs_bad_header : CuratedCalibs.FsEnv :=
  fs_with ["ccd01"; "amp99"]
    (fun pattern =>
       if String.eqb pattern "LSSTCam/defects/ccd01/*.yaml"
       then ["LSSTCam/defects/ccd01/2021-05-01T00:00:00.yaml"] else [])
    (fun _ => [ ("INSTRUME", VStr "LSSTCam"); ("DETECTOR", VInt 7);
                ("OBSTYPE", VStr "defects") ]).

(** A per-sensor loader that reports a category of its own for [ccd02]. *)
Definition mixed_loader (root chip_name : string) (chip_id : Z)
  : result (CuratedCalibs.ChipData * string) :=
  Ok ([], if String.eqb chip_name "ccd02" then "linearizer" else "defects").

(** A recipe with the three planes, the seed of the image plane being the
    sentinel: [{"default": {"image": {"scaling": {"seed": 0}}, "mask": {},
    "variance": {}}}]. *)
Definition three_planes : FitsExposure.Recipes :=
  [ ("default", [ ("image", [ ("scaling", [ ("seed", VInt 0) ]) ]);
                  ("mask", []);
                  ("variance", []) ]) ].

(** A recipe with an unknown plane and none of the three:
    [{"r": {"bogus": {}}}]. *)
Definition bogus_plane : FitsExposure.Recipes :=
  [ ("r", [ ("bogus", []) ]) ].

(** A recipe without the mask plane and with an unknown sub-section in the
    variance plane: [{"r": {"image": {}, "variance": {"bogus": {}}}}]. *)
Definition missing_mask : FitsExposure.Recipes :=
  [ ("r", [ ("image", []); ("variance", [ ("bogus", []) ]) ]) ].

(** A recipe without the mask plane: [{"r": {"image": {}, "variance": {}}}]. *)
Definition no_mask : FitsExposure.Recipes :=
  [ ("r", [ ("image", []); ("variance", []) ]) ].

(** A recipe with an unknown field in the scaling of its mask plane. *)
Definition bogus_field : FitsExposure.Recipes :=
  [ ("r", [ ("image", []);
            ("mask", [ ("scaling", [ ("sed", VInt 1) ]) ]);
            ("variance", []) ]) ].

(** What validation returns for [three_planes]. *)
Definition three_planes_validated : FitsExposure.Recipes :=
  Eval vm_compute in
    match FitsExposure.validateWriteRecipes py0 (Some three_planes) with
    | Ok (Some v) => v
    | _ => []
    end.

(** An archive with one file under [ccd01] whose header agrees with the
    path. *)
Definition fs_good : CuratedCalibs.FsEnv :=
  fs_with ["ccd01"]
    (fun pattern =>
       if String.eqb pattern "LSSTCam/defects/ccd01/*.yaml"
       then ["LSSTCam/defects/ccd01/2021-05-01T00:00:00.yaml"] else [])
    (fun _ => [ ("INSTRUME", VStr "LSSTCam"); ("DETECTOR", VInt 3);
                ("OBSTYPE", VStr "Defects") ]).

(** What [read_all] returns for it. *)
Definition good_archive : Dict.t string CuratedCalibs.ChipData :=
  Eval vm_compute in
    match CuratedCalibs.read_all py0 fs_good "LSSTCam/defects" cam with
    | Ok (data, _) => data
    | Raise _ => []
    end.

(** A file descriptor whose reader has every method, each returning its
    own name followed by the number of parameters it was given. *)
Definition fd : FitsExposure.FileDescriptor string :=
  {| FitsExposure.location_path := "exposure.fits";
     FitsExposure.fd_parameters := None;
     FitsExposure.validateParameters := fun _ => Ok tt;
     FitsExposure.ExposureFitsReader :=
       fun _ => Ok {| FitsExposure.getattr :=
                        fun method =>
                          Some (fun p => Ok (method ++ ":"
                                             ++ Py.str_of_Z (Z.of_nat (List.length p)))) |} |}.

(** What [read_one_chip] returns for the one file of [fs_good]. *)
Definition good_chip : CuratedCalibs.ChipData :=
  Eval vm_compute in
    match CuratedCalibs.read_one_chip py0 fs_good "LSSTCam/defects" "ccd01" 3 with
    | Ok (data, _) => data
    | Raise _ => []
    end.

(** A header that disagrees with the path in the detector. *)
Definition detector7 : CuratedCalibs.Calib :=
  {| CuratedCalibs.getMetadata :=
       [ ("INSTRUME", VStr "LSSTCam"); ("DETECTOR", VInt 7); ("OBSTYPE", VStr "defects") ];
     CuratedCalibs.body := "" |}.

(** Validated recipes in which the mask plane has a seed of its own. *)
Definition own_seed : FitsExposure.Recipes :=
  Eval vm_compute in
    match FitsExposure.validateWriteRecipes py0
            (Some [ ("default", [ ("image", []);
                                  ("mask", [ ("scaling", [ ("seed", VInt 7) ]) ]);
                                  ("variance", []) ]) ]) with
    | Ok (Some v) => v
    | _ => []
    end.

(** A recipe whose image seed is set:
    [{"default": {"image": {"scaling": {"seed": 5}}}}]. *)
Definition seed5_recipes : FitsExposure.Recipes :=
  [ ("default", [ ("image", [ ("scaling", [ ("seed", VInt 5) ]) ]) ]) ].

(** The recipe returned and the recipes left by one resolution of
    [seed0_recipes] for visit 1. *)
Definition seed0_resolved : FitsExposure.Recipe * FitsExposure.Recipes :=
  Eval vm_compute in
    match FitsExposure.getImageCompressionSettings py0 seed0_recipes
            [("visit", VInt 1)] None with
    | Ok p => p
    | Raise _ => ([], [])
    end.

(** A store that appends the extension to both paths and a dataset whose
    writes succeed. *)
Definition store_env : FitsExposure.WriteEnv :=
  {| FitsExposure.updateExtension :=
       fun location ext =>
         {| FitsExposure.path := FitsExposure.path location ++ ext;
            FitsExposure.pathInStore := FitsExposure.pathInStore location ++ ext |};
     FitsExposure.dataset_write := fun _ => Ok tt |}.

Definition calexp : FitsExposure.Location :=
  {| FitsExposure.path := "/repo/calexp/v1"; FitsExposure.pathInStore := "calexp/v1" |}.

(** A read of [fd] whose stored type cannot be built from a path and whose
    header is a list of keys: the two functions that strip it remove the
    bounding box and the coordinate system keys. *)
Definition read_env (differ : bool) : FitsExposure.ReadEnv string (list string) :=
  {| FitsExposure.fileDescriptor := fd;
     FitsExposure.storageClasses_differ := differ;
     FitsExposure.readStorageClass_name := "Wcs";
     FitsExposure.storageClass_name := "ExposureF";
     FitsExposure.pytype := fun _ _ => Raise (TypeError "no constructor from a path");
     FitsExposure.afw_readMetadata := fun _ => Ok ["LTV1"; "CRVAL1"; "EXPTIME"];
     FitsExposure.fix_header := fun md => md;
     FitsExposure.bboxFromMetadata :=
       fun md => Ok (filter (fun k => negb (String.eqb k "LTV1")) md);
     FitsExposure.makeSkyWcs_strip :=
       fun md => Ok (filter (fun k => negb (String.eqb k "CRVAL1")) md) |}.

(** A registry that accepts every insertion and knows a data ID once a
    record of its calibration label has been inserted. *)
Definition is_label (call : InstrumentBase.RegistryCall) : bool :=
  match call with
  | InstrumentBase.insertDimensionData element _ => String.eqb element "calibration_label"
  end.

Definition label_registry : InstrumentBase.Registry (Dict.t string PyVal) :=
  {| InstrumentBase.refuses := fun _ _ => None;
     InstrumentBase.expandDataId :=
       fun inserted d =>
         if existsb is_label inserted then InstrumentBase.Done d
         else InstrumentBase.Failed (InstrumentBase.LookupError "calibration_label") |}.

(** A filter with an abstract filter and one without. *)
Definition two_filters : list InstrumentBase.FilterDefinition :=
  [ {| InstrumentBase.physical_filter := "F158";
       InstrumentBase.abstract_filter := Some "H" |};
    {| InstrumentBase.physical_filter := "GRISM";
       InstrumentBase.abstract_filter := None |} ].

End Examples.

(** ** Facts about results and dictionaries *)

Lemma bind_Ok_inv {A B : Type} (c : result A) (k : A -> result B) (b : B) :
  bind c k = Ok b -> exists a, c = Ok a /\ k a = Ok b.
Proof. destruct c as [a|e]; simpl; [eauto | discriminate]. Qed.

Lemma bind_Raise_inv {A B : Type} (c : result A) (k : A -> result B) (e : exn) :
  bind c k = Raise e -> c = Raise e \/ exists a, c = Ok a /\ k a = Raise e.
Proof. destruct c as [a|e']; simpl; [eauto | intros [= ->]; auto]. Qed.

Lemma result_cases {A : Type} (c : result A) : (exists a, c = Ok a) \/ raises c.
Proof. destruct c; [left | right]; eexists; reflexivity. Qed.

Section DictFacts.
Context {K V : Type} `{Key K}.

Lemma key_eqb_refl (k : K) : key_eqb k k = true.
Proof. destruct (key_eqb_spec k k); congruence. Qed.

Lemma key_eqb_neq (a b : K) : a <> b -> key_eqb a b = false.
Proof. destruct (key_eqb_spec a b); congruence. Qed.

Lemma get_set_same (k : K) (v : V) (d : Dict.t K V) :
  Dict.get k (Dict.set k v d) = Some v.
Proof.
  induction d as [|[k' v'] r IH]; simpl.
  - now rewrite key_eqb_refl.
  - destruct (key_eqb_spec k k') as [->|Hne]; simpl.
    + now rewrite key_eqb_refl.
    + now rewrite (key_eqb_neq _ _ Hne).
Qed.

Lemma get_set_other (k k' : K) (v : V) (d : Dict.t K V) :
  k' <> k -> Dict.get k' (Dict.set k v d) = Dict.get k' d.
Proof.
  intros Hne. induction d as [|[k0 v0] r IH]; simpl.
  - now rewrite (key_eqb_neq _ _ Hne).
  - destruct (key_eqb_spec k k0) as [->|Hk]; simpl.
    + now rewrite (key_eqb_neq _ _ Hne).
    + destruct (key_eqb k' k0); auto.
Qed.

Lemma get_None_not_In (k : K) (d : Dict.t K V) :
  Dict.get k d = None <-> ~ In k (Dict.keys d).
Proof.
  induction d as [|[k' v'] r IH]; simpl.
  - tauto.
  - destruct (key_eqb_spec k k') as [->|Hne].
    + split; [discriminate | intros Hn; exfalso; auto].
    + rewrite IH. split; intros Hn; [intros [E|Hin]; congruence | auto].
Qed.

Lemma get_Some_In (k : K) (v : V) (d : Dict.t K V) :
  Dict.get k d = Some v -> In (k, v) d.
Proof.
  induction d as [|[k' v'] r IH]; simpl; [discriminate|].
  destruct (key_eqb_spec k k') as [->|Hne].
  - intros [= ->]. now left.
  - intros Hg. right. auto.
Qed.

Lemma In_get_NoDup (k : K) (v : V) (d : Dict.t K V) :
  NoDup (Dict.keys d) -> In (k, v) d -> Dict.get k d = Some v.
Proof.
  induction d as [|[k' v'] r IH]; simpl; [tauto|].
  intros Hnd [E|Hin].
  - injection E as -> ->. now rewrite key_eqb_refl.
  - inversion Hnd as [|? ? Hni Hnd']; subst.
    destruct (key_eqb_spec k k') as [->|Hne].
    + exfalso. apply Hni. change (In (fst (k', v)) (map fst r)). now apply in_map.
    + auto.
Qed.

Lemma set_absent (k : K) (v : V) (d : Dict.t K V) :
  Dict.get k d = None -> Dict.set k v d = (d ++ [(k, v)])%list.
Proof.
  induction d as [|[k' v'] r IH]; simpl; [reflexivity|].
  destruct (key_eqb k k'); [discriminate|].
  intros Hg. now rewrite IH.
Qed.

Lemma In_set (k : K) (v : V) (d : Dict.t K V) (kv : K * V) :
  In kv (Dict.set k v d) -> kv = (k, v) \/ In kv d.
Proof.
  induction d as [|[k' v'] r IH]; simpl.
  - intros [<-|[]]. now left.
  - destruct (key_eqb k k'); simpl.
    + intros [<-|Hin]; [now left | right; now right].
    + intros [<-|Hin]; [right; now left |].
      destruct (IH Hin) as [->|Hr]; [now left | right; now right].
Qed.

Lemma In_keys_set (k k' : K) (v : V) (d : Dict.t K V) :
  In k' (Dict.keys (Dict.set k v d)) <-> k' = k \/ In k' (Dict.keys d).
Proof.
  induction d as [|[k0 v0] r IH]; simpl.
  - intuition.
  - destruct (key_eqb_spec k k0) as [->|Hne]; simpl; intuition.
Qed.

Lemma NoDup_keys_set (k : K) (v : V) (d : Dict.t K V) :
  NoDup (Dict.keys d) -> NoDup (Dict.keys (Dict.set k v d)).
Proof.
  induction d as [|[k' v'] r IH]; simpl; intros Hnd.
  - constructor; [tauto | constructor].
  - inversion Hnd as [|? ? Hni Hnd']; subst.
    destruct (key_eqb_spec k k') as [->|Hne]; simpl.
    + now constructor.
    + constructor; [|auto].
      intros Hin. apply In_keys_set in Hin. destruct Hin; congruence || auto.
Qed.

Lemma Forall_set (P : K * V -> Prop) (k : K) (v : V) (d : Dict.t K V) :
  Forall P d -> P (k, v) -> Forall P (Dict.set k v d).
Proof.
  intros Hd Hkv. apply Forall_forall. intros kv Hin.
  apply In_set in Hin. destruct Hin as [->|Hin]; [assumption|].
  revert kv Hin. now apply Forall_forall.
Qed.

Lemma Forall_values_set (P : V -> Prop) (k : K) (v : V) (d : Dict.t K V) :
  Forall P (Dict.values d) -> P v -> Forall P (Dict.values (Dict.set k v d)).
Proof.
  unfold Dict.values. rewrite !Forall_forall. intros Hd Hv x Hin.
  apply in_map_iff in Hin. destruct Hin as [[k' v'] [<- Hin]].
  apply In_set in Hin. destruct Hin as [[= -> ->]|Hin]; [exact Hv|].
  apply Hd. apply in_map_iff. now exists (k', v').
Qed.

End DictFacts.

(** ** The formatter: component reads *)

Section ReadComponentFacts.
Import FitsExposure.
Variable Obj : Type.
Variable fd : FileDescriptor Obj.

(** The table holds exactly the eighteen component names. *)
Lemma componentMap_keys :
  Dict.keys componentMap =
  ["wcs"; "coaddInputs"; "psf"; "image"; "mask"; "variance"; "photoCalib"; "bbox";
   "xy0"; "metadata"; "filter"; "polygon"; "apCorrMap"; "visitInfo";
   "transmissionCurve"; "detector"; "extras"; "exposureInfo"].
Proof. reflexivity. Qed.

(** Every method name of the table is a non-empty string, so the [else]
    branch that raises [KeyError] is never taken for a name of the table. *)
Lemma componentMap_methods_truthy (component method : string) (hasParams : bool) :
  Dict.get component componentMap = Some (method, hasParams) -> method <> "".
Proof.
  intros Hget. apply get_Some_In in Hget.
  unfold componentMap in Hget. simpl in Hget.
  repeat (destruct Hget as [Hget|Hget]; [inversion Hget; subst; discriminate|]).
  contradiction.
Qed.

(** Outside the table the unpacking of [None] fails before the function
    reaches either branch. *)
Lemma readComponent_outside_table (component : string) (parameters : option Parameters) :
  Dict.get component componentMap = None ->
  readComponent Obj fd component parameters
  = Raise (TypeError "cannot unpack non-iterable NoneType object").
Proof. intros Hget. unfold readComponent. now rewrite Hget. Qed.

(** C2: for a component name outside the table, here ["foo"], [readComponent]
    does not raise the documented [KeyError] naming the component: the
    unpacking of what [componentMap.get(component, None)] returned raises a
    [TypeError] whose text does not mention the component. *)
Theorem readComponent_unknown_is_TypeError (parameters : option Parameters) :
  readComponent Obj fd "foo" parameters
  = Raise (TypeError "cannot unpack non-iterable NoneType object")
  /\ readComponent Obj fd "foo" parameters
     <> Raise (KeyError (unknown_component_msg "foo")).
Proof.
  assert (E : readComponent Obj fd "foo" parameters
              = Raise (TypeError "cannot unpack non-iterable NoneType object"))
    by (apply readComponent_outside_table; reflexivity).
  split; [exact E | rewrite E; discriminate].
Qed.

End ReadComponentFacts.

(** ** The formatter: seeds of the compression settings *)

Section SeedFacts.
Import FitsExposure.
Variable py : PyEnv.


Lemma set_seed_other (seed : Z) (recipe : Recipe) (plane plane' : string) :
  plane' <> plane ->
  Dict.get plane' (set_seed seed recipe plane) = Dict.get plane' recipe.
Proof.
  intros Hne. unfold set_seed.
  destruct (Dict.get plane recipe) as [p|]; [|reflexivity].
  destruct (Dict.get "scaling" p) as [scaling|]; [|reflexivity].
  destruct (Dict.get "seed" scaling) as [v|]; [|reflexivity].
  destruct (eq_zero v); [|reflexivity].
  now apply get_set_other.
Qed.

Lemma recipe_seed_other (seed : Z) (recipe : Recipe) (plane plane' : string) :
  plane' <> plane ->
  recipe_seed plane' (set_seed seed recipe plane) = recipe_seed plane' recipe.
Proof. intros Hne. unfold recipe_seed. now rewrite set_seed_other. Qed.

Lemma set_seed_sentinel (seed : Z) (recipe : Recipe) (plane : string) (v : PyVal) :
  recipe_seed plane recipe = Some v -> eq_zero v = true ->
  recipe_seed plane (set_seed seed recipe plane) = Some (VInt seed).
Proof.
  unfold recipe_seed, set_seed.
  destruct (Dict.get plane recipe) as [p|]; [|discriminate].
  destruct (Dict.get "scaling" p) as [scaling|]; [|discriminate].
  intros -> ->. now rewrite !get_set_same.
Qed.

Lemma set_seed_kept (seed : Z) (recipe : Recipe) (plane : string) (v : PyVal) :
  recipe_seed plane recipe = Some v -> eq_zero v = false ->
  set_seed seed recipe plane = recipe.
Proof.
  unfold recipe_seed, set_seed.
  destruct (Dict.get plane recipe) as [p|]; [|discriminate].
  destruct (Dict.get "scaling" p) as [scaling|]; [|discriminate].
  now intros -> ->.
Qed.

(** The loop over the three planes, seen from the image plane. *)
Lemma image_seed_after_loop (seed : Z) (recipe : Recipe) :
  recipe_seed "image" (fold_left (set_seed seed) planes recipe)
  = recipe_seed "image" (set_seed seed recipe "image").
Proof. simpl. now rewrite 2 recipe_seed_other by discriminate. Qed.

(** What a resolution of the default recipe returns and leaves behind. *)
Lemma resolve_default (writeRecipes : Recipes) (recipe : Recipe)
  (dataId : Dict.t string PyVal) :
  Dict.get "default" writeRecipes = Some recipe ->
  getImageCompressionSettings py writeRecipes dataId None
  = Ok (fold_left (set_seed (seed_of py dataId)) planes recipe,
        Dict.set "default" (fold_left (set_seed (seed_of py dataId)) planes recipe)
                 writeRecipes).
Proof.
  intros Hget. unfold getImageCompressionSettings, Dict.mem. now rewrite Hget.
Qed.


(** The seed is written into the stored recipe: a later resolution of the
    same store finds a seed that is no longer the sentinel and returns it,
    whatever the identity it is given. *)
Lemma stored_seed_is_returned_again
  (writeRecipes : Recipes) (recipe : Recipe) (v : PyVal)
  (dataId1 dataId2 : Dict.t string PyVal) :
  Dict.get "default" writeRecipes = Some recipe ->
  recipe_seed "image" recipe = Some v ->
  eq_zero v = true ->
  seed_of py dataId1 <> 0 ->
  exists recipe1 store1 recipe2 store2,
    getImageCompressionSettings py writeRecipes dataId1 None = Ok (recipe1, store1)
    /\ getImageCompressionSettings py store1 dataId2 None = Ok (recipe2, store2)
    /\ recipe_seed "image" recipe2 = Some (VInt (seed_of py dataId1)).
Proof.
  intros Hget Hseed Hzero Hnz.
  do 4 eexists. split; [apply resolve_default; eassumption|].
  split; [apply resolve_default; apply get_set_same|].
  rewrite image_seed_after_loop.
  assert (H1 : recipe_seed "image"
                 (fold_left (set_seed (seed_of py dataId1)) planes recipe)
               = Some (VInt (seed_of py dataId1))).
  { rewrite image_seed_after_loop. eapply set_seed_sentinel; eassumption. }
  rewrite (set_seed_kept _ _ _ _ H1); [exact H1|].
  simpl. now apply Z.eqb_neq.
Qed.

End SeedFacts.



(** ** The loader: path metadata against header metadata *)

Section FormatFacts.
Variable py : PyEnv.

Lemma pct_format_cons (c : ascii) (rest : string) (arg : option string) :
  c <> "%"%char ->
  Py.pct_format py (String c rest) arg
  = (r <- Py.pct_format py rest arg ;; Ok (String c r)).
Proof.
  intros Hc.
  destruct c as [[] [] [] [] [] [] [] []]; try reflexivity.
  exfalso. now apply Hc.
Qed.

Lemma no_pct_cons (c : ascii) (r : string) :
  Py.no_pct (String c r) = true -> c <> "%"%char /\ Py.no_pct r = true.
Proof.
  simpl. intros Hn. apply andb_prop in Hn. destruct Hn as [Hc Hr].
  split; [|exact Hr].
  intros ->. discriminate.
Qed.

(** Text without a percent sign is copied, and an argument is left over. *)
Lemma pct_format_plain (s : string) :
  Py.no_pct s = true -> Py.pct_format py s None = Ok s.
Proof.
  induction s as [|c r IH]; [reflexivity|].
  intros Hn. apply no_pct_cons in Hn. destruct Hn as [Hc Hr].
  rewrite pct_format_cons by exact Hc. now rewrite IH.
Qed.

(** A single [%s] in otherwise plain text takes the argument. *)
Lemma pct_format_one (s t a : string) :
  Py.no_pct s = true -> Py.no_pct t = true ->
  Py.pct_format py (s ++ "%s" ++ t) (Some a) = Ok (s ++ a ++ t).
Proof.
  intros Hs Ht. induction s as [|c r IH].
  - simpl. now rewrite pct_format_plain.
  - apply no_pct_cons in Hs. destruct Hs as [Hc Hr].
    change (String c r ++ "%s" ++ t) with (String c (r ++ "%s" ++ t)).
    rewrite pct_format_cons by exact Hc. now rewrite IH.
Qed.

(** A [%s] met after the argument was taken is an error. *)
Lemma pct_format_second (s t a : string) :
  Py.no_pct s = true ->
  Py.pct_format py (s ++ "%s" ++ t) None
  = Raise (TypeError "not enough arguments for format string").
Proof.
  intros Hs. induction s as [|c r IH].
  - reflexivity.
  - apply no_pct_cons in Hs. destruct Hs as [Hc Hr].
    change (String c r ++ "%s" ++ t) with (String c (r ++ "%s" ++ t)).
    rewrite pct_format_cons by exact Hc. now rewrite IH.
Qed.

End FormatFacts.

Section CheckMetadataFacts.
Import CuratedCalibs.
Variable py : PyEnv.

Lemma triple_eqb_spec (a : string) (b : Z) (c : string) (t : string * Z * string) :
  (String.eqb a (fst (fst t)) && (b =? snd (fst t)) && String.eqb c (snd t)) = true
  <-> (a, b, c) = t.
Proof.
  destruct t as [[a' b'] c']. simpl.
  rewrite !andb_true_iff, !String.eqb_eq, Z.eqb_eq.
  split; [intros [[-> ->] ->]; reflexivity | intros [= -> -> ->]; auto].
Qed.

(** [check_metadata] decided by the two triples, for a header from which
    the triple can be read. *)
Lemma check_metadata_decided (obj : Calib) (valid_start : datetime)
  (instrument : string) (chip_id : Z) (filepath data_name : string)
  (t : string * Z * string) :
  header_triple py obj = Ok t ->
  (t = path_triple instrument chip_id data_name ->
   check_metadata py obj valid_start instrument chip_id filepath data_name = Ok tt)
  /\ (t <> path_triple instrument chip_id data_name ->
      raises (check_metadata py obj valid_start instrument chip_id filepath data_name)).
Proof.
  unfold header_triple, check_metadata.
  destruct (Dict.getitem "INSTRUME" (getMetadata obj)) as [finst|]; [|discriminate].
  destruct (Dict.getitem "DETECTOR" (getMetadata obj)) as [fchip|]; [|discriminate].
  destruct (Dict.getitem "OBSTYPE" (getMetadata obj)) as [fdata|]; [|discriminate].
  cbn [bind].
  destruct (lower_of finst) as [a|]; [|discriminate]. cbn [bind].
  destruct (Py.int py fchip) as [b|]; [|discriminate]. cbn [bind].
  destruct (lower_of fdata) as [c|]; [|discriminate]. cbn [bind].
  intros [= <-].
  pose proof (triple_eqb_spec a b c (path_triple instrument chip_id data_name)) as Hspec.
  unfold path_triple in *. cbn [fst snd] in Hspec.
  destruct (String.eqb a (Py.lower instrument) && (b =? chip_id)
            && String.eqb c (Py.lower data_name)).
  - split; [reflexivity|]. intros Hne. exfalso. apply Hne. now apply Hspec.
  - split.
    + intros Heq. apply Hspec in Heq. discriminate.
    + intros _.
      destruct (Py.pct_format py _ _) as [msg|e]; cbn [bind]; eexists; reflexivity.
Qed.

(** The same, as an equivalence: an error exactly on a mismatch. *)
Lemma check_metadata_raises_iff (obj : Calib) (valid_start : datetime)
  (instrument : string) (chip_id : Z) (filepath data_name : string)
  (t : string * Z * string) :
  header_triple py obj = Ok t ->
  (raises (check_metadata py obj valid_start instrument chip_id filepath data_name)
   <-> t <> path_triple instrument chip_id data_name).
Proof.
  intros Ht.
  destruct (check_metadata_decided obj valid_start instrument chip_id filepath
              data_name t Ht) as [Heq Hne].
  split; [|exact Hne].
  intros [e He] Hsame. rewrite (Heq Hsame) in He. discriminate.
Qed.

(** Where no field of the report holds a percent sign, the mismatch is
    reported by a [ValueError] whose text holds the path triple, the header
    triple and the file name. *)
Lemma check_metadata_mismatch_report (obj : Calib) (valid_start : datetime)
  (instrument : string) (chip_id : Z) (filepath data_name : string)
  (finst fdata_name : string) (fchip_id : PyVal) (b : Z) :
  Dict.get "INSTRUME" (getMetadata obj) = Some (VStr finst) ->
  Dict.get "DETECTOR" (getMetadata obj) = Some fchip_id ->
  Dict.get "OBSTYPE" (getMetadata obj) = Some (VStr fdata_name) ->
  Py.int py fchip_id = Ok b ->
  (Py.lower finst, b, Py.lower fdata_name) <> path_triple instrument chip_id data_name ->
  Py.no_pct (mismatch_prefix py instrument chip_id data_name
               (VStr finst) fchip_id (VStr fdata_name)) = true ->
  check_metadata py obj valid_start instrument chip_id filepath data_name
  = Raise (ValueError
             (mismatch_prefix py instrument chip_id data_name
                (VStr finst) fchip_id (VStr fdata_name) ++ filepath ++ newline)).
Proof.
  intros Hi Hd Ho Hint Hne Hplain.
  unfold check_metadata, Dict.getitem. rewrite Hi, Hd, Ho. cbn [bind lower_of].
  rewrite Hint. cbn [bind].
  pose proof (triple_eqb_spec (Py.lower finst) b (Py.lower fdata_name)
                (path_triple instrument chip_id data_name)) as Hspec.
  unfold path_triple in *. cbn [fst snd] in Hspec.
  destruct (String.eqb (Py.lower finst) (Py.lower instrument) && (b =? chip_id)
            && String.eqb (Py.lower fdata_name) (Py.lower data_name)).
  - exfalso. apply Hne. now apply Hspec.
  - unfold mismatch_format. rewrite pct_format_one; [reflexivity | exact Hplain | reflexivity].
Qed.

(** C5: on a mismatch whose header text holds [%s], the report is never
    built: applying [%] to the filled-in f-string fails, and the error is a
    [TypeError] that holds neither triple nor the file name. *)
Theorem check_metadata_percent_in_header :
  header_triple py Examples.percent_header = Ok ("lsst%scam", 3, "defects")
  /\ path_triple "LSSTCam" 3 "defects" = ("lsstcam", 3, "defects")
  /\ check_metadata py Examples.percent_header 0 "LSSTCam" 3
       "LSSTCam/defects/ccd01/2021-05-01T00:00:00.yaml" "defects"
     = Raise (TypeError "not enough arguments for format string").
Proof. repeat split; vm_compute; reflexivity. Qed.

End CheckMetadataFacts.

(** ** The loader: aggregation over the sensor directories *)

Lemma in_names_In (x : string) (l : list string) : in_names x l = true <-> In x l.
Proof.
  unfold in_names. rewrite existsb_exists. split.
  - intros [y [Hin Heq]]. apply String.eqb_eq in Heq. now subst.
  - intros Hin. exists x. split; [exact Hin | apply String.eqb_refl].
Qed.

Lemma Forall2_In_l {A B : Type} (R : A -> B -> Prop) (l : list A) (l' : list B) (a : A) :
  Forall2 R l l' -> In a l -> exists b, In b l' /\ R a b.
Proof.
  induction 1 as [|x y l l' Hxy _ IH]; simpl; [tauto|].
  intros [->|Hin]; [eauto | destruct (IH Hin) as [b [Hb Hr]]; eauto].
Qed.

Lemma forallb_false_witness {A : Type} (f : A -> bool) (l : list A) :
  forallb f l = false -> exists a, In a l /\ f a = false.
Proof.
  induction l as [|x r IH]; simpl; [discriminate|].
  destruct (f x) eqn:Hx; simpl.
  - intros Hr. destruct (IH Hr) as [a [Ha Hf]]. eauto.
  - intros _. eauto.
Qed.

Section AggregateFacts.
Import CuratedCalibs.
Variable py : PyEnv.
Variable fs : FsEnv.
Variable loader : string -> string -> Z -> result (ChipData * string).
Variable root : string.
Variable camera : Camera.

Local Abbreviation load := (load_sensor loader root camera).
Local Abbreviation loop := (read_dirs py loader root camera).

Lemma set_add_single (c : string) (types : list string) :
  List.length (set_add c types) = 1%nat -> types = [] \/ types = [c].
Proof.
  unfold set_add. destruct (in_names c types) eqn:Hin.
  - intros Hlen. right. destruct types as [|x [|y r]]; try discriminate.
    apply in_names_In in Hin. destruct Hin as [->|[]]. reflexivity.
  - rewrite length_app. simpl. intros Hlen. left.
    destruct types; [reflexivity | simpl in Hlen; lia].
Qed.

Lemma set_add_same (c : string) : set_add c [c] = [c].
Proof. unfold set_add, in_names. simpl. now rewrite String.eqb_refl. Qed.


(** One iteration that loads and keeps the single category. *)
Lemma loop_step (d : string) (rest : list string) (data : ChipData) (c : string)
  (dbc : Dict.t string ChipData) (types : list string) (ct : option string) :
  load d = Ok (data, c) -> types = [] \/ types = [c] ->
  loop (d :: rest) dbc types ct
  = loop rest (Dict.set (Path.basename d) data dbc) [c] (Some c).
Proof.
  intros Hload Htypes. cbn [read_dirs]. rewrite Hload. cbn [bind].
  destruct Htypes as [->| ->]; [reflexivity | now rewrite set_add_same].
Qed.

(** A run of directories that all load with category [c]. *)
Lemma loop_run (pre rest : list string) (datas : list ChipData) (c : string) :
  Forall2 (fun d data => load d = Ok (data, c)) pre datas ->
  forall (dbc : Dict.t string ChipData) (types : list string) (ct : option string),
  types = [] \/ types = [c] ->
  pre <> [] ->
  loop (pre ++ rest) dbc types ct = loop rest (store_all pre datas dbc) [c] (Some c).
Proof.
  induction 1 as [|d data pre' datas' Hd Hrest IH]; intros dbc types ct Htypes Hne.
  - congruence.
  - rewrite <- app_comm_cons. rewrite (loop_step _ _ _ _ _ _ _ Hd Htypes).
    destruct pre' as [|d' pre''].
    + inversion Hrest; subst. reflexivity.
    + rewrite IH; [reflexivity | now right | discriminate].
Qed.

(** What a loop that ends normally has done. *)
Lemma loop_Ok_inv (dirs : list string) :
  forall (dbc : Dict.t string ChipData) (types : list string) (ct : option string)
         (out : Dict.t string ChipData) (ct' : option string),
  loop dirs dbc types ct = Ok (out, ct') ->
  (dirs = [] /\ out = dbc /\ ct' = ct)
  \/ exists c datas,
       ct' = Some c
       /\ Forall2 (fun d data => load d = Ok (data, c)) dirs datas
       /\ out = store_all dirs datas dbc
       /\ (types = [] \/ types = [c]).
Proof.
  induction dirs as [|d rest IH]; intros dbc types ct out ct' Hrun.
  - left. cbn in Hrun. injection Hrun as <- <-. auto.
  - right. cbn [read_dirs] in Hrun.
    destruct (load d) as [[data c]|e] eqn:Hload; [|discriminate].
    cbn [bind] in Hrun.
    destruct (Nat.eqb (List.length (set_add c types)) 1) eqn:Hlen; [|discriminate].
    cbn [negb] in Hrun. apply Nat.eqb_eq in Hlen.
    pose proof (set_add_single _ _ Hlen) as Htypes.
    assert (Hset : set_add c types = [c]).
    { destruct Htypes as [->| ->]; [reflexivity | apply set_add_same]. }
    rewrite Hset in Hrun.
    apply IH in Hrun. destruct Hrun as [[-> [-> ->]]|[c2 [datas [-> [Hall [-> Hc]]]]]].
    + exists c, [data]. repeat split; auto.
    + assert (c2 = c) as -> by (destruct Hc as [Hc|Hc]; congruence).
      exists c, (data :: datas). repeat split; auto.
Qed.

(** Stored data: every value was there before or is one of [datas]. *)
Lemma store_all_values (P : ChipData -> Prop) (dirs : list string) :
  forall (datas : list ChipData) (dbc : Dict.t string ChipData),
  Forall P datas -> Forall P (Dict.values dbc) ->
  Forall P (Dict.values (store_all dirs datas dbc)).
Proof.
  unfold store_all.
  induction dirs as [|d rest IH]; intros datas dbc Hdatas Hdbc; [exact Hdbc|].
  destruct datas as [|data datas']; [exact Hdbc|].
  cbn [combine fold_left fst snd]. inversion Hdatas as [|? ? Hd Hds]; subst.
  apply IH; [exact Hds|].
  apply Forall_values_set; assumption.
Qed.

(** Stored data: every key was there before or names one of [dirs]. *)
Lemma store_all_keys (dirs : list string) :
  forall (datas : list ChipData) (dbc : Dict.t string ChipData) (k : string),
  In k (Dict.keys (store_all dirs datas dbc)) ->
  In k (Dict.keys dbc) \/ In k (map Path.basename dirs).
Proof.
  unfold store_all.
  induction dirs as [|d rest IH]; intros datas dbc k Hin; [now left|].
  destruct datas as [|data datas']; [now left|].
  cbn [combine fold_left fst snd] in Hin. apply IH in Hin.
  destruct Hin as [Hin|Hin]; [|right; now right].
  apply In_keys_set in Hin. destruct Hin as [->|Hin]; [right; now left | now left].
Qed.

Lemma no_data_messages_differ (path : string) :
  "No data found on path " ++ path <> "No data to ingest".
Proof. simpl. discriminate. Qed.

End AggregateFacts.

Section ReadAllWithFacts.
Import CuratedCalibs.
Variable py : PyEnv.
Variable fs : FsEnv.
Variable loader : string -> string -> Z -> result (ChipData * string).
Variable root : string.
Variable camera : Camera.

Local Abbreviation nroot := (normpath fs root).
Local Abbreviation load := (load_sensor loader nroot camera).
Local Abbreviation loop := (read_dirs py loader nroot camera).

Lemma read_all_with_no_dirs :
  sensor_dirs fs root = Ok [] ->
  read_all_with py fs loader root camera
  = Raise (RuntimeError ("No data found on path " ++ nroot)).
Proof. intros Hd. unfold read_all_with. now rewrite Hd. Qed.

Lemma read_all_with_some_dirs (dirs : list string) :
  sensor_dirs fs root = Ok dirs -> dirs <> [] ->
  read_all_with py fs loader root camera
  = (' (data_by_chip, calib_type) <- loop dirs [] [] None ;;
     if forallb Dict.is_empty (Dict.values data_by_chip)
     then Raise (RuntimeError "No data to ingest")
     else Ok (data_by_chip, calib_type)).
Proof.
  intros Hd Hne. unfold read_all_with. rewrite Hd. cbn [bind].
  destruct dirs; [congruence | reflexivity].
Qed.

(** A normal return: every directory loaded, with one category, and some
    sensor has a record. *)
Lemma read_all_with_Ok_inv (dirs : list string)
  (data : Dict.t string ChipData) (ct : option string) :
  sensor_dirs fs root = Ok dirs ->
  read_all_with py fs loader root camera = Ok (data, ct) ->
  exists c datas,
    ct = Some c
    /\ Forall2 (fun d records => load d = Ok (records, c)) dirs datas
    /\ data = store_all dirs datas []
    /\ forallb Dict.is_empty (Dict.values data) = false.
Proof.
  intros Hd Hrun.
  destruct dirs as [|d0 rest] eqn:Hdirs.
  - rewrite (read_all_with_no_dirs Hd) in Hrun. discriminate.
  - rewrite (read_all_with_some_dirs (d0 :: rest) Hd) in Hrun by discriminate.
    destruct (loop (d0 :: rest) [] [] None) as [[dbc ct0]|e] eqn:Hloop; [|discriminate].
    cbn [bind] in Hrun.
    destruct (forallb Dict.is_empty (Dict.values dbc)) eqn:Hempty; [discriminate|].
    injection Hrun as <- <-.
    apply loop_Ok_inv in Hloop.
    destruct Hloop as [[Hnil _]|[c [datas [-> [Hall [-> _]]]]]]; [discriminate|].
    exists c, datas. auto.
Qed.

(** The first directory that does not load decides the error. *)
Lemma read_all_with_first_failure (dirs pre post : list string) (d : string)
  (c : string) (e : exn) :
  sensor_dirs fs root = Ok dirs -> dirs = (pre ++ d :: post)%list ->
  (forall d', In d' pre -> exists records, load d' = Ok (records, c)) ->
  load d = Raise e ->
  read_all_with py fs loader root camera = Raise e.
Proof.
  intros Hd -> Hpre Hfail.
  rewrite (read_all_with_some_dirs _ Hd) by (destruct pre; discriminate).
  assert (Hloop : loop (pre ++ d :: post)%list [] [] None = Raise e).
  { assert (Hstep : forall dbc types ct, loop (d :: post) dbc types ct = Raise e).
    { intros. cbn [read_dirs]. now rewrite Hfail. }
    destruct pre as [|p0 pre'] eqn:Hp; [apply Hstep|]. rewrite <- Hp in *.
    assert (Hdatas : exists datas,
               Forall2 (fun d' records => load d' = Ok (records, c)) pre datas).
    { clear Hd Hp. induction pre as [|x r IH]; [exists []; constructor|].
      destruct (Hpre x (or_introl eq_refl)) as [rx Hx].
      destruct IH as [rs Hrs]; [intros; apply Hpre; now right|].
      exists (rx :: rs). now constructor. }
    destruct Hdatas as [datas Hall].
    rewrite (loop_run py loader nroot camera pre (d :: post) datas c Hall);
      [apply Hstep | now left | subst pre; discriminate]. }
  now rewrite Hloop.
Qed.


End ReadAllWithFacts.


(** ** The loader, with the sensor files read by [read_one_chip] *)

Section ReadAllFacts.
Import CuratedCalibs.
Variable py : PyEnv.
Variable fs : FsEnv.

(** The category a sensor yields is the last segment of the root, whatever
    the sensor: under one root no two sensors can differ in it. *)
Lemma read_one_chip_category (root chip_name : string) (chip_id : Z)
  (data : ChipData) (c : string) :
  read_one_chip py fs root chip_name chip_id = Ok (data, c) ->
  c = snd (Path.split root).
Proof.
  unfold read_one_chip.
  destruct (Dict.get (snd (Path.split root)) factory_map) as [factory|]; [|discriminate].
  destruct (read_files py fs factory _ chip_id _ _ []) as [dd|e]; [|discriminate].
  cbn [bind]. now intros [= _ <-].
Qed.

Lemma load_sensor_category (root : string) (camera : Camera) (d : string)
  (data : ChipData) (c : string) :
  load_sensor (read_one_chip py fs) root camera d = Ok (data, c) ->
  c = snd (Path.split root).
Proof.
  unfold load_sensor.
  destruct (Dict.get (Path.basename d) (name_map camera)) as [canonical|]; [|discriminate].
  destruct (camera_getitem camera canonical) as [det|e]; [|discriminate].
  cbn [bind]. apply read_one_chip_category.
Qed.

Lemma shown_detectors_bound (camera : Camera) :
  (List.length (snd (shown_detectors camera)) <= 10)%nat
  /\ snd (shown_detectors camera) = firstn 10 (map detName (detectors camera))
  /\ (fst (shown_detectors camera) = "examples"
      <-> (10 < List.length (detectors camera))%nat)
  /\ (fst (shown_detectors camera) = "knows"
      <-> snd (shown_detectors camera) = map detName (detectors camera)).
Proof.
  unfold shown_detectors, max_detectors. rewrite length_map.
  destruct (Nat.ltb_spec 10 (List.length (detectors camera))) as [Hlt|Hle]; cbn [fst snd].
  - split; [rewrite length_firstn; lia|]. split; [reflexivity|].
    split; [tauto|]. split; [discriminate|].
    intros Heq. apply (f_equal (@List.length string)) in Heq.
    rewrite length_firstn, length_map in Heq. lia.
  - split; [rewrite length_map; exact Hle|].
    split; [symmetry; apply firstn_all2; rewrite length_map; exact Hle|].
    split; [split; [discriminate | lia] | tauto].
Qed.

(** C6: when a directory under the root does not resolve in the name
    table, [read_all] never returns normally; when every directory listed
    before it loads, the error is the report on that directory, which names
    it and the camera and lists the first ten detector names at most, under
    "examples" exactly when the camera has more than ten. *)
Theorem read_all_unknown_detector (root : string) (camera : Camera)
  (dirs pre post : list string) (d : string) :
  sensor_dirs fs root = Ok dirs ->
  dirs = (pre ++ d :: post)%list ->
  Dict.get (Path.basename d) (name_map camera) = None ->
  raises (read_all py fs root camera)
  /\ ((forall d', In d' pre ->
         exists records c,
           load_sensor (read_one_chip py fs) (normpath fs root) camera d'
           = Ok (records, c)) ->
      read_all py fs root camera
      = Raise (RuntimeError
                 ("Detector " ++ Path.basename d ++ " not known to supplied camera "
                  ++ cameraName camera ++ " (" ++ fst (shown_detectors camera) ++ ": "
                  ++ Py.join "," (snd (shown_detectors camera)) ++ ")")))
  /\ (List.length (snd (shown_detectors camera)) <= 10)%nat
  /\ snd (shown_detectors camera) = firstn 10 (map detName (detectors camera))
  /\ (fst (shown_detectors camera) = "examples"
      <-> (10 < List.length (detectors camera))%nat)
  /\ (fst (shown_detectors camera) = "knows"
      <-> snd (shown_detectors camera) = map detName (detectors camera)).
Proof.
  intros Hd Hdirs Hget.
  assert (Hfail : load_sensor (read_one_chip py fs) (normpath fs root) camera d
                  = Raise (RuntimeError (unknown_detector_msg (Path.basename d) camera))).
  { unfold load_sensor. now rewrite Hget. }
  split; [|split; [|apply shown_detectors_bound]].
  - destruct (result_cases (read_all py fs root camera)) as [[[data ct] Hok]|Hr];
      [|exact Hr].
    exfalso. unfold read_all in Hok.
    destruct (read_all_with_Ok_inv py fs _ root camera dirs data ct Hd Hok)
      as [c [datas [_ [Hall _]]]].
    assert (Hin : In d dirs) by (subst dirs; apply in_elt).
    destruct (Forall2_In_l _ _ _ _ Hall Hin) as [r [_ Hr]].
    rewrite Hfail in Hr. discriminate.
  - intros Hpre. unfold read_all.
    rewrite (read_all_with_first_failure py fs _ root camera dirs pre post d
               (snd (Path.split (normpath fs root)))
               (RuntimeError (unknown_detector_msg (Path.basename d) camera))
               Hd Hdirs); [| |exact Hfail].
    + unfold unknown_detector_msg. now destruct (shown_detectors camera).
    + intros d' Hin. destruct (Hpre d' Hin) as [records [c Hc]].
      exists records. now rewrite <- (load_sensor_category _ _ _ _ _ Hc).
Qed.

(** C8: no directory under the root and no record in any sensor are two
    errors with two texts, and a normal return holds a sensor with a
    record. *)
Theorem read_all_emptiness (root : string) (camera : Camera) (dirs : list string) :
  sensor_dirs fs root = Ok dirs ->
  (dirs = [] ->
   read_all py fs root camera
   = Raise (RuntimeError ("No data found on path " ++ normpath fs root)))
  /\ (dirs <> [] ->
      (forall d, In d dirs ->
         exists c, load_sensor (read_one_chip py fs) (normpath fs root) camera d
                   = Ok ([], c)) ->
      read_all py fs root camera = Raise (RuntimeError "No data to ingest"))
  /\ "No data found on path " ++ normpath fs root <> "No data to ingest"
  /\ (forall data ct,
        read_all py fs root camera = Ok (data, ct) ->
        exists chip records,
          In (chip, records) data /\ records <> []
          /\ In chip (map Path.basename dirs)).
Proof.
  intros Hd. split; [|split; [|split]].
  - intros ->. now apply read_all_with_no_dirs.
  - intros Hne Hall. unfold read_all.
    rewrite (read_all_with_some_dirs py fs _ root camera dirs Hd Hne).
    set (c0 := snd (Path.split (normpath fs root))).
    assert (Hf2 : Forall2 (fun d records =>
                     load_sensor (read_one_chip py fs) (normpath fs root) camera d
                     = Ok (records, c0)) dirs (map (fun _ => []) dirs)).
    { clear Hd Hne. induction dirs as [|x r IH]; [constructor|].
      cbn [map]. constructor.
      - destruct (Hall x (or_introl eq_refl)) as [c Hc].
        pose proof (load_sensor_category _ _ _ _ _ Hc) as Hcat. subst c. exact Hc.
      - apply IH. intros d Hin. apply Hall. now right. }
    pose proof (loop_run py _ _ camera dirs [] _ c0 Hf2 [] [] None
                  (or_introl eq_refl) Hne) as Hrun.
    rewrite app_nil_r in Hrun. rewrite Hrun. cbn [read_dirs bind].
    assert (Hempty : forallb Dict.is_empty
                       (Dict.values (store_all dirs (map (fun _ => []) dirs) [])) = true).
    { apply forallb_forall. apply Forall_forall.
      apply store_all_values.
      - apply Forall_forall. intros x Hx. apply in_map_iff in Hx.
        destruct Hx as [_ [<- _]]. reflexivity.
      - constructor. }
    now rewrite Hempty.
  - apply no_data_messages_differ.
  - intros data ct Hok. unfold read_all in Hok.
    destruct (read_all_with_Ok_inv py fs _ root camera dirs data ct Hd Hok)
      as [c [datas [_ [_ [Hdata Hsome]]]]].
    destruct (forallb_false_witness _ _ Hsome) as [records [Hin Hrec]].
    unfold Dict.values in Hin. apply in_map_iff in Hin.
    destruct Hin as [[chip records'] [Heq Hin]]. cbn [snd] in Heq. subst records'.
    exists chip, records. split; [exact Hin|]. split.
    + intros ->. discriminate.
    + assert (Hk : In chip (Dict.keys data)).
      { unfold Dict.keys. apply in_map_iff. now exists (chip, records). }
      rewrite Hdata in Hk. apply store_all_keys in Hk.
      destruct Hk as [[]|Hk]. exact Hk.
Qed.

End ReadAllFacts.

(** Witness of [read_all_unknown_detector]: [ccd01] holds no file and loads,
    [amp99] is not a sensor of the camera. *)
Lemma read_all_unknown_detector_witness :
  CuratedCalibs.read_all Examples.py0 (Examples.fs_no_files ["ccd01"; "amp99"])
    "LSSTCam/defects" Examples.cam
  = Raise (RuntimeError
             "Detector amp99 not known to supplied camera TestCam (knows: CCD01,CCD02)").
Proof.
  pose proof (read_all_unknown_detector Examples.py0
                (Examples.fs_no_files ["ccd01"; "amp99"]) "LSSTCam/defects"
                Examples.cam ["ccd01"; "amp99"] ["ccd01"] [] "amp99"
                eq_refl eq_refl eq_refl) as [_ [H _]].
  apply H. intros d' [<-|[]]. exists [], "defects". reflexivity.
Defined.

(** C6, as stated, fails: [amp99] does not resolve, yet the error is the
    one raised for the file under [ccd01], listed before it, whose header
    reports detector 7 where the camera has 3. *)
Lemma unknown_detector_not_reported :
  CuratedCalibs.sensor_dirs Examples.fs_bad_header "LSSTCam/defects"
  = Ok ["ccd01"; "amp99"]
  /\ Dict.get "amp99" (CuratedCalibs.name_map Examples.cam) = None
  /\ CuratedCalibs.read_all Examples.py0 Examples.fs_bad_header
       "LSSTCam/defects" Examples.cam
     = Raise (ValueError
                (CuratedCalibs.mismatch_prefix Examples.py0 "LSSTCam" 3 "defects"
                   (VStr "LSSTCam") (VInt 7) (VStr "defects")
                 ++ "LSSTCam/defects/ccd01/2021-05-01T00:00:00.yaml"
                 ++ CuratedCalibs.newline))
  /\ CuratedCalibs.read_all Examples.py0 Examples.fs_bad_header
       "LSSTCam/defects" Examples.cam
     <> Raise (RuntimeError
                 (CuratedCalibs.unknown_detector_msg "amp99" Examples.cam)).
Proof.
  assert (E : CuratedCalibs.read_all Examples.py0 Examples.fs_bad_header
                "LSSTCam/defects" Examples.cam
              = Raise (ValueError
                (CuratedCalibs.mismatch_prefix Examples.py0 "LSSTCam" 3 "defects"
                   (VStr "LSSTCam") (VInt 7) (VStr "defects")
                 ++ "LSSTCam/defects/ccd01/2021-05-01T00:00:00.yaml"
                 ++ CuratedCalibs.newline)))
    by (vm_compute; reflexivity).
  split; [reflexivity|]. split; [reflexivity|].
  split; [exact E | rewrite E; discriminate].
Qed.

(** Witness of [read_all_emptiness]: one sensor directory without files. *)
Lemma read_all_emptiness_witness :
  CuratedCalibs.read_all Examples.py0 (Examples.fs_no_files ["ccd01"])
    "LSSTCam/defects" Examples.cam
  = Raise (RuntimeError "No data to ingest").
Proof.
  pose proof (read_all_emptiness Examples.py0 (Examples.fs_no_files ["ccd01"])
                "LSSTCam/defects" Examples.cam ["ccd01"] eq_refl) as [_ [H _]].
  apply H; [discriminate|].
  intros d [<-|[]]. exists "defects". reflexivity.
Defined.

(** ** The formatter: validation of write recipes *)

Lemma get_app_absent {V : Type} (k k' : string) (v : V) (d : Dict.t string V) :
  Dict.get k d = None -> k <> k' -> Dict.get k (d ++ [(k', v)])%list = None.
Proof.
  intros Hd Hne. apply get_None_not_In. apply get_None_not_In in Hd.
  unfold Dict.keys in *. rewrite map_app. intros Hin. apply in_app_or in Hin.
  destruct Hin as [Hin|[Heq|[]]]; [auto | cbn in Heq; congruence].
Qed.

Lemma same_type_refl (v : PyVal) : Py.same_type v v = true.
Proof. destruct v; reflexivity. Qed.

Section CoerceFacts.
Variable py : PyEnv.

(** A coerced value has the type of the default. *)
Lemma coerce_same_type (dflt raw v : PyVal) :
  Py.coerce py dflt raw = Ok v -> Py.same_type v dflt = true.
Proof.
  destruct dflt; cbn [Py.coerce].
  - discriminate.
  - now intros [= <-].
  - destruct (Py.int py raw); cbn [bind]; [now intros [= <-] | discriminate].
  - destruct (Py.float py raw); cbn [bind]; [now intros [= <-] | discriminate].
  - now intros [= <-].
  - destruct (Py.list_of raw); cbn [bind]; [now intros [= <-] | discriminate].
  - destruct raw; try discriminate. now intros [= <-].
Qed.

(** A value of the type of the default is left as it is. *)
Lemma coerce_idem (dflt v : PyVal) :
  dflt <> VNone -> Py.same_type v dflt = true -> Py.coerce py dflt v = Ok v.
Proof.
  intros Hnone Hty.
  destruct dflt; destruct v; try discriminate; try reflexivity.
  congruence.
Qed.

End CoerceFacts.

Section ValidateInversion.
Import FitsExposure.
Variable py : PyEnv.

Lemma unrecognized_nil {V : Type} (entry : Dict.t string V) (allowed : list string) :
  unrecognized entry allowed = [] <-> forall k, In k (Dict.keys entry) -> In k allowed.
Proof.
  unfold unrecognized. split.
  - intros Hnil k Hin.
    destruct (in_names k allowed) eqn:Hk; [now apply in_names_In|].
    exfalso. assert (Hf : In k (filter (fun k => negb (in_names k allowed))
                                  (nodup string_dec (Dict.keys entry)))).
    { apply filter_In. split; [now apply nodup_In | now rewrite Hk]. }
    rewrite Hnil in Hf. exact Hf.
  - intros Hall.
    destruct (filter _ _) as [|k r] eqn:Hf; [reflexivity|].
    exfalso. assert (Hin : In k (k :: r)) by now left.
    rewrite <- Hf in Hin. apply filter_In in Hin. destruct Hin as [Hin Hneg].
    apply nodup_In in Hin. apply Hall in Hin. apply in_names_In in Hin.
    rewrite Hin in Hneg. discriminate.
Qed.

Lemma checkUnrecognized_Ok {V : Type} (entry : Dict.t string V) (allowed : list string)
  (description : string) :
  checkUnrecognized py entry allowed description = Ok tt
  <-> unrecognized entry allowed = [].
Proof.
  unfold checkUnrecognized. destruct (unrecognized entry allowed).
  - tauto.
  - split; discriminate.
Qed.

Lemma checkUnrecognized_Raise {V : Type} (entry : Dict.t string V)
  (allowed : list string) (description : string) :
  unrecognized entry allowed <> [] ->
  checkUnrecognized py entry allowed description
  = Raise (RuntimeError (unrecognized_msg py description (unrecognized entry allowed))).
Proof.
  unfold checkUnrecognized. destruct (unrecognized entry allowed); [congruence | reflexivity].
Qed.

(** The loop over the schema, run: it appends one value per field. *)
Lemma fill_settings_inv (entry : Settings) (schema : Settings) :
  forall (np out : Settings),
  fill_settings py entry schema np = Ok out ->
  NoDup (Dict.keys schema) ->
  (forall k, In k (Dict.keys schema) -> Dict.get k np = None) ->
  exists vals, out = (np ++ vals)%list /\ settings_from py schema (Some entry) vals.
Proof.
  induction schema as [|[key dflt] rest IH]; intros np out Hrun Hnd Hfresh.
  - cbn in Hrun. injection Hrun as <-. exists []. rewrite app_nil_r.
    split; [reflexivity | constructor].
  - cbn [fill_settings] in Hrun. apply bind_Ok_inv in Hrun.
    destruct Hrun as [value [Hval Hrun]].
    cbn [Dict.keys map fst] in Hnd, Hfresh. inversion Hnd as [|? ? Hni Hnd']; subst.
    rewrite (set_absent key value np) in Hrun by (apply Hfresh; now left).
    apply IH in Hrun; [|exact Hnd'|].
    + destruct Hrun as [vals [-> Hvals]].
      exists ((key, value) :: vals). rewrite <- app_assoc. split; [reflexivity|].
      constructor; [|exact Hvals]. cbn [fst snd expected_value].
      split; [reflexivity|]. split; [exact Hval|].
      destruct (Dict.get key entry) as [raw|].
      * eapply coerce_same_type; eassumption.
      * injection Hval as <-. apply same_type_refl.
    + intros k Hk. apply get_app_absent; [apply Hfresh; now right|].
      intros ->. contradiction.
Qed.

(** The same loop, determined by the values it is to produce. *)
Lemma fill_settings_eval (entry : Settings) (schema : Settings) :
  forall (np vals : Settings),
  NoDup (Dict.keys schema) ->
  (forall k, In k (Dict.keys schema) -> Dict.get k np = None) ->
  Forall2 (fun kd kv => fst kv = fst kd
                        /\ expected_value py (Some entry) (fst kd) (snd kd) = Ok (snd kv))
          schema vals ->
  fill_settings py entry schema np = Ok (np ++ vals)%list.
Proof.
  induction schema as [|[key dflt] rest IH]; intros np vals Hnd Hfresh Hvals.
  - inversion Hvals; subst. cbn. now rewrite app_nil_r.
  - inversion Hvals as [|? [k v] ? vals' [Hk Hv] Hrest]; subst.
    cbn [fst snd] in Hk, Hv. subst k.
    cbn [Dict.keys map fst] in Hnd, Hfresh. inversion Hnd as [|? ? Hni Hnd']; subst.
    cbn [fill_settings]. cbn [expected_value] in Hv. rewrite Hv. cbn [bind].
    rewrite (set_absent key v np) by (apply Hfresh; now left).
    rewrite (IH _ vals' Hnd'); [now rewrite <- app_assoc| |exact Hrest].
    intros k Hk. apply get_app_absent; [apply Hfresh; now right|].
    intros ->. contradiction.
Qed.

Lemma settings_from_defaults (schema : Settings) : settings_from py schema None schema.
Proof.
  induction schema as [|[key dflt] rest IH]; constructor; [|exact IH].
  cbn. repeat split. apply same_type_refl.
Qed.

Lemma schemas_cases (settings : string) (schema : Settings) :
  In (settings, schema) schemas ->
  (settings = "compression" /\ schema = compressionSchema)
  \/ (settings = "scaling" /\ schema = scalingSchema).
Proof.
  intros [[= <- <-]|[[= <- <-]|[]]]; [left | right]; split; reflexivity.
Qed.

Lemma schema_keys_NoDup (settings : string) (schema : Settings) :
  In (settings, schema) schemas -> NoDup (Dict.keys schema).
Proof.
  intros Hin. apply schemas_cases in Hin.
  destruct Hin as [[_ ->]|[_ ->]]; cbn;
    repeat (constructor; [cbn; intuition discriminate|]); constructor.
Qed.

Lemma schema_defaults_not_None (settings : string) (schema : Settings) :
  In (settings, schema) schemas -> Forall (fun kd => snd kd <> VNone) schema.
Proof.
  intros Hin. apply schemas_cases in Hin.
  destruct Hin as [[_ ->]|[_ ->]]; repeat (constructor; [discriminate|]); constructor.
Qed.

Lemma default_settings_schema (settings : string) (schema : Settings) :
  In (settings, schema) schemas -> default_settings schema = schema.
Proof.
  intros Hin. apply schemas_cases in Hin.
  destruct Hin as [[_ ->]|[_ ->]]; reflexivity.
Qed.

(** One sub-section, validated. *)
Lemma validate_settings_inv (name plane : string) (raw : Plane)
  (settings : string) (schema vs : Settings) :
  In (settings, schema) schemas ->
  validate_settings py name plane raw settings schema = Ok vs ->
  settings_from py schema (Dict.get settings raw) vs
  /\ (forall entry, Dict.get settings raw = Some entry ->
        unrecognized entry (Dict.keys schema) = []).
Proof.
  intros Hin. unfold validate_settings.
  destruct (Dict.get settings raw) as [entry|].
  - intros Hrun. apply bind_Ok_inv in Hrun. destruct Hrun as [[] [Hchk Hfill]].
    apply checkUnrecognized_Ok in Hchk.
    apply fill_settings_inv in Hfill;
      [|eapply schema_keys_NoDup; eassumption | reflexivity].
    destruct Hfill as [vals [-> Hvals]]. split; [exact Hvals|].
    now intros ? [= <-].
  - intros [= <-]. rewrite (default_settings_schema _ _ Hin).
    split; [apply settings_from_defaults | discriminate].
Qed.

End ValidateInversion.

Section ValidatePlanes.
Import FitsExposure.
Variable py : PyEnv.

Lemma validate_sections_unfold (name plane : string) (raw : Plane) :
  validate_sections py name plane raw schemas []
  = (c <- validate_settings py name plane raw "compression" compressionSchema ;;
     s <- validate_settings py name plane raw "scaling" scalingSchema ;;
     Ok [("compression", c); ("scaling", s)]).
Proof.
  unfold schemas. cbn [validate_sections].
  destruct (validate_settings py name plane raw "compression" compressionSchema);
    [|reflexivity].
  cbn [bind].
  destruct (validate_settings py name plane raw "scaling" scalingSchema); reflexivity.
Qed.

Lemma validate_planes_unfold (name : string) (recipe : Recipe) :
  validate_planes py name recipe planes []
  = (vi <- validate_plane py name recipe "image" ;;
     vm <- validate_plane py name recipe "mask" ;;
     vv <- validate_plane py name recipe "variance" ;;
     Ok [("image", vi); ("mask", vm); ("variance", vv)]).
Proof.
  unfold planes. cbn [validate_planes].
  destruct (validate_plane py name recipe "image"); [|reflexivity]. cbn [bind].
  destruct (validate_plane py name recipe "mask"); [|reflexivity]. cbn [bind].
  destruct (validate_plane py name recipe "variance"); reflexivity.
Qed.

(** One plane, validated. *)
Lemma validate_plane_inv (name : string) (recipe : Recipe) (plane : string) (vp : Plane) :
  validate_plane py name recipe plane = Ok vp ->
  exists raw,
    Dict.get plane recipe = Some raw
    /\ unrecognized raw ["compression"; "scaling"] = []
    /\ plane_from py raw vp
    /\ (forall settings schema entry,
          In (settings, schema) schemas -> Dict.get settings raw = Some entry ->
          unrecognized entry (Dict.keys schema) = []).
Proof.
  unfold validate_plane, Dict.getitem.
  destruct (Dict.get plane recipe) as [raw|]; [|discriminate]. cbn [bind].
  intros Hrun. apply bind_Ok_inv in Hrun. destruct Hrun as [[] [Hchk Hsec]].
  apply checkUnrecognized_Ok in Hchk.
  rewrite validate_sections_unfold in Hsec.
  apply bind_Ok_inv in Hsec. destruct Hsec as [c [Hc Hsec]].
  apply bind_Ok_inv in Hsec. destruct Hsec as [s [Hs Hsec]].
  injection Hsec as <-.
  apply validate_settings_inv in Hc; [|now left].
  apply validate_settings_inv in Hs; [|right; now left].
  destruct Hc as [Hc Hcu]. destruct Hs as [Hs Hsu].
  exists raw. split; [reflexivity|]. split; [exact Hchk|]. split.
  - exists c, s. auto.
  - intros settings schema entry Hin Hget. apply schemas_cases in Hin.
    destruct Hin as [[-> ->]|[-> ->]]; auto.
Qed.

(** One recipe, validated. *)
Lemma validate_recipe_inv (recipes : Recipes) (name : string) (v : Recipe) :
  validate_recipe py recipes name = Ok v ->
  exists r,
    Dict.get name recipes = Some r
    /\ unrecognized r planes = []
    /\ recipe_from py r v
    /\ (forall plane, In plane planes ->
          exists raw vp,
            Dict.get plane r = Some raw
            /\ validate_plane py name r plane = Ok vp).
Proof.
  unfold validate_recipe, Dict.getitem.
  destruct (Dict.get name recipes) as [r|]; [|discriminate]. cbn [bind].
  intros Hrun. apply bind_Ok_inv in Hrun. destruct Hrun as [[] [Hchk Hpl]].
  apply checkUnrecognized_Ok in Hchk.
  rewrite validate_planes_unfold in Hpl.
  apply bind_Ok_inv in Hpl. destruct Hpl as [vi [Hi Hpl]].
  apply bind_Ok_inv in Hpl. destruct Hpl as [vm [Hm Hpl]].
  apply bind_Ok_inv in Hpl. destruct Hpl as [vv [Hv Hpl]].
  injection Hpl as <-.
  destruct (validate_plane_inv _ _ _ _ Hi) as [ri [Gi [_ [Pi _]]]].
  destruct (validate_plane_inv _ _ _ _ Hm) as [rm [Gm [_ [Pm _]]]].
  destruct (validate_plane_inv _ _ _ _ Hv) as [rv [Gv [_ [Pv _]]]].
  exists r. split; [reflexivity|]. split; [exact Hchk|]. split.
  - exists ri, rm, rv, vi, vm, vv. repeat split; assumption.
  - intros plane [<-|[<-|[<-|[]]]]; eauto.
Qed.

(** The loop over the recipe names. *)
Lemma validate_names_inv (recipes : Recipes) (names : list string) :
  forall (acc validated : Recipes),
  validate_names py recipes names acc = Ok validated ->
  NoDup (Dict.keys acc) ->
  Forall (fun nv => exists r, Dict.get (fst nv) recipes = Some r
                              /\ recipe_from py r (snd nv)) acc ->
  NoDup (Dict.keys validated)
  /\ Forall (fun nv => exists r, Dict.get (fst nv) recipes = Some r
                                 /\ recipe_from py r (snd nv)) validated
  /\ (forall k, In k (Dict.keys validated) <-> In k (Dict.keys acc) \/ In k names)
  /\ (forall n, In n names -> exists v, validate_recipe py recipes n = Ok v).
Proof.
  induction names as [|name rest IH]; intros acc validated Hrun Hnd Hacc.
  - cbn in Hrun. injection Hrun as <-. repeat split; auto.
    + intros [H|[]]; exact H.
    + intros n [].
  - cbn [validate_names] in Hrun. apply bind_Ok_inv in Hrun.
    destruct Hrun as [v [Hv Hrun]].
    apply IH in Hrun.
    + destruct Hrun as [Hnd' [Hall [Hkeys Hok]]].
      split; [exact Hnd'|]. split; [exact Hall|]. split.
      * intros k. rewrite Hkeys, In_keys_set. cbn [In]. intuition.
      * intros n [<-|Hin]; [eauto | auto].
    + now apply NoDup_keys_set.
    + apply Forall_set; [exact Hacc|]. cbn [fst snd].
      destruct (validate_recipe_inv _ _ _ Hv) as [r [Hr [_ [Hfrom _]]]]. eauto.
Qed.

(** The validated mapping of an accepted, non-empty mapping. *)
Lemma validate_accepts_inv (recipes validated : Recipes) :
  recipes <> [] ->
  validateWriteRecipes py (Some recipes) = Ok (Some validated) ->
  recipes_from py recipes validated
  /\ (forall n, In n (Dict.keys recipes) -> exists v, validate_recipe py recipes n = Ok v).
Proof.
  intros Hne Hrun. destruct recipes as [|p r]; [congruence|].
  cbn [validateWriteRecipes] in Hrun. apply bind_Ok_inv in Hrun.
  destruct Hrun as [val [Hval Hret]]. injection Hret as <-.
  apply validate_names_inv in Hval; [|constructor|constructor].
  destruct Hval as [Hnd [Hall [Hkeys Hok]]].
  split; [|exact Hok]. split; [exact Hnd|]. split.
  - intros name. rewrite Hkeys. cbn [Dict.keys map In]. tauto.
  - intros name v Hget. apply get_Some_In in Hget.
    rewrite Forall_forall in Hall. apply (Hall (name, v) Hget).
Qed.

Lemma validate_result_shape (recipes : option Recipes) (out : option Recipes) :
  validateWriteRecipes py recipes = Ok out ->
  (recipes = None /\ out = None)
  \/ (recipes = Some [] /\ out = Some [])
  \/ exists r v, recipes = Some r /\ out = Some v /\ r <> [].
Proof.
  destruct recipes as [[|p r]|]; cbn [validateWriteRecipes].
  - intros [= <-]. right. left. auto.
  - intros Hrun. apply bind_Ok_inv in Hrun. destruct Hrun as [v [_ Hret]].
    injection Hret as <-. right. right. exists (p :: r), v.
    repeat split. discriminate.
  - intros [= <-]. left. auto.
Qed.

End ValidatePlanes.

Lemma Forall2_impl_In {A B : Type} (R R' : A -> B -> Prop) (l : list A) (l' : list B) :
  Forall2 R l l' ->
  (forall a b, In a l -> In b l' -> R a b -> R' a b) ->
  Forall2 R' l l'.
Proof.
  induction 1 as [|a b l l' Hab _ IH]; intros Himp; constructor.
  - apply Himp; [now left | now left | exact Hab].
  - apply IH. intros x y Hx Hy. apply Himp; now right.
Qed.

Section ValidateNormal.
Import FitsExposure.
Variable py : PyEnv.

Lemma settings_from_keys (schema : Settings) (entry : option Settings) (vs : Settings) :
  settings_from py schema entry vs -> Dict.keys vs = Dict.keys schema.
Proof.
  induction 1 as [|kd kv schema' vs' [Hk _] _ IH]; [reflexivity|].
  cbn [Dict.keys map]. f_equal; [exact Hk | exact IH].
Qed.

(** A normalised sub-section validates to itself. *)
Lemma validate_settings_normal (name plane : string) (vp : Plane)
  (settings : string) (schema vs : Settings) (entry0 : option Settings) :
  In (settings, schema) schemas ->
  Dict.get settings vp = Some vs ->
  settings_from py schema entry0 vs ->
  validate_settings py name plane vp settings schema = Ok vs.
Proof.
  intros Hin Hget Hfrom. unfold validate_settings. rewrite Hget.
  pose proof (settings_from_keys _ _ _ Hfrom) as Hkeys.
  assert (Hchk : checkUnrecognized py vs (Dict.keys schema)
                   (arrow (arrow name plane) settings) = Ok tt).
  { apply checkUnrecognized_Ok. apply unrecognized_nil. now rewrite Hkeys. }
  rewrite Hchk. cbn [bind].
  pose proof (schema_keys_NoDup _ _ Hin) as Hnd.
  pose proof (schema_defaults_not_None _ _ Hin) as Hnone.
  rewrite (fill_settings_eval py vs schema [] vs Hnd); [reflexivity | reflexivity |].
  eapply Forall2_impl_In; [exact Hfrom|].
  intros [key dflt] [k value] Hs Hv [Hk [_ Hty]]. cbn [fst snd] in *. subst k.
  split; [reflexivity|]. cbn [expected_value].
  rewrite (In_get_NoDup key value vs); [| now rewrite Hkeys | exact Hv].
  apply coerce_idem; [|exact Hty].
  rewrite Forall_forall in Hnone. apply (Hnone (key, dflt) Hs).
Qed.

(** A normalised plane validates to itself. *)
Lemma validate_plane_normal (name : string) (v : Recipe) (plane : string)
  (raw vp : Plane) :
  Dict.get plane v = Some vp -> plane_from py raw vp ->
  validate_plane py name v plane = Ok vp.
Proof.
  intros Hget [c [s [-> [Hc Hs]]]]. unfold validate_plane, Dict.getitem.
  rewrite Hget. cbn [bind].
  assert (Hchk : checkUnrecognized py [("compression", c); ("scaling", s)]
                   ["compression"; "scaling"] (arrow name plane) = Ok tt).
  { apply checkUnrecognized_Ok. apply unrecognized_nil. cbn. tauto. }
  rewrite Hchk. cbn [bind]. rewrite validate_sections_unfold.
  rewrite (validate_settings_normal name plane [("compression", c); ("scaling", s)]
             "compression" compressionSchema c _ (or_introl eq_refl) eq_refl Hc).
  cbn [bind].
  rewrite (validate_settings_normal name plane [("compression", c); ("scaling", s)]
             "scaling" scalingSchema s _ (or_intror (or_introl eq_refl)) eq_refl Hs).
  reflexivity.
Qed.

(** A normalised recipe validates to itself. *)
Lemma validate_recipe_normal (validated : Recipes) (name : string) (r v : Recipe) :
  Dict.get name validated = Some v -> recipe_from py r v ->
  validate_recipe py validated name = Ok v.
Proof.
  intros Hget [ri [rm [rv [vi [vm [vv [_ [_ [_ [-> [Hi [Hm Hv]]]]]]]]]]]].
  unfold validate_recipe, Dict.getitem. rewrite Hget. cbn [bind].
  assert (Hchk : checkUnrecognized py [("image", vi); ("mask", vm); ("variance", vv)]
                   planes name = Ok tt).
  { apply checkUnrecognized_Ok. apply unrecognized_nil. cbn. tauto. }
  rewrite Hchk. cbn [bind]. rewrite validate_planes_unfold.
  rewrite (validate_plane_normal name [("image", vi); ("mask", vm); ("variance", vv)]
             "image" ri vi eq_refl Hi). cbn [bind].
  rewrite (validate_plane_normal name [("image", vi); ("mask", vm); ("variance", vv)]
             "mask" rm vm eq_refl Hm). cbn [bind].
  rewrite (validate_plane_normal name [("image", vi); ("mask", vm); ("variance", vv)]
             "variance" rv vv eq_refl Hv). reflexivity.
Qed.

(** The loop over the names of a mapping whose recipes validate to
    themselves rebuilds the mapping. *)
Lemma validate_names_rebuild (validated : Recipes) :
  NoDup (Dict.keys validated) ->
  (forall name v, In (name, v) validated -> validate_recipe py validated name = Ok v) ->
  forall prefix suffix : Recipes,
  validated = (prefix ++ suffix)%list ->
  validate_names py validated (Dict.keys suffix) prefix = Ok validated.
Proof.
  intros Hnd Hself prefix suffix. revert prefix.
  induction suffix as [|[name v] rest IH]; intros prefix Heq.
  - rewrite app_nil_r in Heq. now subst.
  - cbn [Dict.keys map fst validate_names].
    rewrite (Hself name v) by (subst; apply in_elt). cbn [bind].
    assert (Habs : Dict.get name prefix = None).
    { apply get_None_not_In. intros Hin. subst validated.
      unfold Dict.keys in Hnd. rewrite map_app in Hnd. cbn [map fst] in Hnd.
      apply NoDup_remove_2 in Hnd. apply Hnd. apply in_or_app. now left. }
    rewrite (set_absent name v prefix Habs).
    apply IH. subst. now rewrite <- app_assoc.
Qed.

Lemma validate_normal (recipes validated : Recipes) :
  recipes_from py recipes validated ->
  validateWriteRecipes py (Some validated) = Ok (Some validated).
Proof.
  intros [Hnd [_ Hfrom]].
  destruct validated as [|p rest] eqn:Hv; [reflexivity|]. rewrite <- Hv in *.
  assert (Hrun : validate_names py validated (Dict.keys validated) [] = Ok validated).
  { apply validate_names_rebuild; [exact Hnd | | reflexivity].
    intros name v Hin.
    destruct (Hfrom name v (In_get_NoDup _ _ _ Hnd Hin)) as [r [_ Hr]].
    eapply validate_recipe_normal; [|exact Hr]. now apply In_get_NoDup. }
  rewrite Hv at 1. cbn [validateWriteRecipes]. rewrite <- Hv.
  now rewrite Hrun.
Qed.

(** C4: validating what validation returned succeeds and returns it
    again. *)
Theorem validateWriteRecipes_idempotent (recipes validated : option Recipes) :
  validateWriteRecipes py recipes = Ok validated ->
  validateWriteRecipes py validated = Ok validated.
Proof.
  intros Hrun.
  destruct (validate_result_shape py _ _ Hrun)
    as [[_ ->]|[[_ ->]|[r [v [-> [-> Hne]]]]]]; [reflexivity | reflexivity |].
  destruct (validate_accepts_inv py r v Hne Hrun) as [Hfrom _].
  eapply validate_normal; exact Hfrom.
Qed.

(** C9: [None] and the empty mapping are returned as they are. *)
Theorem validateWriteRecipes_empty_identity :
  validateWriteRecipes py None = Ok None
  /\ validateWriteRecipes py (Some []) = Ok (Some []).
Proof. split; reflexivity. Qed.

End ValidateNormal.

Section ValidateFailures.
Import FitsExposure.
Variable py : PyEnv.

(** The first recipe that fails decides the error of the loop. *)
Lemma validate_names_first_failure (recipes : Recipes) (name : string)
  (post : list string) (e : exn) :
  validate_recipe py recipes name = Raise e ->
  forall (pre : list string) (acc : Recipes),
  (forall n, In n pre -> exists v, validate_recipe py recipes n = Ok v) ->
  validate_names py recipes (pre ++ name :: post)%list acc = Raise e.
Proof.
  intros Hfail. induction pre as [|n pre IH]; intros acc Hpre.
  - cbn [app validate_names]. now rewrite Hfail.
  - cbn [app validate_names].
    destruct (Hpre n (or_introl eq_refl)) as [v Hv]. rewrite Hv. cbn [bind].
    apply IH. intros m Hm. apply Hpre. now right.
Qed.

Lemma validate_first_failure (recipes : Recipes) (name : string) (e : exn) :
  recipes_before_ok py recipes name ->
  validate_recipe py recipes name = Raise e ->
  validateWriteRecipes py (Some recipes) = Raise e.
Proof.
  intros [pre [post [Hkeys Hpre]]] Hfail.
  destruct recipes as [|p r] eqn:Hr.
  - destruct pre; discriminate.
  - rewrite <- Hr in *. rewrite Hr at 1. cbn [validateWriteRecipes]. rewrite <- Hr.
    rewrite Hkeys.
    now rewrite (validate_names_first_failure recipes name post e Hfail pre [] Hpre).
Qed.

(** The first plane that fails decides the error of the recipe. *)
Lemma validate_planes_first_failure (name : string) (r : Recipe) (plane : string)
  (post : list string) (e : exn) :
  validate_plane py name r plane = Raise e ->
  forall (pre : list string) (acc : Recipe),
  (forall q, In q pre -> exists vq, validate_plane py name r q = Ok vq) ->
  validate_planes py name r (pre ++ plane :: post)%list acc = Raise e.
Proof.
  intros Hfail. induction pre as [|q pre IH]; intros acc Hpre.
  - cbn [app validate_planes]. now rewrite Hfail.
  - cbn [app validate_planes].
    destruct (Hpre q (or_introl eq_refl)) as [vq Hq]. rewrite Hq. cbn [bind].
    apply IH. intros m Hm. apply Hpre. now right.
Qed.

Lemma validate_recipe_first_failure (recipes : Recipes) (name : string) (r : Recipe)
  (plane : string) (e : exn) :
  Dict.get name recipes = Some r ->
  unrecognized r planes = [] ->
  planes_before_ok py name r plane ->
  validate_plane py name r plane = Raise e ->
  validate_recipe py recipes name = Raise e.
Proof.
  intros Hget Hrec [pre [post [Hplanes Hpre]]] Hfail.
  unfold validate_recipe, Dict.getitem. rewrite Hget. cbn [bind].
  apply (checkUnrecognized_Ok py r planes name) in Hrec. rewrite Hrec. cbn [bind].
  rewrite Hplanes. now apply validate_planes_first_failure.
Qed.

(** The first sub-section that fails decides the error of the plane. *)
Lemma validate_sections_first_failure (name plane : string) (raw : Plane)
  (settings : string) (schema : Settings) (post : list (string * Settings)) (e : exn) :
  validate_settings py name plane raw settings schema = Raise e ->
  forall (pre : list (string * Settings)) (acc : Plane),
  (forall p, In p pre ->
     exists vs, validate_settings py name plane raw (fst p) (snd p) = Ok vs) ->
  validate_sections py name plane raw (pre ++ (settings, schema) :: post)%list acc
  = Raise e.
Proof.
  intros Hfail. induction pre as [|[s sch] pre IH]; intros acc Hpre.
  - cbn [app validate_sections]. now rewrite Hfail.
  - cbn [app validate_sections].
    destruct (Hpre (s, sch) (or_introl eq_refl)) as [vs Hvs]. cbn [fst snd] in Hvs.
    rewrite Hvs. cbn [bind]. apply IH. intros m Hm. apply Hpre. now right.
Qed.

Lemma schemas_NoDup_names : NoDup (map fst schemas).
Proof. cbn. repeat (constructor; [cbn; intuition discriminate|]). constructor. Qed.

(** The three kinds of failure of one plane. *)
Lemma validate_plane_missing (name : string) (r : Recipe) (plane : string) :
  Dict.get plane r = None ->
  validate_plane py name r plane = Raise (KeyError plane).
Proof. intros Hget. unfold validate_plane, Dict.getitem. now rewrite Hget. Qed.

Lemma validate_plane_unrecognized (name : string) (r : Recipe) (plane : string)
  (raw : Plane) :
  Dict.get plane r = Some raw ->
  unrecognized raw ["compression"; "scaling"] <> [] ->
  validate_plane py name r plane
  = Raise (RuntimeError (unrecognized_msg py (arrow name plane)
                           (unrecognized raw ["compression"; "scaling"]))).
Proof.
  intros Hget Hne. unfold validate_plane, Dict.getitem. rewrite Hget. cbn [bind].
  now rewrite (checkUnrecognized_Raise py raw _ (arrow name plane) Hne).
Qed.

Lemma validate_plane_unrecognized_field (name : string) (r : Recipe) (plane : string)
  (raw : Plane) (settings : string) (schema entry : Settings) :
  Dict.get plane r = Some raw ->
  unrecognized raw ["compression"; "scaling"] = [] ->
  In (settings, schema) schemas ->
  sections_before_ok py name plane raw settings ->
  Dict.get settings raw = Some entry ->
  unrecognized entry (Dict.keys schema) <> [] ->
  validate_plane py name r plane
  = Raise (RuntimeError (unrecognized_msg py (arrow (arrow name plane) settings)
                           (unrecognized entry (Dict.keys schema)))).
Proof.
  intros Hget Hsec Hin [pre [post [schema' [Hsch Hpre]]]] Hentry Hne.
  assert (schema' = schema) as ->.
  { assert (Hin' : In (settings, schema') schemas) by (rewrite Hsch; apply in_elt).
    apply schemas_cases in Hin. apply schemas_cases in Hin'.
    destruct Hin as [[-> ->]|[-> ->]]; destruct Hin' as [[E ->]|[E ->]];
      reflexivity || discriminate. }
  unfold validate_plane, Dict.getitem. rewrite Hget. cbn [bind].
  apply (checkUnrecognized_Ok py raw _ (arrow name plane)) in Hsec.
  rewrite Hsec. cbn [bind]. rewrite Hsch.
  apply validate_sections_first_failure; [|exact Hpre].
  unfold validate_settings. rewrite Hentry.
  now rewrite (checkUnrecognized_Raise py entry _ _ Hne).
Qed.

(** An accepted mapping has no unrecognized key anywhere. *)
Lemma unrecognized_is_fatal (recipes : Recipes) (location : string)
  (keys : list string) :
  unrecognized_at recipes location keys ->
  raises (validateWriteRecipes py (Some recipes)).
Proof.
  intros Hat.
  destruct (result_cases (validateWriteRecipes py (Some recipes)))
    as [[out Hok]|Hr]; [|exact Hr].
  exfalso.
  assert (Hne : recipes <> []) by (destruct Hat; intros ->; discriminate).
  destruct (validate_result_shape py _ _ Hok) as [[E _]|[[E _]|[r0 [v [E [-> _]]]]]];
    try congruence.
  destruct (validate_accepts_inv py recipes v Hne Hok) as [_ Hall].
  assert (Hrec : forall name r, Dict.get name recipes = Some r ->
            exists v', validate_recipe py recipes name = Ok v').
  { intros name r Hget. apply Hall. apply get_Some_In in Hget.
    unfold Dict.keys. apply in_map_iff. now exists (name, r). }
  destruct Hat as [name r Hget Hu | name plane r raw Hget Hpl Hraw Hu
                   | name plane settings r raw schema entry Hget Hpl Hraw Hin Hentry Hu].
  - destruct (Hrec name r Hget) as [v' Hv'].
    destruct (validate_recipe_inv py _ _ _ Hv') as [r' [Hr' [Hnil _]]].
    rewrite Hget in Hr'. injection Hr' as <-. contradiction.
  - destruct (Hrec name r Hget) as [v' Hv'].
    destruct (validate_recipe_inv py _ _ _ Hv') as [r' [Hr' [_ [_ Hplanes]]]].
    rewrite Hget in Hr'. injection Hr' as <-.
    destruct (Hplanes plane Hpl) as [raw' [vp [Hraw' Hvp]]].
    destruct (validate_plane_inv py _ _ _ _ Hvp) as [raw'' [Hr'' [Hnil _]]].
    rewrite Hraw in Hr''. injection Hr'' as <-. contradiction.
  - destruct (Hrec name r Hget) as [v' Hv'].
    destruct (validate_recipe_inv py _ _ _ Hv') as [r' [Hr' [_ [_ Hplanes]]]].
    rewrite Hget in Hr'. injection Hr' as <-.
    destruct (Hplanes plane Hpl) as [raw' [vp [Hraw' Hvp]]].
    destruct (validate_plane_inv py _ _ _ _ Hvp) as [raw'' [Hr'' [_ [_ Hfields]]]].
    rewrite Hraw in Hr''. injection Hr'' as <-.
    apply Hu. eapply Hfields; eassumption.
Qed.

(** A recipe without one of the three planes is never accepted. *)
Lemma missing_plane_is_fatal (recipes : Recipes) (name : string) (r : Recipe)
  (plane : string) :
  Dict.get name recipes = Some r -> In plane planes -> Dict.get plane r = None ->
  raises (validateWriteRecipes py (Some recipes)).
Proof.
  intros Hget Hpl Hnone.
  destruct (result_cases (validateWriteRecipes py (Some recipes)))
    as [[out Hok]|Hr]; [|exact Hr].
  exfalso.
  assert (Hne : recipes <> []) by (intros ->; discriminate).
  destruct (validate_result_shape py _ _ Hok) as [[E _]|[[E _]|[r0 [v [E [-> _]]]]]];
    try congruence.
  destruct (validate_accepts_inv py recipes v Hne Hok) as [_ Hall].
  destruct (Hall name) as [v' Hv'].
  { apply get_Some_In in Hget. unfold Dict.keys. apply in_map_iff. now exists (name, r). }
  destruct (validate_recipe_inv py _ _ _ Hv') as [r' [Hr' [_ [_ Hplanes]]]].
  rewrite Hget in Hr'. injection Hr' as <-.
  destruct (Hplanes plane Hpl) as [raw [_ [Hraw _]]]. congruence.
Qed.

End ValidateFailures.

Section ValidateClaims.
Import FitsExposure.
Variable py : PyEnv.

(** C3: an accepted non-empty mapping comes back normalised: the same recipe
    names, each recipe with the three planes, each plane with both
    sub-sections, each sub-section with exactly the fields of its schema,
    taken from the defaults where the sub-section or the field is absent and
    coerced to the type of the default where it is present.  A mapping with
    an unrecognized key at any of the three levels is never accepted, and
    where the check that finds the key set is the first to fail, in the
    order recipes, planes, sub-sections are visited, the error is the
    [RuntimeError] that names the key set and its place. *)
Theorem validateWriteRecipes_normalizes (recipes : Recipes) :
  recipes <> [] ->
  (forall out, validateWriteRecipes py (Some recipes) = Ok out ->
     exists validated, out = Some validated /\ recipes_from py recipes validated)
  /\ (forall location keys,
        unrecognized_at recipes location keys ->
        raises (validateWriteRecipes py (Some recipes)))
  /\ (forall name r,
        Dict.get name recipes = Some r ->
        recipes_before_ok py recipes name ->
        (unrecognized r planes <> [] ->
         validateWriteRecipes py (Some recipes)
         = Raise (RuntimeError (unrecognized_msg py name (unrecognized r planes))))
        /\ (forall plane raw,
              unrecognized r planes = [] ->
              planes_before_ok py name r plane ->
              Dict.get plane r = Some raw ->
              (unrecognized raw ["compression"; "scaling"] <> [] ->
               validateWriteRecipes py (Some recipes)
               = Raise (RuntimeError
                          (unrecognized_msg py (arrow name plane)
                             (unrecognized raw ["compression"; "scaling"]))))
              /\ (forall settings schema entry,
                    unrecognized raw ["compression"; "scaling"] = [] ->
                    In (settings, schema) schemas ->
                    sections_before_ok py name plane raw settings ->
                    Dict.get settings raw = Some entry ->
                    unrecognized entry (Dict.keys schema) <> [] ->
                    validateWriteRecipes py (Some recipes)
                    = Raise (RuntimeError
                               (unrecognized_msg py (arrow (arrow name plane) settings)
                                  (unrecognized entry (Dict.keys schema))))))).
Proof.
  intros Hne. split; [|split].
  - intros out Hok.
    destruct (validate_result_shape py _ _ Hok) as [[E _]|[[E _]|[r0 [v [E [-> _]]]]]];
      try congruence.
    exists v. split; [reflexivity|]. now apply validate_accepts_inv.
  - apply unrecognized_is_fatal.
  - intros name r Hget Hbefore. split.
    + intros Hu. apply (validate_first_failure py recipes name _ Hbefore).
      unfold validate_recipe, Dict.getitem. rewrite Hget. cbn [bind].
      now rewrite (checkUnrecognized_Raise py r planes name Hu).
    + intros plane raw Hrec Hplanes Hraw. split.
      * intros Hu. apply (validate_first_failure py recipes name _ Hbefore).
        apply (validate_recipe_first_failure py recipes name r plane _ Hget Hrec Hplanes).
        now apply validate_plane_unrecognized.
      * intros settings schema entry Hsec Hin Hsections Hentry Hu.
        apply (validate_first_failure py recipes name _ Hbefore).
        apply (validate_recipe_first_failure py recipes name r plane _ Hget Hrec Hplanes).
        now apply (validate_plane_unrecognized_field py name r plane raw settings
                     schema entry).
Qed.

(** C10: a recipe that leaves out one of the three planes is never accepted
    and never has the plane filled in; where no check fails before the
    plane is indexed, the error is the [KeyError] of that plane. *)
Theorem validateWriteRecipes_missing_plane (recipes : Recipes) (name : string)
  (r : Recipe) (plane : string) :
  Dict.get name recipes = Some r ->
  In plane planes ->
  Dict.get plane r = None ->
  raises (validateWriteRecipes py (Some recipes))
  /\ (recipes_before_ok py recipes name ->
      unrecognized r planes = [] ->
      planes_before_ok py name r plane ->
      validateWriteRecipes py (Some recipes) = Raise (KeyError plane)).
Proof.
  intros Hget Hpl Hnone. split.
  - eapply missing_plane_is_fatal; eassumption.
  - intros Hbefore Hrec Hplanes.
    apply (validate_first_failure py recipes name _ Hbefore).
    apply (validate_recipe_first_failure py recipes name r plane _ Hget Hrec Hplanes).
    now apply validate_plane_missing.
Qed.

End ValidateClaims.

(** Witness of [validateWriteRecipes_idempotent]. *)
Lemma validateWriteRecipes_idempotent_witness :
  FitsExposure.validateWriteRecipes Examples.py0 (Some Examples.three_planes)
  = Ok (Some Examples.three_planes_validated)
  /\ FitsExposure.validateWriteRecipes Examples.py0 (Some Examples.three_planes_validated)
     = Ok (Some Examples.three_planes_validated).
Proof.
  assert (E : FitsExposure.validateWriteRecipes Examples.py0 (Some Examples.three_planes)
              = Ok (Some Examples.three_planes_validated))
    by (vm_compute; reflexivity).
  split; [exact E|].
  exact (validateWriteRecipes_idempotent Examples.py0 _ _ E).
Defined.

(** Witness of [validateWriteRecipes_normalizes]. *)
Lemma validateWriteRecipes_normalizes_witness :
  exists validated,
    FitsExposure.validateWriteRecipes Examples.py0 (Some Examples.three_planes)
    = Ok (Some validated)
    /\ FitsExposure.recipes_from Examples.py0 Examples.three_planes validated.
Proof.
  assert (Hne : Examples.three_planes <> []) by discriminate.
  assert (E : FitsExposure.validateWriteRecipes Examples.py0 (Some Examples.three_planes)
              = Ok (Some Examples.three_planes_validated))
    by (vm_compute; reflexivity).
  destruct (validateWriteRecipes_normalizes Examples.py0 Examples.three_planes Hne)
    as [H _].
  destruct (H _ E) as [validated [Hv Hfrom]].
  exists validated. split; [now rewrite E, Hv | exact Hfrom].
Defined.

(** C3, as stated, fails: the variance plane of [r] holds the unrecognized
    sub-section [bogus], and the error names neither: it is the [KeyError]
    of the mask plane, which is indexed first. *)
Lemma unrecognized_key_not_named :
  FitsExposure.unrecognized_at Examples.missing_mask "r->variance" ["bogus"]
  /\ FitsExposure.validateWriteRecipes Examples.py0 (Some Examples.missing_mask)
     = Raise (KeyError "mask").
Proof.
  split; [|vm_compute; reflexivity].
  exact (FitsExposure.at_plane Examples.missing_mask "r" "variance"
           [("image", []); ("variance", [("bogus", [])])] [("bogus", [])]
           eq_refl (or_intror (or_intror (or_introl eq_refl))) eq_refl
           ltac:(discriminate)).
Qed.

(** Witness of [validateWriteRecipes_missing_plane]: a recipe with the
    image and variance planes only. *)
Lemma validateWriteRecipes_missing_plane_witness :
  FitsExposure.validateWriteRecipes Examples.py0 (Some Examples.no_mask)
  = Raise (KeyError "mask").
Proof.
  destruct (validateWriteRecipes_missing_plane Examples.py0 Examples.no_mask "r"
              [("image", []); ("variance", [])] "mask"
              eq_refl (or_intror (or_introl eq_refl)) eq_refl) as [_ H].
  apply H.
  - exists [], []. split; [reflexivity | intros n []].
  - reflexivity.
  - exists ["image"], ["variance"]. split; [reflexivity|].
    intros q [<-|[]]. eexists. vm_compute. reflexivity.
Defined.

(** C10, as stated, fails: the recipe leaves out all three planes, and the
    error is the documented [RuntimeError], raised for its unknown plane
    before any plane is indexed. *)
Lemma missing_plane_not_KeyError :
  Dict.get "r" Examples.bogus_plane = Some [("bogus", [])]
  /\ Dict.get "image" [("bogus", @nil (string * FitsExposure.Settings))] = None
  /\ FitsExposure.validateWriteRecipes Examples.py0 (Some Examples.bogus_plane)
     = Raise (RuntimeError
                "Unrecognized entries when parsing image compression recipe r: {'bogus'}").
Proof. repeat split. Qed.

(** ** More on the header check *)

Lemma no_pct_app (a b : string) :
  Py.no_pct (a ++ b) = (Py.no_pct a && Py.no_pct b)%bool.
Proof.
  induction a as [|c r IH]; [reflexivity|].
  cbn [append Py.no_pct]. rewrite IH. now rewrite andb_assoc.
Qed.

Lemma append_assoc_s (a b c : string) : (a ++ b) ++ c = a ++ (b ++ c).
Proof. induction a as [|x r IH]; [reflexivity | cbn; now rewrite IH]. Qed.

Lemma no_pct_uint (d : Decimal.uint) : Py.no_pct (NilEmpty.string_of_uint d) = true.
Proof. induction d; cbn; auto. Qed.

(** The decimal text of an integer holds no percent sign. *)
Lemma no_pct_str_of_Z (z : Z) : Py.no_pct (Py.str_of_Z z) = true.
Proof.
  unfold Py.str_of_Z, NilZero.string_of_int, NilZero.string_of_uint.
  destruct (Z.to_int z) as [d|d]; destruct d; try reflexivity;
    cbn [Py.no_pct negb Ascii.eqb andb]; apply (no_pct_uint _) || idtac.
  all: try (cbn; apply no_pct_uint).
Qed.

Section HeaderCheckMore.
Import CuratedCalibs.
Variable py : PyEnv.

(** An accepted object has the header triple of the path. *)
Lemma check_metadata_Ok_header (obj : Calib) (valid_start : datetime)
  (instrument : string) (chip_id : Z) (filepath data_name : string) :
  check_metadata py obj valid_start instrument chip_id filepath data_name = Ok tt
  <-> header_triple py obj = Ok (path_triple instrument chip_id data_name).
Proof.
  destruct (header_triple py obj) as [t|e] eqn:Ht.
  - destruct (check_metadata_decided py obj valid_start instrument chip_id filepath
                data_name t Ht) as [Heq Hne].
    split.
    + intros Hok. f_equal.
      destruct t as [[a b] c].
      destruct (string_dec a (Py.lower instrument)) as [->|Ha];
        [destruct (Z.eq_dec b chip_id) as [->|Hb];
         [destruct (string_dec c (Py.lower data_name)) as [->|Hc]; [reflexivity|]|]|];
        exfalso;
        (destruct Hne as [e He]; [unfold path_triple; congruence | congruence]).
    + intros [= ->]. now apply Heq.
  - split; [|discriminate].
    intros Hok. exfalso. revert Ht Hok. unfold header_triple, check_metadata.
    destruct (Dict.getitem "INSTRUME" (getMetadata obj)) as [finst|]; [|discriminate].
    destruct (Dict.getitem "DETECTOR" (getMetadata obj)) as [fchip|]; [|discriminate].
    destruct (Dict.getitem "OBSTYPE" (getMetadata obj)) as [fdata|]; [|discriminate].
    cbn [bind].
    destruct (lower_of finst) as [a|]; [|discriminate]. cbn [bind].
    destruct (Py.int py fchip) as [b|]; [|discriminate]. cbn [bind].
    destruct (lower_of fdata) as [c|]; [|discriminate]. cbn [bind].
    discriminate.
Qed.

(** X1: the check accepts an object exactly when the triple read from its
    header (instrument lower-cased, detector through [int], observation type
    lower-cased) is the triple of the path; the validity start plays no
    part. *)
Theorem check_metadata_accepts_iff (obj : Calib) (valid_start valid_start' : datetime)
  (instrument : string) (chip_id : Z) (filepath data_name : string) :
  (check_metadata py obj valid_start instrument chip_id filepath data_name = Ok tt
   <-> header_triple py obj
       = Ok (Py.lower instrument, chip_id, Py.lower data_name))
  /\ check_metadata py obj valid_start instrument chip_id filepath data_name
     = check_metadata py obj valid_start' instrument chip_id filepath data_name.
Proof. split; [apply check_metadata_Ok_header | reflexivity]. Qed.


(** X3: where no text put into the report holds a percent sign, a mismatch
    is a [ValueError] whose text is the path triple, the header triple as it
    stands in the header, and the file name, each on a line of its own. *)
Theorem check_metadata_report_text (obj : Calib) (valid_start : datetime)
  (instrument : string) (chip_id : Z) (filepath data_name : string)
  (finst fdata_name : string) (fchip_id : PyVal) (b : Z) :
  Dict.get "INSTRUME" (getMetadata obj) = Some (VStr finst) ->
  Dict.get "DETECTOR" (getMetadata obj) = Some fchip_id ->
  Dict.get "OBSTYPE" (getMetadata obj) = Some (VStr fdata_name) ->
  Py.int py fchip_id = Ok b ->
  (Py.lower finst, b, Py.lower fdata_name)
  <> (Py.lower instrument, chip_id, Py.lower data_name) ->
  Py.no_pct instrument = true -> Py.no_pct data_name = true ->
  Py.no_pct finst = true -> Py.no_pct fdata_name = true ->
  Py.no_pct (Py.str py fchip_id) = true ->
  check_metadata py obj valid_start instrument chip_id filepath data_name
  = Raise (ValueError
      ("Path and file metadata do not agree:" ++ newline
       ++ "Path metadata: " ++ instrument ++ " " ++ Py.str_of_Z chip_id ++ " "
       ++ data_name ++ newline
       ++ "File metadata: " ++ finst ++ " " ++ Py.str py fchip_id ++ " "
       ++ fdata_name ++ newline
       ++ "File read from : " ++ filepath ++ newline)).
Proof.
  intros Hi Hd Ho Hint Hne P1 P2 P3 P4 P5.
  rewrite (check_metadata_mismatch_report py obj valid_start instrument chip_id
             filepath data_name finst fdata_name fchip_id b Hi Hd Ho Hint Hne).
  - unfold mismatch_prefix. cbn [Py.str].
    repeat rewrite append_assoc_s. reflexivity.
  - unfold mismatch_prefix. cbn [Py.str].
    repeat rewrite no_pct_app. rewrite P1, P2, P3, P4, P5, no_pct_str_of_Z.
    reflexivity.
Qed.

End HeaderCheckMore.

(** ** More on the files of one sensor *)

Lemma length_set_le {K V : Type} `{Key K} (k : K) (v : V) (d : Dict.t K V) :
  (List.length (Dict.set k v d) <= S (List.length d))%nat.
Proof.
  induction d as [|[k' v'] r IH]; cbn; [lia|].
  destruct (key_eqb k k'); cbn; lia.
Qed.

Section ReadOneChipMore.
Import CuratedCalibs.
Variable py : PyEnv.
Variable fs : FsEnv.

Lemma read_files_inv (factory : Factory) (instrument : string) (chip_id : Z)
  (data_name : string) (files : list string) :
  forall (dd out : ChipData),
  read_files py fs factory instrument chip_id data_name files dd = Ok out ->
  Forall (fun f => exists date obj,
            file_passes py fs factory instrument chip_id data_name f date obj
            /\ In date (Dict.keys out)) files
  /\ (forall kv, In kv out ->
        In kv dd
        \/ exists f, In f files
             /\ file_passes py fs factory instrument chip_id data_name f (fst kv) (snd kv))
  /\ (NoDup (Dict.keys dd) -> NoDup (Dict.keys out))
  /\ (List.length out <= List.length dd + List.length files)%nat
  /\ (forall k, In k (Dict.keys dd) -> In k (Dict.keys out)).
Proof.
  induction files as [|f rest IH]; intros dd out Hrun.
  - cbn in Hrun. injection Hrun as <-. repeat split; auto. cbn. lia.
  - cbn [read_files] in Hrun.
    apply bind_Ok_inv in Hrun. destruct Hrun as [date [Hdate Hrun]].
    apply bind_Ok_inv in Hrun. destruct Hrun as [obj [Hobj Hrun]].
    apply bind_Ok_inv in Hrun. destruct Hrun as [[] [Hchk Hrun]].
    apply IH in Hrun. destruct Hrun as [Hall [Hfrom [Hnd [Hlen Hkeys]]]].
    assert (Hpass : file_passes py fs factory instrument chip_id data_name f date obj)
      by (repeat split; assumption).
    split; [|split; [|split; [|split]]].
    + constructor; [|exact Hall].
      exists date, obj. split; [exact Hpass|].
      apply Hkeys. apply In_keys_set. now left.
    + intros kv Hin. destruct (Hfrom kv Hin) as [Hset|[f' [Hf' Hp]]].
      * apply In_set in Hset. destruct Hset as [->|Hdd]; [|now left].
        right. exists f. split; [now left | exact Hpass].
      * right. exists f'. split; [now right | exact Hp].
    + intros Hdd. apply Hnd. now apply NoDup_keys_set.
    + pose proof (length_set_le date obj dd). cbn [List.length]. lia.
    + intros k Hk. apply Hkeys. apply In_keys_set. now right.
Qed.

(** How [read_one_chip] returns normally. *)
Lemma read_one_chip_Ok_inv (root chip_name : string) (chip_id : Z)
  (data : ChipData) (c : string) :
  read_one_chip py fs root chip_name chip_id = Ok (data, c) ->
  c = path_data_name root
  /\ exists factory,
       Dict.get (path_data_name root) factory_map = Some factory
       /\ read_files py fs factory (path_instrument root) chip_id (path_data_name root)
            (chip_files fs root chip_name) [] = Ok data.
Proof.
  unfold read_one_chip, path_data_name, path_instrument, chip_files.
  destruct (Dict.get (snd (Path.split root)) factory_map) as [factory|]; [|discriminate].
  intros Hrun. apply bind_Ok_inv in Hrun. destruct Hrun as [dd [Hdd Hret]].
  injection Hret as <- <-. split; [reflexivity|]. exists factory. auto.
Qed.

(** The names of the factory table. *)
Lemma factory_map_names (name : string) (factory : Factory) :
  Dict.get name factory_map = Some factory ->
  In name ["qe_curve"; "defects"; "linearizer"; "crosstalk"; "bfk"; "photodiode"].
Proof.
  intros Hget. apply get_Some_In in Hget.
  change ["qe_curve"; "defects"; "linearizer"; "crosstalk"; "bfk"; "photodiode"]
    with (Dict.keys factory_map).
  unfold Dict.keys. apply in_map_iff. now exists (name, factory).
Qed.

(** X4: [read_one_chip] yields as category the last segment of the root,
    which is then one of the six recognised data names; under any other
    root it raises the [ValueError] that lists the six, for every sensor
    and whatever files are there. *)
Theorem read_one_chip_category_recognised (root : string) :
  (forall chip_name chip_id data c,
     read_one_chip py fs root chip_name chip_id = Ok (data, c) ->
     c = snd (Path.split root)
     /\ In c ["qe_curve"; "defects"; "linearizer"; "crosstalk"; "bfk"; "photodiode"])
  /\ (~ In (snd (Path.split root))
          ["qe_curve"; "defects"; "linearizer"; "crosstalk"; "bfk"; "photodiode"] ->
      forall chip_name chip_id,
        read_one_chip py fs root chip_name chip_id
        = Raise (ValueError
                   ("Unknown calibration data type, '" ++ snd (Path.split root)
                    ++ "' found. Only understand "
                    ++ "qe_curve,defects,linearizer,crosstalk,bfk,photodiode"))).
Proof.
  split.
  - intros chip_name chip_id data c Hrun.
    destruct (read_one_chip_Ok_inv _ _ _ _ _ Hrun) as [-> [factory [Hget _]]].
    split; [reflexivity|].
    apply get_Some_In in Hget.
    change ["qe_curve"; "defects"; "linearizer"; "crosstalk"; "bfk"; "photodiode"]
      with (Dict.keys factory_map).
    unfold Dict.keys. apply in_map_iff. now exists (path_data_name root, factory).
  - intros Hnot chip_name chip_id. unfold read_one_chip.
    destruct (Dict.get (snd (Path.split root)) factory_map) as [factory|] eqn:Hget;
      [|reflexivity].
    exfalso. apply Hnot. apply get_Some_In in Hget.
    change ["qe_curve"; "defects"; "linearizer"; "crosstalk"; "bfk"; "photodiode"]
      with (Dict.keys factory_map).
    unfold Dict.keys. apply in_map_iff. now exists (snd (Path.split root), factory).
Qed.

(** X5: a normal return of [read_one_chip] means that every file found for
    the sensor had a name that parses as a date, was decoded and passed the
    header check; every record returned is the decoded object of one of
    these files, under the date of its name. *)
Theorem read_one_chip_all_files_pass (root chip_name : string) (chip_id : Z)
  (data : ChipData) (c : string) :
  read_one_chip py fs root chip_name chip_id = Ok (data, c) ->
  exists factory,
    Dict.get c factory_map = Some factory
    /\ (forall f, In f (chip_files fs root chip_name) ->
          exists date obj,
            parse_date fs (fst (Path.splitext (Path.basename f))) = Ok date
            /\ readText fs factory f = Ok obj
            /\ check_metadata py obj date (path_instrument root) chip_id f c = Ok tt
            /\ Dict.mem date data = true)
    /\ (forall date obj, In (date, obj) data ->
          exists f, In f (chip_files fs root chip_name)
            /\ parse_date fs (fst (Path.splitext (Path.basename f))) = Ok date
            /\ readText fs factory f = Ok obj).
Proof.
  intros Hrun.
  destruct (read_one_chip_Ok_inv _ _ _ _ _ Hrun) as [-> [factory [Hget Hfiles]]].
  exists factory. split; [exact Hget|].
  destruct (read_files_inv _ _ _ _ _ _ _ Hfiles) as [Hall [Hfrom _]].
  split.
  - intros f Hin. rewrite Forall_forall in Hall.
    destruct (Hall f Hin) as [date [obj [[Hp [Hr Hc]] Hk]]].
    exists date, obj. repeat split; try assumption.
    unfold Dict.mem. destruct (Dict.get date data) eqn:Hg; [reflexivity|].
    apply get_None_not_In in Hg. contradiction.
  - intros date obj Hin. destruct (Hfrom _ Hin) as [[]|[f [Hf [Hp [Hr _]]]]].
    exists f. auto.
Qed.

(** X6: every record [read_one_chip] returns has a header that agrees with
    the path: instrument (the segment above the last of the root),
    detector id and data name, compared lower-cased. *)
Theorem read_one_chip_records_match_path (root chip_name : string) (chip_id : Z)
  (data : ChipData) (c : string) :
  read_one_chip py fs root chip_name chip_id = Ok (data, c) ->
  forall date obj, In (date, obj) data ->
    header_triple py obj
    = Ok (Py.lower (snd (Path.split (fst (Path.split root)))), chip_id,
          Py.lower (snd (Path.split root))).
Proof.
  intros Hrun date obj Hin.
  destruct (read_one_chip_Ok_inv _ _ _ _ _ Hrun) as [-> [factory [Hget Hfiles]]].
  destruct (read_files_inv _ _ _ _ _ _ _ Hfiles) as [_ [Hfrom _]].
  destruct (Hfrom _ Hin) as [[]|[f [_ [_ [_ Hc]]]]].
  cbn [fst snd] in Hc. apply check_metadata_Ok_header in Hc. exact Hc.
Qed.

(** X7: the mapping [read_one_chip] returns has one record for each date,
    no more records than there are files, and a record for the date of
    every file. *)
Theorem read_one_chip_one_record_per_date (root chip_name : string) (chip_id : Z)
  (data : ChipData) (c : string) :
  read_one_chip py fs root chip_name chip_id = Ok (data, c) ->
  NoDup (Dict.keys data)
  /\ (List.length data <= List.length (chip_files fs root chip_name))%nat
  /\ (forall date,
        In date (Dict.keys data)
        <-> exists f, In f (chip_files fs root chip_name)
              /\ parse_date fs (fst (Path.splitext (Path.basename f))) = Ok date).
Proof.
  intros Hrun.
  destruct (read_one_chip_Ok_inv _ _ _ _ _ Hrun) as [-> [factory [Hget Hfiles]]].
  destruct (read_files_inv _ _ _ _ _ _ _ Hfiles) as [Hall [Hfrom [Hnd [Hlen _]]]].
  split; [apply Hnd; constructor|]. split; [exact Hlen|].
  intros date. split.
  - intros Hin. unfold Dict.keys in Hin. apply in_map_iff in Hin.
    destruct Hin as [[date' obj] [Heq Hin]]. cbn [fst] in Heq. subst date'.
    destruct (Hfrom _ Hin) as [[]|[f [Hf [Hp _]]]]. exists f. auto.
  - intros [f [Hf Hp]]. rewrite Forall_forall in Hall.
    destruct (Hall f Hf) as [date' [obj [[Hp' _] Hk]]].
    rewrite Hp in Hp'. injection Hp' as <-. exact Hk.
Qed.

End ReadOneChipMore.

(** ** More on the name table and on the aggregation *)

Lemma lower_ascii_idem (c : ascii) : Py.lower_ascii (Py.lower_ascii c) = Py.lower_ascii c.
Proof. destruct c as [[] [] [] [] [] [] [] []]; reflexivity. Qed.

Lemma lower_idem (s : string) : Py.lower (Py.lower s) = Py.lower s.
Proof. induction s as [|c r IH]; [reflexivity|]. cbn. now rewrite lower_ascii_idem, IH. Qed.

Lemma Forall2_In_combine {A B : Type} (R : A -> B -> Prop) (l : list A) (l' : list B)
  (a : A) (b : B) :
  Forall2 R l l' -> In (a, b) (combine l l') -> R a b.
Proof.
  induction 1 as [|x y l l' Hxy _ IH]; cbn; [tauto|].
  intros [[= <- <-]|Hin]; auto.
Qed.

Section NameMapFacts.
Import CuratedCalibs.

Lemma name_map_fold_inv (P : string * string -> Prop) (dets : list Detector) :
  forall m : Dict.t string string,
  Forall P m ->
  (forall det, In det dets -> P (Py.lower (detName det), detName det)) ->
  Forall P (fold_left (fun m det => Dict.set (Py.lower (detName det)) (detName det) m)
              dets m).
Proof.
  induction dets as [|x r IH]; intros m Hm Hd; [exact Hm|].
  cbn [fold_left]. apply IH.
  - apply Forall_set; [exact Hm | apply Hd; now left].
  - intros det Hin. apply Hd. now right.
Qed.

(** Every entry of the name table maps the lower-cased name of a detector
    to its name. *)
Lemma name_map_entries (camera : Camera) (k v : string) :
  Dict.get k (name_map camera) = Some v ->
  k = Py.lower v /\ exists det, In det (detectors camera) /\ detName det = v.
Proof.
  intros Hget. apply get_Some_In in Hget.
  pose proof (name_map_fold_inv
                (fun kv => fst kv = Py.lower (snd kv)
                           /\ exists det, In det (detectors camera)
                                          /\ detName det = snd kv)
                (detectors camera) [] (Forall_nil _)) as Hall.
  rewrite Forall_forall in Hall. apply (Hall (fun det Hin => conj eq_refl
    (ex_intro _ det (conj Hin eq_refl))) (k, v) Hget).
Qed.

Lemma find_by_name (dets : list Detector) (det : Detector) :
  In det dets ->
  exists det', find (fun x => String.eqb (detName x) (detName det)) dets = Some det'
               /\ In det' dets /\ detName det' = detName det.
Proof.
  induction dets as [|x r IH]; [intros []|].
  intros Hin. cbn [find].
  destruct (String.eqb_spec (detName x) (detName det)) as [Heq|Hne].
  - exists x. split; [reflexivity|]. split; [now left | exact Heq].
  - destruct Hin as [->|Hin]; [congruence|].
    destruct (IH Hin) as [det' [Hf [Hi Hn]]]. exists det'. split; [exact Hf|].
    split; [now right | exact Hn].
Qed.

Lemma name_map_fold_get (dets : list Detector) :
  forall (m : Dict.t string string) (k : string),
  ~ In k (map (fun det => Py.lower (detName det)) dets) ->
  Dict.get k (fold_left (fun m det => Dict.set (Py.lower (detName det)) (detName det) m)
                dets m)
  = Dict.get k m.
Proof.
  induction dets as [|x r IH]; intros m k Hk; [reflexivity|].
  cbn [fold_left]. cbn [map In] in Hk. rewrite IH by tauto.
  apply get_set_other. intros ->. tauto.
Qed.

Section WithLoader.
Variable loader : string -> string -> Z -> result (ChipData * string).
Variable root : string.
Variable camera : Camera.

(** X8: a directory that resolves in the name table is loaded with the id
    of a detector of the camera whose lower-cased name is the directory
    name: looking the camera up by the resolved name never fails. *)
Theorem resolved_directory_has_detector (d canonical : string) :
  Dict.get (Path.basename d) (name_map camera) = Some canonical ->
  exists det,
    In det (detectors camera)
    /\ Py.lower (detName det) = Path.basename d
    /\ camera_getitem camera canonical = Ok det
    /\ load_sensor loader root camera d = loader root (Path.basename d) (detId det).
Proof.
  intros Hget. destruct (name_map_entries _ _ _ Hget) as [Hk [det [Hin Hname]]].
  destruct (find_by_name _ det Hin) as [det' [Hfind [Hin' Hname']]].
  exists det'. split; [exact Hin'|]. split; [congruence|].
  assert (Hitem : camera_getitem camera canonical = Ok det').
  { unfold camera_getitem. rewrite <- Hname. now rewrite Hfind. }
  split; [exact Hitem|].
  unfold load_sensor. rewrite Hget, Hitem. reflexivity.
Qed.

(** X9: the name table is keyed by lower-cased names, so a directory whose
    name is not in lower case never resolves: it is reported as not known,
    also when the camera has a detector of exactly that name. *)
Theorem directory_not_lower_case_is_unknown (d : string) :
  Py.lower (Path.basename d) <> Path.basename d ->
  Dict.get (Path.basename d) (name_map camera) = None
  /\ load_sensor loader root camera d
     = Raise (RuntimeError (unknown_detector_msg (Path.basename d) camera)).
Proof.
  intros Hne.
  assert (Hget : Dict.get (Path.basename d) (name_map camera) = None).
  { destruct (Dict.get (Path.basename d) (name_map camera)) as [v|] eqn:Hg;
      [|reflexivity].
    exfalso. apply Hne. destruct (name_map_entries _ _ _ Hg) as [-> _].
    apply lower_idem. }
  split; [exact Hget|]. unfold load_sensor. now rewrite Hget.
Qed.

(** X10: where no two detectors share a lower-cased name, the name table
    and the camera lookup take the lower-cased name of every detector back
    to that detector. *)
Theorem name_map_round_trip (det : Detector) :
  NoDup (map (fun x => Py.lower (detName x)) (detectors camera)) ->
  In det (detectors camera) ->
  Dict.get (Py.lower (detName det)) (name_map camera) = Some (detName det)
  /\ camera_getitem camera (detName det) = Ok det.
Proof.
  intros Hnd Hin. split.
  - unfold name_map. generalize (@nil (string * string)).
    induction (detectors camera) as [|x r IH]; [destruct Hin|]; intros m.
    cbn [fold_left]. cbn [map] in Hnd. inversion Hnd as [|? ? Hx Hr]; subst.
    destruct Hin as [->|Hin].
    + rewrite name_map_fold_get by exact Hx. apply get_set_same.
    + now apply IH.
  - unfold camera_getitem.
    induction (detectors camera) as [|x r IH]; [destruct Hin|].
    cbn [find]. cbn [map] in Hnd. inversion Hnd as [|? ? Hx Hr]; subst.
    destruct Hin as [->|Hin]; [now rewrite String.eqb_refl|].
    destruct (String.eqb_spec (detName x) (detName det)) as [Heq|Hne]; [|now apply IH].
    exfalso. apply Hx. rewrite Heq.
    apply (in_map (fun x => Py.lower (detName x)) r det Hin).
Qed.

End WithLoader.
End NameMapFacts.

(** Witnesses of the three theorems on the name table. *)
Lemma resolved_directory_has_detector_witness :
  exists det,
    In det (CuratedCalibs.detectors Examples.cam)
    /\ Py.lower (CuratedCalibs.detName det) = Path.basename "ccd02"
    /\ CuratedCalibs.camera_getitem Examples.cam "CCD02" = Ok det
    /\ CuratedCalibs.load_sensor Examples.mixed_loader "LSSTCam/defects" Examples.cam
         "ccd02"
       = Examples.mixed_loader "LSSTCam/defects" (Path.basename "ccd02")
           (CuratedCalibs.detId det).
Proof.
  apply (resolved_directory_has_detector Examples.mixed_loader "LSSTCam/defects"
           Examples.cam "ccd02" "CCD02").
  reflexivity.
Defined.

Lemma directory_not_lower_case_is_unknown_witness :
  Dict.get (Path.basename "CCD01") (CuratedCalibs.name_map Examples.cam) = None
  /\ CuratedCalibs.load_sensor Examples.mixed_loader "LSSTCam/defects" Examples.cam
       "CCD01"
     = Raise (RuntimeError
                (CuratedCalibs.unknown_detector_msg (Path.basename "CCD01")
                   Examples.cam)).
Proof.
  apply (directory_not_lower_case_is_unknown Examples.mixed_loader "LSSTCam/defects"
           Examples.cam "CCD01").
  discriminate.
Defined.

Lemma name_map_round_trip_witness :
  Dict.get "ccd02" (CuratedCalibs.name_map Examples.cam) = Some "CCD02"
  /\ CuratedCalibs.camera_getitem Examples.cam "CCD02"
     = Ok {| CuratedCalibs.detName := "CCD02"; CuratedCalibs.detId := 4 |}.
Proof.
  apply (name_map_round_trip Examples.cam
           {| CuratedCalibs.detName := "CCD02"; CuratedCalibs.detId := 4 |}).
  - cbn. repeat (constructor; [cbn; intuition discriminate|]). constructor.
  - cbn. auto.
Defined.

Section StoreAllFacts.
Import CuratedCalibs.

Lemma store_all_In (dirs : list string) :
  forall (datas : list ChipData) (dbc : Dict.t string ChipData) (k : string)
         (v : ChipData),
  In (k, v) (store_all dirs datas dbc) ->
  In (k, v) dbc \/ exists d, In (d, v) (combine dirs datas) /\ Path.basename d = k.
Proof.
  unfold store_all.
  induction dirs as [|d rest IH]; intros datas dbc k v Hin; [now left|].
  destruct datas as [|data datas']; [now left|].
  cbn [combine fold_left fst snd] in Hin. apply IH in Hin.
  destruct Hin as [Hin|[d' [Hd' Hb]]].
  - apply In_set in Hin. destruct Hin as [[= -> ->]|Hin]; [|now left].
    right. exists d. split; [now left | reflexivity].
  - right. exists d'. split; [now right | exact Hb].
Qed.

Lemma store_all_NoDup (dirs : list string) :
  forall (datas : list ChipData) (dbc : Dict.t string ChipData),
  NoDup (Dict.keys dbc) -> NoDup (Dict.keys (store_all dirs datas dbc)).
Proof.
  unfold store_all.
  induction dirs as [|d rest IH]; intros datas dbc Hnd; [exact Hnd|].
  destruct datas as [|data datas']; [exact Hnd|].
  cbn [combine fold_left fst snd]. apply IH. now apply NoDup_keys_set.
Qed.

Lemma store_all_keeps_keys (dirs : list string) :
  forall (datas : list ChipData) (dbc : Dict.t string ChipData) (k : string),
  In k (Dict.keys dbc) -> In k (Dict.keys (store_all dirs datas dbc)).
Proof.
  unfold store_all.
  induction dirs as [|d rest IH]; intros datas dbc k Hin; [exact Hin|].
  destruct datas as [|data datas']; [exact Hin|].
  cbn [combine fold_left fst snd]. apply IH. apply In_keys_set. now right.
Qed.

Lemma store_all_has_dirs (dirs : list string) :
  forall (datas : list ChipData) (dbc : Dict.t string ChipData) (d : string),
  List.length dirs = List.length datas -> In d dirs ->
  In (Path.basename d) (Dict.keys (store_all dirs datas dbc)).
Proof.
  induction dirs as [|x rest IH]; intros datas dbc d Hlen Hin; [destruct Hin|].
  destruct datas as [|data datas']; [discriminate|].
  injection Hlen as Hlen. unfold store_all. cbn [combine fold_left fst snd].
  destruct Hin as [->|Hin].
  - apply (store_all_keeps_keys rest datas'). apply In_keys_set. now left.
  - now apply (IH datas').
Qed.

End StoreAllFacts.

Section ReadAllMore.
Import CuratedCalibs.
Variable py : PyEnv.
Variable fs : FsEnv.
Variable root : string.
Variable camera : Camera.

Local Abbreviation nroot := (normpath fs root).

Lemma read_dirs_check_is_void (dirs : list string) :
  forall (dbc : Dict.t string ChipData) (types : list string) (ct : option string),
  types = [] \/ types = [path_data_name nroot] ->
  read_dirs py (read_one_chip py fs) nroot camera dirs dbc types ct
  = read_dirs_unchecked py fs nroot camera dirs dbc ct.
Proof.
  induction dirs as [|d rest IH]; intros dbc types ct Htypes; [reflexivity|].
  cbn [read_dirs read_dirs_unchecked].
  destruct (load_sensor (read_one_chip py fs) nroot camera d) as [[data c]|e] eqn:Hload;
    [|reflexivity].
  cbn [bind]. pose proof (load_sensor_category py fs _ _ _ _ _ Hload) as Hc.
  fold (path_data_name nroot) in Hc. subst c.
  assert (Hset : set_add (path_data_name nroot) types = [path_data_name nroot]).
  { destruct Htypes as [->| ->]; [reflexivity | apply set_add_same]. }
  rewrite Hset. cbn [List.length Nat.eqb negb]. apply IH. now right.
Qed.

(** X11: in [read_all] the test on the set of categories never fires: all
    sensors are read under one root and yield its last segment, so
    [read_all] is the function without the test. *)
Theorem read_all_category_check_never_fires :
  read_all py fs root camera = read_all_unchecked py fs root camera.
Proof.
  unfold read_all, read_all_with, read_all_unchecked.
  destruct (sensor_dirs fs root) as [dirs|e]; [|reflexivity]. cbn [bind].
  destruct dirs as [|d rest]; [reflexivity|].
  now rewrite read_dirs_check_is_void by now left.
Qed.

(** X12: what [read_all] returns: the category is the last segment of the
    normalised root, one of the six recognised; the mapping has exactly one
    entry for each sensor directory, keyed by its name, and every directory
    resolved in the name table. *)
Theorem read_all_result_shape (dirs : list string)
  (data : Dict.t string ChipData) (ct : option string) :
  sensor_dirs fs root = Ok dirs ->
  read_all py fs root camera = Ok (data, ct) ->
  ct = Some (snd (Path.split nroot))
  /\ In (snd (Path.split nroot))
        ["qe_curve"; "defects"; "linearizer"; "crosstalk"; "bfk"; "photodiode"]
  /\ NoDup (Dict.keys data)
  /\ (forall k, In k (Dict.keys data) <-> In k (map Path.basename dirs))
  /\ (forall d, In d dirs -> Dict.mem (Path.basename d) (name_map camera) = true).
Proof.
  intros Hd Hok. unfold read_all in Hok.
  destruct (read_all_with_Ok_inv py fs _ root camera dirs data ct Hd Hok)
    as [c [datas [-> [Hall [-> Hsome]]]]].
  assert (Hdirs : dirs <> []).
  { intros ->. rewrite (read_all_with_no_dirs py fs _ root camera Hd) in Hok.
    discriminate. }
  assert (Hloads : forall d, In d dirs ->
            exists r, load_sensor (read_one_chip py fs) nroot camera d = Ok (r, c)).
  { intros d Hin. destruct (Forall2_In_l _ _ _ _ Hall Hin) as [r [_ Hr]]. eauto. }
  assert (Hc : c = snd (Path.split nroot)
               /\ In c ["qe_curve"; "defects"; "linearizer"; "crosstalk"; "bfk";
                        "photodiode"]).
  { destruct dirs as [|d0 rest]; [congruence|].
    destruct (Hloads d0 (or_introl eq_refl)) as [r Hr].
    unfold load_sensor in Hr.
    destruct (Dict.get (Path.basename d0) (name_map camera)); [|discriminate].
    destruct (camera_getitem camera s); [|discriminate]. cbn [bind] in Hr.
    destruct (read_one_chip_Ok_inv py fs _ _ _ _ _ Hr) as [-> [factory [Hget _]]].
    split; [reflexivity|]. exact (factory_map_names _ _ Hget). }
  destruct Hc as [-> Hsix].
  split; [reflexivity|]. split; [exact Hsix|].
  split; [apply store_all_NoDup; constructor|]. split.
  - intros k. split.
    + intros Hk. apply store_all_keys in Hk. destruct Hk as [[]|Hk]. exact Hk.
    + intros Hk. apply in_map_iff in Hk. destruct Hk as [d [<- Hin]].
      apply store_all_has_dirs; [|exact Hin]. eapply Forall2_length; exact Hall.
  - intros d Hin. destruct (Hloads d Hin) as [r Hr]. unfold load_sensor in Hr.
    unfold Dict.mem.
    destruct (Dict.get (Path.basename d) (name_map camera)); [reflexivity|discriminate].
Qed.

(** X13: every record of the mapping [read_all] returns sits under the
    lower-cased name of a detector of the camera, and its header names the
    instrument and data name of the root and the id of that detector. *)
Theorem read_all_records_match_path (data : Dict.t string ChipData)
  (ct : option string) :
  read_all py fs root camera = Ok (data, ct) ->
  forall chip records date obj,
    In (chip, records) data -> In (date, obj) records ->
    exists det,
      In det (detectors camera)
      /\ Py.lower (detName det) = chip
      /\ header_triple py obj
         = Ok (Py.lower (snd (Path.split (fst (Path.split nroot)))), detId det,
               Py.lower (snd (Path.split nroot))).
Proof.
  intros Hok chip records date obj Hchip Hrec.
  destruct (sensor_dirs fs root) as [dirs|e] eqn:Hd.
  2:{ unfold read_all, read_all_with in Hok. rewrite Hd in Hok. discriminate. }
  unfold read_all in Hok.
  destruct (read_all_with_Ok_inv py fs _ root camera dirs data ct Hd Hok)
    as [c [datas [_ [Hall [-> _]]]]].
  apply store_all_In in Hchip. destruct Hchip as [[]|[d [Hcomb Hbase]]].
  pose proof (Forall2_In_combine _ _ _ _ _ Hall Hcomb) as Hload. cbn beta in Hload.
  destruct (Dict.get (Path.basename d) (name_map camera)) as [canonical|] eqn:Hget.
  2:{ unfold load_sensor in Hload. rewrite Hget in Hload. discriminate. }
  destruct (name_map_entries _ _ _ Hget) as [Hk [det0 [Hin0 Hname0]]].
  destruct (find_by_name _ det0 Hin0) as [det [Hfind [Hin Hname]]].
  assert (Hitem : camera_getitem camera canonical = Ok det).
  { unfold camera_getitem. rewrite <- Hname0. now rewrite Hfind. }
  unfold load_sensor in Hload. rewrite Hget, Hitem in Hload. cbn [bind] in Hload.
  exists det. split; [exact Hin|]. split; [congruence|].
  destruct (read_one_chip_Ok_inv py fs _ _ _ _ _ Hload) as [_ [factory [_ Hfiles]]].
  destruct (read_files_inv py fs _ _ _ _ _ _ _ Hfiles) as [_ [Hfrom _]].
  destruct (Hfrom _ Hrec) as [[]|[f [_ [_ [_ Hc]]]]].
  cbn [fst snd] in Hc. apply check_metadata_Ok_header in Hc. exact Hc.
Qed.

End ReadAllMore.

(** Witnesses of the two theorems on what [read_all] returns. *)
Lemma read_all_result_shape_witness :
  Some "defects" = Some (snd (Path.split "LSSTCam/defects"))
  /\ In (snd (Path.split "LSSTCam/defects"))
        ["qe_curve"; "defects"; "linearizer"; "crosstalk"; "bfk"; "photodiode"]
  /\ NoDup (Dict.keys Examples.good_archive)
  /\ (forall k, In k (Dict.keys Examples.good_archive)
                <-> In k (map Path.basename ["ccd01"]))
  /\ (forall d, In d ["ccd01"] ->
        Dict.mem (Path.basename d) (CuratedCalibs.name_map Examples.cam) = true).
Proof.
  apply (read_all_result_shape Examples.py0 Examples.fs_good "LSSTCam/defects"
           Examples.cam ["ccd01"] Examples.good_archive (Some "defects")).
  - reflexivity.
  - vm_compute. reflexivity.
Defined.

Lemma read_all_records_match_path_witness :
  Forall (fun sensor =>
            Forall (fun record =>
                      exists det,
                        In det (CuratedCalibs.detectors Examples.cam)
                        /\ Py.lower (CuratedCalibs.detName det) = fst sensor
                        /\ CuratedCalibs.header_triple Examples.py0 (snd record)
                           = Ok ("lsstcam", CuratedCalibs.detId det, "defects"))
                   (snd sensor))
         Examples.good_archive.
Proof.
  apply Forall_forall. intros [chip records] Hchip.
  apply Forall_forall. intros [date obj] Hrec.
  apply (read_all_records_match_path Examples.py0 Examples.fs_good "LSSTCam/defects"
           Examples.cam Examples.good_archive (Some "defects")
           ltac:(vm_compute; reflexivity) chip records date obj Hchip Hrec).
Defined.

(** ** More on the compression settings of a write *)

Section DictMore.
Context {K V : Type} `{Key K}.

Lemma set_same_value (k : K) (v : V) (d : Dict.t K V) :
  Dict.get k d = Some v -> Dict.set k v d = d.
Proof.
  induction d as [|[k' v'] r IH]; cbn; [discriminate|].
  destruct (key_eqb_spec k k') as [->|Hne].
  - now intros [= ->].
  - intros Hg. now rewrite IH.
Qed.

Lemma keys_set_present (k : K) (v v0 : V) (d : Dict.t K V) :
  Dict.get k d = Some v0 -> Dict.keys (Dict.set k v d) = Dict.keys d.
Proof.
  induction d as [|[k' v'] r IH]; cbn; [discriminate|].
  destruct (key_eqb_spec k k') as [->|Hne]; cbn.
  - reflexivity.
  - intros Hg. f_equal. now apply IH.
Qed.

End DictMore.

Section SeedMore.
Import FitsExposure.
Variable py : PyEnv.

Lemma set_seed_seed (seed : Z) (recipe : Recipe) (plane : string) :
  recipe_seed plane (set_seed seed recipe plane)
  = seed_after seed (recipe_seed plane recipe).
Proof.
  unfold recipe_seed, set_seed, seed_after.
  destruct (Dict.get plane recipe) as [p|] eqn:Hp; [|now rewrite Hp].
  destruct (Dict.get "scaling" p) as [scaling|] eqn:Hs; [|now rewrite Hp, Hs].
  destruct (Dict.get "seed" scaling) as [v|] eqn:Hv; [|now rewrite Hp, Hs, Hv].
  destruct (eq_zero v); [now rewrite !get_set_same | now rewrite Hp, Hs, Hv].
Qed.

(** The loop leaves a recipe alone whose seed is not the sentinel, or is
    the sentinel already replaced by the same seed. *)
Lemma set_seed_fixed (seed : Z) (recipe : Recipe) (plane : string) :
  (forall v, recipe_seed plane recipe = Some v -> eq_zero v = true -> v = VInt seed) ->
  set_seed seed recipe plane = recipe.
Proof.
  unfold recipe_seed, set_seed.
  destruct (Dict.get plane recipe) as [p|] eqn:Hp; [|reflexivity].
  destruct (Dict.get "scaling" p) as [scaling|] eqn:Hs; [|reflexivity].
  destruct (Dict.get "seed" scaling) as [v|] eqn:Hv; [|reflexivity].
  destruct (eq_zero v) eqn:Hz; [|reflexivity].
  intros Hfix. rewrite <- (Hfix v eq_refl Hz).
  transitivity (Dict.set plane p recipe); [|now apply set_same_value].
  f_equal. transitivity (Dict.set "scaling" scaling p); [|now apply set_same_value].
  f_equal. now apply set_same_value.
Qed.

Lemma planes_seeds (seed : Z) (recipe : Recipe) (plane : string) :
  In plane planes ->
  recipe_seed plane (fold_left (set_seed seed) planes recipe)
  = seed_after seed (recipe_seed plane recipe).
Proof.
  cbn [planes fold_left]. intros [<-|[<-|[<-|[]]]].
  - rewrite 2 recipe_seed_other by discriminate. apply set_seed_seed.
  - rewrite recipe_seed_other by discriminate. rewrite set_seed_seed.
    now rewrite recipe_seed_other by discriminate.
  - rewrite set_seed_seed. now rewrite 2 recipe_seed_other by discriminate.
Qed.

Lemma resolve_found (writeRecipes : Recipes) (recipe : Recipe)
  (dataId : Dict.t string PyVal) (recipeName : option string) :
  Dict.get (effective_name recipeName) writeRecipes = Some recipe ->
  getImageCompressionSettings py writeRecipes dataId recipeName
  = Ok (fold_left (set_seed (seed_of py dataId)) planes recipe,
        Dict.set (effective_name recipeName)
          (fold_left (set_seed (seed_of py dataId)) planes recipe) writeRecipes).
Proof.
  unfold getImageCompressionSettings, effective_name, Dict.mem.
  destruct recipeName as [s|]; [destruct (String.eqb s "")|];
    intros Hget; rewrite Hget; reflexivity.
Qed.

(** X14: with no recipe requested ([None] or the empty name) and no recipe
    named "default", the settings are empty and the recipes are left as
    they are; the empty name is the same request as [None]; a requested name
    that is not there is a [RuntimeError] naming it, and so is "default"
    when asked for by name. *)
Theorem resolution_edge_cases (writeRecipes : Recipes) (dataId : Dict.t string PyVal) :
  (Dict.get "default" writeRecipes = None ->
   getImageCompressionSettings py writeRecipes dataId None = Ok ([], writeRecipes))
  /\ getImageCompressionSettings py writeRecipes dataId (Some "")
     = getImageCompressionSettings py writeRecipes dataId None
  /\ (Dict.get "default" writeRecipes <> None ->
      getImageCompressionSettings py writeRecipes dataId None
      = getImageCompressionSettings py writeRecipes dataId (Some "default"))
  /\ (forall name, name <> "" -> Dict.get name writeRecipes = None ->
      getImageCompressionSettings py writeRecipes dataId (Some name)
      = Raise (RuntimeError
                 ("Unrecognized recipe option given for compression: " ++ name))).
Proof.
  split; [|split; [|split]].
  - intros Hnone. unfold getImageCompressionSettings, Dict.mem. now rewrite Hnone.
  - reflexivity.
  - intros Hsome.
    destruct (Dict.get "default" writeRecipes) as [r|] eqn:E; [|congruence].
    rewrite (resolve_found writeRecipes r dataId None E).
    now rewrite (resolve_found writeRecipes r dataId (Some "default") E).
  - intros name Hne Hnone. unfold getImageCompressionSettings.
    apply String.eqb_neq in Hne. rewrite Hne. cbn [andb]. now rewrite Hnone.
Qed.

(** X15: in the recipe returned, each of the three planes has the derived
    seed where it had the sentinel ([0], [0.0] or [False]) and the seed it
    had otherwise; a plane without scaling seed gets none. *)
Theorem resolution_seeds_of_all_planes (writeRecipes : Recipes) (recipe : Recipe)
  (dataId : Dict.t string PyVal) (recipeName : option string) :
  Dict.get (effective_name recipeName) writeRecipes = Some recipe ->
  exists recipe',
    getImageCompressionSettings py writeRecipes dataId recipeName
    = Ok (recipe', Dict.set (effective_name recipeName) recipe' writeRecipes)
    /\ forall plane, In plane ["image"; "mask"; "variance"] ->
         recipe_seed plane recipe'
         = match recipe_seed plane recipe with
           | Some v => if eq_zero v
                       then Some (VInt (hash_items py dataId mod 2 ^ 31))
                       else Some v
           | None => None
           end.
Proof.
  intros Hget. eexists. split; [exact (resolve_found _ _ _ _ Hget)|].
  intros plane Hin. now rewrite (planes_seeds _ _ _ Hin).
Qed.

(** X16: a recipe none of whose three planes has the sentinel as seed is
    returned as it is stored, and the stored recipes are left as they
    are. *)
Theorem resolution_without_sentinel (writeRecipes : Recipes) (recipe : Recipe)
  (dataId : Dict.t string PyVal) (recipeName : option string) :
  Dict.get (effective_name recipeName) writeRecipes = Some recipe ->
  (forall plane v, In plane planes -> recipe_seed plane recipe = Some v ->
     eq_zero v = false) ->
  getImageCompressionSettings py writeRecipes dataId recipeName
  = Ok (recipe, writeRecipes).
Proof.
  intros Hget Hno. rewrite (resolve_found _ _ _ _ Hget).
  assert (Hfix : forall plane, In plane planes ->
            set_seed (seed_of py dataId) recipe plane = recipe).
  { intros plane Hin. apply set_seed_fixed. intros v Hv Hz.
    rewrite (Hno plane v Hin Hv) in Hz. discriminate. }
  cbn [planes fold_left].
  rewrite !Hfix by (cbn; auto).
  now rewrite (set_same_value _ _ _ Hget).
Qed.

(** X17: resolving twice for the same identity returns the same recipe and
    leaves the same stored recipes as resolving once. *)
Theorem resolution_is_idempotent (writeRecipes store : Recipes) (recipe' : Recipe)
  (dataId : Dict.t string PyVal) (recipeName : option string) :
  Dict.mem (effective_name recipeName) writeRecipes = true ->
  getImageCompressionSettings py writeRecipes dataId recipeName = Ok (recipe', store) ->
  getImageCompressionSettings py store dataId recipeName = Ok (recipe', store).
Proof.
  unfold Dict.mem.
  destruct (Dict.get (effective_name recipeName) writeRecipes) as [recipe|] eqn:Hget;
    [|discriminate].
  intros _ Hrun. rewrite (resolve_found _ _ _ _ Hget) in Hrun.
  injection Hrun as <- <-.
  set (seed := seed_of py dataId).
  set (r1 := fold_left (set_seed seed) planes recipe).
  rewrite (resolve_found (Dict.set (effective_name recipeName) r1 writeRecipes) r1)
    by apply get_set_same.
  fold seed.
  assert (Hfix : forall plane, In plane planes -> set_seed seed r1 plane = r1).
  { intros plane Hin. apply set_seed_fixed. intros v Hv Hz.
    unfold r1 in Hv. rewrite (planes_seeds _ _ _ Hin) in Hv.
    unfold seed_after in Hv. destruct (recipe_seed plane recipe) as [v0|]; [|discriminate].
    destruct (eq_zero v0) eqn:Hz0; injection Hv as <-; [reflexivity | congruence]. }
  assert (Hfold : fold_left (set_seed seed) planes r1 = r1).
  { cbn [planes fold_left]. now rewrite !Hfix by (cbn; auto). }
  rewrite Hfold. f_equal. f_equal.
  apply set_same_value. apply get_set_same.
Qed.

(** X18: the seed is written into the stored recipe.  Once a resolution has
    replaced a sentinel by a seed other than 0, resolving the recipes it
    left for another identity returns, in that plane, the seed of the first
    identity. *)
Theorem first_identity_seed_is_kept (writeRecipes store1 : Recipes)
  (recipe recipe1 : Recipe) (v : PyVal) (plane : string)
  (dataId1 dataId2 : Dict.t string PyVal) (recipeName : option string) :
  Dict.get (effective_name recipeName) writeRecipes = Some recipe ->
  In plane planes ->
  recipe_seed plane recipe = Some v ->
  eq_zero v = true ->
  hash_items py dataId1 mod 2 ^ 31 <> 0 ->
  getImageCompressionSettings py writeRecipes dataId1 recipeName = Ok (recipe1, store1) ->
  exists recipe2 store2,
    getImageCompressionSettings py store1 dataId2 recipeName = Ok (recipe2, store2)
    /\ recipe_seed plane recipe2 = Some (VInt (hash_items py dataId1 mod 2 ^ 31)).
Proof.
  intros Hget Hin Hv Hz Hnz Hrun. rewrite (resolve_found _ _ _ _ Hget) in Hrun.
  injection Hrun as <- <-.
  do 2 eexists. split; [apply resolve_found; apply get_set_same|].
  rewrite (planes_seeds _ _ _ Hin).
  pose proof (planes_seeds (seed_of py dataId1) recipe plane Hin) as H1.
  cbn [planes fold_left] in H1. rewrite H1.
  rewrite Hv. unfold seed_after. rewrite Hz.
  cbn [eq_zero]. fold (seed_of py dataId1).
  unfold seed_of in *. apply Z.eqb_neq in Hnz. now rewrite Hnz.
Qed.

End SeedMore.

Section OnlySeeds.
Import FitsExposure.

Lemma same_but_seeds_refl (a : Recipe) : same_but_seeds a a.
Proof. repeat split. Qed.

Lemma same_but_seeds_trans (a b c : Recipe) :
  same_but_seeds a b -> same_but_seeds b c -> same_but_seeds a c.
Proof.
  intros [K1 [P1 [S1 V1]]] [K2 [P2 [S2 V2]]]. repeat split.
  - congruence.
  - intros plane. now rewrite P2, P1.
  - intros plane settings. now rewrite S2, S1.
  - intros plane settings key Hne. now rewrite V2, V1.
Qed.

Lemma set_seed_same_but_seeds (seed : Z) (recipe : Recipe) (plane : string) :
  same_but_seeds recipe (set_seed seed recipe plane).
Proof.
  unfold set_seed.
  destruct (Dict.get plane recipe) as [p|] eqn:Hp; [|apply same_but_seeds_refl].
  destruct (Dict.get "scaling" p) as [scaling|] eqn:Hs; [|apply same_but_seeds_refl].
  destruct (Dict.get "seed" scaling) as [v|] eqn:Hv; [|apply same_but_seeds_refl].
  destruct (eq_zero v); [|apply same_but_seeds_refl].
  assert (Hplane : forall q,
            Dict.get q (Dict.set plane
                          (Dict.set "scaling" (Dict.set "seed" (VInt seed) scaling) p)
                          recipe)
            = if string_dec q plane
              then Some (Dict.set "scaling" (Dict.set "seed" (VInt seed) scaling) p)
              else Dict.get q recipe).
  { intros q. destruct (string_dec q plane) as [->|Hne];
      [apply get_set_same | now apply get_set_other]. }
  assert (Hsec : forall sec,
            Dict.get sec (Dict.set "scaling" (Dict.set "seed" (VInt seed) scaling) p)
            = if string_dec sec "scaling"
              then Some (Dict.set "seed" (VInt seed) scaling)
              else Dict.get sec p).
  { intros sec. destruct (string_dec sec "scaling") as [->|Hne];
      [apply get_set_same | now apply get_set_other]. }
  split; [eapply keys_set_present; exact Hp|]. split; [|split].
  - intros q. rewrite Hplane. destruct (string_dec q plane) as [->|_]; [|reflexivity].
    rewrite Hp. cbn [option_map]. f_equal. eapply keys_set_present; exact Hs.
  - intros q sec. unfold recipe_section. rewrite Hplane.
    destruct (string_dec q plane) as [->|_]; [|reflexivity].
    rewrite Hp, Hsec. destruct (string_dec sec "scaling") as [->|_]; [|reflexivity].
    rewrite Hs. cbn [option_map]. f_equal. eapply keys_set_present; exact Hv.
  - intros q sec key Hne. unfold recipe_value, recipe_section. rewrite Hplane.
    destruct (string_dec q plane) as [->|_]; [|reflexivity].
    rewrite Hp, Hsec. destruct (string_dec sec "scaling") as [->|_]; [|reflexivity].
    rewrite Hs. apply get_set_other. destruct Hne; congruence.
Qed.

Variable py : PyEnv.

(** X19: the recipe returned differs from the one stored in scaling seeds
    only: it has the same planes, the same sub-sections in each plane, the
    same keys in each sub-section and the same value at every key other
    than [scaling.seed]. *)
Theorem resolution_changes_only_seeds (writeRecipes store : Recipes)
  (recipe recipe' : Recipe) (dataId : Dict.t string PyVal)
  (recipeName : option string) :
  Dict.get (effective_name recipeName) writeRecipes = Some recipe ->
  getImageCompressionSettings py writeRecipes dataId recipeName = Ok (recipe', store) ->
  Dict.keys recipe' = Dict.keys recipe
  /\ (forall plane,
        option_map Dict.keys (Dict.get plane recipe')
        = option_map Dict.keys (Dict.get plane recipe))
  /\ (forall plane settings,
        option_map Dict.keys (recipe_section plane settings recipe')
        = option_map Dict.keys (recipe_section plane settings recipe))
  /\ (forall plane settings key,
        settings <> "scaling" \/ key <> "seed" ->
        recipe_value plane settings key recipe' = recipe_value plane settings key recipe)
  /\ Dict.keys store = Dict.keys writeRecipes.
Proof.
  intros Hget Hrun. rewrite (resolve_found py _ _ _ _ Hget) in Hrun.
  injection Hrun as <- <-.
  assert (Hsame : same_but_seeds recipe
                    (fold_left (set_seed (seed_of py dataId)) planes recipe)).
  { cbn [planes fold_left].
    eapply same_but_seeds_trans; [|apply set_seed_same_but_seeds].
    eapply same_but_seeds_trans; [|apply set_seed_same_but_seeds].
    apply set_seed_same_but_seeds. }
  destruct Hsame as [K [P [S V]]].
  repeat split; try assumption.
  eapply keys_set_present; exact Hget.
Qed.

Lemma scaling_has_int_seed (entry : option Settings) (s : Settings) :
  settings_from py scalingSchema entry s ->
  exists z, Dict.get "seed" s = Some (VInt z).
Proof.
  unfold settings_from, scalingSchema. intros H.
  repeat match goal with
         | H : Forall2 _ (_ :: _) _ |- _ =>
             let kv := fresh "kv" in
             let Hk := fresh "Hk" in
             let Hty := fresh "Hty" in
             inversion H as [|? kv ? ? [Hk [_ Hty]] ?]; subst; clear H;
             destruct kv; cbn [fst snd] in Hk, Hty; subst
         end.
  match goal with H : Forall2 _ [] _ |- _ => inversion H; subst; clear H end.
  match goal with
  | H : Py.same_type ?v (VInt 0) = true |- _ => destruct v; try discriminate H
  end.
  eexists. reflexivity.
Qed.

Lemma validated_recipe_seed (r v : Recipe) (plane : string) :
  recipe_from py r v -> In plane planes ->
  exists z, recipe_seed plane v = Some (VInt z).
Proof.
  intros [ri [rm [rv [vi [vm [vv [_ [_ [_ [-> [Hi [Hm Hv]]]]]]]]]]]] Hin.
  assert (Hplane : forall raw vp, plane_from py raw vp ->
            exists z, match Dict.get "scaling" vp with
                      | Some scaling => Dict.get "seed" scaling
                      | None => None
                      end = Some (VInt z)).
  { intros raw vp [c [s [-> [_ Hs]]]]. destruct (scaling_has_int_seed _ _ Hs) as [z Hz].
    exists z. exact Hz. }
  destruct Hin as [<-|[<-|[<-|[]]]].
  - destruct (Hplane _ _ Hi) as [z Hz]. exists z. exact Hz.
  - destruct (Hplane _ _ Hm) as [z Hz]. exists z. exact Hz.
  - destruct (Hplane _ _ Hv) as [z Hz]. exists z. exact Hz.
Qed.

(** X20: validation followed by resolution.  In a recipe of a validated
    mapping every plane has an integer seed, and the recipe returned for a
    write has, in every plane, the derived seed where that integer is 0 and
    the integer itself otherwise: no plane is left without a seed. *)
Theorem validated_recipe_gets_seeds (recipes validated : Recipes)
  (dataId : Dict.t string PyVal) (recipeName : option string) :
  recipes <> [] ->
  validateWriteRecipes py (Some recipes) = Ok (Some validated) ->
  Dict.mem (effective_name recipeName) validated = true ->
  exists v recipe',
    Dict.get (effective_name recipeName) validated = Some v
    /\ getImageCompressionSettings py validated dataId recipeName
       = Ok (recipe', Dict.set (effective_name recipeName) recipe' validated)
    /\ forall plane, In plane ["image"; "mask"; "variance"] ->
         exists z,
           recipe_seed plane v = Some (VInt z)
           /\ recipe_seed plane recipe'
              = Some (VInt (if z =? 0 then hash_items py dataId mod 2 ^ 31 else z)).
Proof.
  intros Hne Hval Hmem. unfold Dict.mem in Hmem.
  destruct (Dict.get (effective_name recipeName) validated) as [v|] eqn:Hget;
    [|discriminate].
  destruct (validate_accepts_inv py recipes validated Hne Hval) as [[_ [_ Hfrom]] _].
  destruct (Hfrom _ _ Hget) as [r [_ Hr]].
  exists v. eexists. split; [reflexivity|].
  split; [exact (resolve_found py _ _ _ _ Hget)|].
  intros plane Hin. destruct (validated_recipe_seed r v plane Hr Hin) as [z Hz].
  exists z. split; [exact Hz|].
  rewrite (planes_seeds _ _ _ Hin), Hz. unfold seed_after, seed_of. cbn [eq_zero].
  now destruct (z =? 0).
Qed.

End OnlySeeds.

(** ** More on component reads *)

Section ReadComponentMore.
Import FitsExposure.
Variable Obj : Type.
Variable fd : FileDescriptor Obj.

(** The components of the table that take slicing parameters. *)
Lemma componentMap_hasParams (component method : string) (hasParams : bool) :
  Dict.get component componentMap = Some (method, hasParams) ->
  hasParams = in_names component ["image"; "mask"; "variance"; "bbox"; "xy0"].
Proof.
  intros Hget. apply get_Some_In in Hget.
  unfold componentMap in Hget. cbn [In] in Hget.
  repeat (destruct Hget as [Hget|Hget]; [inversion Hget; subst; reflexivity|]).
  contradiction.
Qed.

(** X21: a read of a component of the table.  Parameters given to the call
    take precedence over those of the file descriptor, and none is the
    empty mapping; they are validated whenever the reader has the method,
    also for a component that takes none, and reach the reader only for
    image, mask, variance, bbox and xy0.  A reader without the method
    gives [None] and nothing is validated. *)
Theorem readComponent_known_component (component method : string) (hasParams : bool)
  (parameters : option Parameters) (reader : Reader Obj) :
  Dict.get component componentMap = Some (method, hasParams) ->
  ExposureFitsReader Obj fd (location_path Obj fd) = Ok reader ->
  let p := match parameters, fd_parameters Obj fd with
           | Some p, _ => p
           | None, Some p => p
           | None, None => []
           end in
  (getattr Obj reader method = None ->
   readComponent Obj fd component parameters = Ok None)
  /\ (forall caller, getattr Obj reader method = Some caller ->
        (forall e, validateParameters Obj fd p = Raise e ->
           readComponent Obj fd component parameters = Raise e)
        /\ (validateParameters Obj fd p = Ok tt ->
            readComponent Obj fd component parameters
            = (o <- caller (if in_names component
                                 ["image"; "mask"; "variance"; "bbox"; "xy0"]
                            then p else []) ;;
               Ok (Some o)))).
Proof.
  intros Hget Hreader p.
  pose proof (componentMap_methods_truthy _ _ _ Hget) as Hm.
  pose proof (componentMap_hasParams _ _ _ Hget) as Hp.
  apply String.eqb_neq in Hm.
  assert (Hrun : readComponent Obj fd component parameters
                 = match getattr Obj reader method with
                   | Some caller =>
                       validateParameters Obj fd p ;;;
                       if hasParams && negb (Dict.is_empty p)
                       then o <- caller p ;; Ok (Some o)
                       else o <- caller [] ;; Ok (Some o)
                   | None => Ok None
                   end).
  { unfold readComponent. rewrite Hget. cbn [unpack_pair bind]. rewrite Hm.
    cbn [negb]. rewrite Hreader. cbn [bind]. subst p.
    destruct parameters as [q|]; [reflexivity|].
    destruct (fd_parameters Obj fd); reflexivity. }
  rewrite Hrun. split.
  - now intros ->.
  - intros caller ->. split.
    + now intros e ->.
    + intros ->. cbn [bind]. rewrite <- Hp.
      destruct hasParams; [|reflexivity].
      destruct p; reflexivity.
Qed.

End ReadComponentMore.

(** ** Witnesses *)

Lemma readComponent_known_component_witness :
  FitsExposure.readComponent string Examples.fd "bbox" (Some [("llcX", VInt 0)])
  = Ok (Some "readBBox:1")
  /\ FitsExposure.readComponent string Examples.fd "wcs" (Some [("llcX", VInt 0)])
     = Ok (Some "readWcs:0").
Proof.
  split.
  - destruct (readComponent_known_component string Examples.fd "bbox" "readBBox" true
                (Some [("llcX", VInt 0)])
                {| FitsExposure.getattr :=
                     fun method =>
                       Some (fun p => Ok (method ++ ":"
                                          ++ Py.str_of_Z (Z.of_nat (List.length p)))) |}
                eq_refl eq_refl) as [_ H].
    destruct (H _ eq_refl) as [_ H']. rewrite (H' eq_refl). reflexivity.
  - destruct (readComponent_known_component string Examples.fd "wcs" "readWcs" false
                (Some [("llcX", VInt 0)])
                {| FitsExposure.getattr :=
                     fun method =>
                       Some (fun p => Ok (method ++ ":"
                                          ++ Py.str_of_Z (Z.of_nat (List.length p)))) |}
                eq_refl eq_refl) as [_ H].
    destruct (H _ eq_refl) as [_ H']. rewrite (H' eq_refl). reflexivity.
Defined.

Lemma check_metadata_report_text_witness :
  CuratedCalibs.check_metadata Examples.py0 Examples.detector7 20210501 "LSSTCam" 3
    "LSSTCam/defects/ccd01/2021-05-01T00:00:00.yaml" "defects"
  = Raise (ValueError
      ("Path and file metadata do not agree:" ++ CuratedCalibs.newline
       ++ "Path metadata: LSSTCam 3 defects" ++ CuratedCalibs.newline
       ++ "File metadata: LSSTCam 7 defects" ++ CuratedCalibs.newline
       ++ "File read from : LSSTCam/defects/ccd01/2021-05-01T00:00:00.yaml"
       ++ CuratedCalibs.newline)).
Proof.
  apply (check_metadata_report_text Examples.py0 Examples.detector7 20210501 "LSSTCam" 3
           "LSSTCam/defects/ccd01/2021-05-01T00:00:00.yaml" "defects"
           "LSSTCam" "defects" (VInt 7) 7);
    try reflexivity.
  discriminate.
Defined.

Lemma read_one_chip_all_files_pass_witness :
  exists factory,
    Dict.get "defects" CuratedCalibs.factory_map = Some factory
    /\ (forall f, In f (CuratedCalibs.chip_files Examples.fs_good "LSSTCam/defects" "ccd01") ->
          exists date obj,
            CuratedCalibs.parse_date Examples.fs_good
              (fst (Path.splitext (Path.basename f))) = Ok date
            /\ CuratedCalibs.readText Examples.fs_good factory f = Ok obj
            /\ CuratedCalibs.check_metadata Examples.py0 obj date
                 (CuratedCalibs.path_instrument "LSSTCam/defects") 3 f "defects" = Ok tt
            /\ Dict.mem date Examples.good_chip = true)
    /\ (forall date obj, In (date, obj) Examples.good_chip ->
          exists f, In f (CuratedCalibs.chip_files Examples.fs_good "LSSTCam/defects" "ccd01")
            /\ CuratedCalibs.parse_date Examples.fs_good
                 (fst (Path.splitext (Path.basename f))) = Ok date
            /\ CuratedCalibs.readText Examples.fs_good factory f = Ok obj).
Proof.
  apply (read_one_chip_all_files_pass Examples.py0 Examples.fs_good "LSSTCam/defects"
           "ccd01" 3 Examples.good_chip "defects").
  vm_compute. reflexivity.
Defined.

Lemma read_one_chip_records_match_path_witness :
  Forall (fun record =>
            CuratedCalibs.header_triple Examples.py0 (snd record)
            = Ok ("lsstcam", 3, "defects"))
         Examples.good_chip.
Proof.
  apply Forall_forall. intros [date obj] Hrec.
  apply (read_one_chip_records_match_path Examples.py0 Examples.fs_good
           "LSSTCam/defects" "ccd01" 3 Examples.good_chip "defects"
           ltac:(vm_compute; reflexivity) date obj Hrec).
Defined.

Lemma read_one_chip_one_record_per_date_witness :
  NoDup (Dict.keys Examples.good_chip)
  /\ (List.length Examples.good_chip
      <= List.length (CuratedCalibs.chip_files Examples.fs_good "LSSTCam/defects" "ccd01"))%nat
  /\ (forall date,
        In date (Dict.keys Examples.good_chip)
        <-> exists f,
              In f (CuratedCalibs.chip_files Examples.fs_good "LSSTCam/defects" "ccd01")
              /\ CuratedCalibs.parse_date Examples.fs_good
                   (fst (Path.splitext (Path.basename f))) = Ok date).
Proof.
  apply (read_one_chip_one_record_per_date Examples.py0 Examples.fs_good
           "LSSTCam/defects" "ccd01" 3 Examples.good_chip "defects").
  vm_compute. reflexivity.
Defined.

Lemma resolution_seeds_of_all_planes_witness :
  exists recipe',
    FitsExposure.getImageCompressionSettings Examples.py0 Examples.three_planes_validated
      [("visit", VInt 1)] None
    = Ok (recipe', Dict.set "default" recipe' Examples.three_planes_validated)
    /\ FitsExposure.recipe_seed "mask" recipe' = Some (VInt 1).
Proof.
  destruct (resolution_seeds_of_all_planes Examples.py0 Examples.three_planes_validated
              (snd (hd ("", []) Examples.three_planes_validated))
              [("visit", VInt 1)] None eq_refl) as [recipe' [Hrun Hseeds]].
  exists recipe'. split; [exact Hrun|].
  rewrite (Hseeds "mask" (or_intror (or_introl eq_refl))). reflexivity.
Defined.

Lemma resolution_without_sentinel_witness :
  FitsExposure.getImageCompressionSettings Examples.py0 Examples.seed5_recipes
    [("visit", VInt 1)] None
  = Ok ([("image", [("scaling", [("seed", VInt 5)])])], Examples.seed5_recipes).
Proof.
  apply (resolution_without_sentinel Examples.py0 Examples.seed5_recipes
           [("image", [("scaling", [("seed", VInt 5)])])] [("visit", VInt 1)] None).
  - reflexivity.
  - intros plane v [<-|[<-|[<-|[]]]]; cbn; intros [= <-] || discriminate. reflexivity.
Defined.

Lemma resolution_is_idempotent_witness :
  FitsExposure.getImageCompressionSettings Examples.py0 (snd Examples.seed0_resolved)
    [("visit", VInt 1)] None
  = Ok Examples.seed0_resolved.
Proof.
  apply (resolution_is_idempotent Examples.py0 Examples.seed0_recipes
           (snd Examples.seed0_resolved) (fst Examples.seed0_resolved)
           [("visit", VInt 1)] None).
  - reflexivity.
  - vm_compute. reflexivity.
Defined.

Lemma first_identity_seed_is_kept_witness :
  exists recipe2 store2,
    FitsExposure.getImageCompressionSettings Examples.py0 (snd Examples.seed0_resolved)
      [("visit", VInt 2)] None = Ok (recipe2, store2)
    /\ FitsExposure.recipe_seed "image" recipe2
       = Some (VInt (hash_items Examples.py0 [("visit", VInt 1)] mod 2 ^ 31)).
Proof.
  apply (first_identity_seed_is_kept Examples.py0 Examples.seed0_recipes
           (snd Examples.seed0_resolved)
           [("image", [("scaling", [("seed", VInt 0)])])]
           (fst Examples.seed0_resolved) (VInt 0) "image"
           [("visit", VInt 1)] [("visit", VInt 2)] None).
  - reflexivity.
  - now left.
  - reflexivity.
  - reflexivity.
  - vm_compute. discriminate.
  - vm_compute. reflexivity.
Defined.

Lemma resolution_changes_only_seeds_witness :
  Dict.keys (fst Examples.seed0_resolved) = ["image"]
  /\ FitsExposure.recipe_value "image" "scaling" "seed" (fst Examples.seed0_resolved)
     = Some (VInt 1)
  /\ Dict.keys (snd Examples.seed0_resolved) = Dict.keys Examples.seed0_recipes.
Proof.
  destruct (resolution_changes_only_seeds Examples.py0 Examples.seed0_recipes
              (snd Examples.seed0_resolved)
              [("image", [("scaling", [("seed", VInt 0)])])]
              (fst Examples.seed0_resolved) [("visit", VInt 1)] None
              eq_refl ltac:(vm_compute; reflexivity)) as [K [_ [_ [_ S]]]].
  split; [exact K|]. split; [reflexivity | exact S].
Defined.

Lemma validated_recipe_gets_seeds_witness :
  exists v recipe',
    Dict.get "default" Examples.own_seed = Some v
    /\ FitsExposure.getImageCompressionSettings Examples.py0 Examples.own_seed
         [("visit", VInt 1)] None
       = Ok (recipe', Dict.set "default" recipe' Examples.own_seed)
    /\ FitsExposure.recipe_seed "image" recipe' = Some (VInt 1)
    /\ FitsExposure.recipe_seed "mask" recipe' = Some (VInt 7).
Proof.
  destruct (validated_recipe_gets_seeds Examples.py0
              [ ("default", [ ("image", []);
                              ("mask", [ ("scaling", [ ("seed", VInt 7) ]) ]);
                              ("variance", []) ]) ]
              Examples.own_seed [("visit", VInt 1)] None)
    as [v [recipe' [Hv [Hrun _]]]].
  - discriminate.
  - vm_compute. reflexivity.
  - reflexivity.
  - exists v, recipe'. split; [exact Hv|]. split; [exact Hrun|].
    rewrite (resolve_found Examples.py0 _ _ _ _ Hv) in Hrun.
    injection Hrun as <-. injection Hv as <-. split; reflexivity.
Defined.

(** ** Writing a dataset *)

Section WriteFacts.
Import FitsExposure.
Variable py : PyEnv.

Lemma planes_same_but_seeds (seed : Z) (recipe : Recipe) :
  same_but_seeds recipe (fold_left (set_seed seed) planes recipe).
Proof.
  cbn [planes fold_left].
  eapply same_but_seeds_trans; [|apply set_seed_same_but_seeds].
  eapply same_but_seeds_trans; [|apply set_seed_same_but_seeds].
  apply set_seed_same_but_seeds.
Qed.

Lemma is_empty_same_keys (a b : Recipe) :
  Dict.keys b = Dict.keys a -> Dict.is_empty b = Dict.is_empty a.
Proof. destruct a, b; cbn; congruence. Qed.

Variable env : WriteEnv.

Lemma write_found (location : Location) (writeParameters : Dict.t string string)
  (writeRecipes : Recipes) (dataId : Dict.t string PyVal) (recipe : Recipe) :
  Dict.get (effective_name (Dict.get "recipe" writeParameters)) writeRecipes
  = Some recipe ->
  let loc := updateExtension env location ".fits" in
  let recipe' := fold_left (set_seed (seed_of py dataId)) planes recipe in
  let call := if Dict.is_empty recipe then writeFits (path loc)
              else writeFitsWithOptions (path loc) recipe' in
  write py env location writeParameters writeRecipes dataId
  = (dataset_write env call ;;;
     Ok (pathInStore loc, call,
         Dict.set (effective_name (Dict.get "recipe" writeParameters)) recipe'
           writeRecipes)).
Proof.
  intros Hget loc recipe' call. unfold write.
  rewrite (resolve_found py _ _ _ _ Hget). cbn [bind].
  fold recipe'. fold loc.
  rewrite (is_empty_same_keys recipe recipe')
    by (destruct (planes_same_but_seeds (seed_of py dataId) recipe) as [K _]; exact K).
  subst call. unfold extension. now destruct (Dict.is_empty recipe).
Qed.

(** X22: which of the two write methods is called.  With no recipe
    requested and none named "default" the dataset is written with
    [writeFits] and the recipes are left as they are; a requested recipe
    that is not there is a [RuntimeError] naming it, raised whatever the
    dataset would answer to a write; a recipe found is passed to
    [writeFitsWithOptions] with its seeds resolved, unless it is the empty
    mapping, which is written with [writeFits].  The path written is that
    of the location with the extension ".fits", and an error of the
    dataset is the error of the call. *)
Theorem write_chooses_method (location : Location)
  (writeParameters : Dict.t string string) (writeRecipes : Recipes)
  (dataId : Dict.t string PyVal) :
  let loc := updateExtension env location ".fits" in
  let name := Dict.get "recipe" writeParameters in
  let run := write py env location writeParameters writeRecipes dataId in
  ((name = None \/ name = Some "") -> Dict.get "default" writeRecipes = None ->
   (forall e, dataset_write env (writeFits (path loc)) = Raise e -> run = Raise e)
   /\ (dataset_write env (writeFits (path loc)) = Ok tt ->
       run = Ok (pathInStore loc, writeFits (path loc), writeRecipes)))
  /\ (forall n, name = Some n -> n <> "" -> Dict.get n writeRecipes = None ->
      run = Raise (RuntimeError
                     ("Unrecognized recipe option given for compression: " ++ n)))
  /\ (forall recipe, Dict.get (effective_name name) writeRecipes = Some recipe ->
      exists recipe' call,
        same_but_seeds recipe recipe'
        /\ (forall plane, In plane ["image"; "mask"; "variance"] ->
              recipe_seed plane recipe'
              = seed_after (hash_items py dataId mod 2 ^ 31) (recipe_seed plane recipe))
        /\ call = (if Dict.is_empty recipe then writeFits (path loc)
                   else writeFitsWithOptions (path loc) recipe')
        /\ (forall e, dataset_write env call = Raise e -> run = Raise e)
        /\ (dataset_write env call = Ok tt ->
            run = Ok (pathInStore loc, call,
                      Dict.set (effective_name name) recipe' writeRecipes))).
Proof.
  intros loc name run. split; [|split].
  - intros Hfalsy Hnone.
    assert (Hrun : run = (dataset_write env (writeFits (path loc)) ;;;
                          Ok (pathInStore loc, writeFits (path loc), writeRecipes))).
    { subst run. unfold write. fold name.
      assert (Hres : getImageCompressionSettings py writeRecipes dataId name
                     = Ok ([], writeRecipes)).
      { unfold getImageCompressionSettings, Dict.mem. rewrite Hnone.
        destruct Hfalsy as [->| ->]; reflexivity. }
      rewrite Hres. reflexivity. }
    rewrite Hrun. split; [now intros e ->|now intros ->].
  - intros n Hname Hne Hnone. subst run. unfold write. fold name. rewrite Hname.
    apply String.eqb_neq in Hne.
    unfold getImageCompressionSettings. rewrite Hne. cbn [andb]. rewrite Hnone.
    reflexivity.
  - intros recipe Hget.
    exists (fold_left (set_seed (seed_of py dataId)) planes recipe).
    eexists. split; [apply planes_same_but_seeds|].
    split; [intros plane Hin; exact (planes_seeds _ _ _ Hin)|].
    split; [reflexivity|].
    subst run. rewrite (write_found location writeParameters writeRecipes dataId recipe Hget).
    fold loc. fold name.
    split; [now intros e ->|now intros ->].
Qed.

(** X23: validation followed by a write.  With validated recipes and a
    dataset that accepts the write, a write that finds its recipe (the one
    requested, or "default" when none is requested) calls
    [writeFitsWithOptions], never [writeFits]: the options have the three
    planes and an integer seed in each, and the recipes stored afterwards
    have the names they had. *)
Theorem write_with_validated_recipes (recipes validated : Recipes)
  (location : Location) (writeParameters : Dict.t string string)
  (dataId : Dict.t string PyVal) :
  recipes <> [] ->
  validateWriteRecipes py (Some recipes) = Ok (Some validated) ->
  Dict.mem (effective_name (Dict.get "recipe" writeParameters)) validated = true ->
  (forall call, dataset_write env call = Ok tt) ->
  exists options store,
    write py env location writeParameters validated dataId
    = Ok (pathInStore (updateExtension env location ".fits"),
          writeFitsWithOptions (path (updateExtension env location ".fits")) options,
          store)
    /\ Dict.keys options = ["image"; "mask"; "variance"]
    /\ (forall plane, In plane ["image"; "mask"; "variance"] ->
          exists z, recipe_seed plane options = Some (VInt z))
    /\ Dict.keys store = Dict.keys validated.
Proof.
  intros Hne Hval Hmem Hwrite. unfold Dict.mem in Hmem.
  destruct (Dict.get (effective_name (Dict.get "recipe" writeParameters)) validated)
    as [v|] eqn:Hget; [|discriminate].
  destruct (validate_accepts_inv py recipes validated Hne Hval) as [[_ [_ Hfrom]] _].
  destruct (Hfrom _ _ Hget) as [r [_ Hr]].
  pose proof (planes_same_but_seeds (seed_of py dataId) v) as [K _].
  assert (Hkeys : Dict.keys v = ["image"; "mask"; "variance"]).
  { destruct Hr as [ri [rm [rv [vi [vm [vv [_ [_ [_ [-> _]]]]]]]]]]. reflexivity. }
  exists (fold_left (set_seed (seed_of py dataId)) planes v). eexists.
  split; [|split; [|split]].
  - rewrite (write_found location writeParameters validated dataId v Hget).
    rewrite Hwrite. cbn [bind].
    assert (He : Dict.is_empty v = false) by (destruct v; [discriminate Hkeys|reflexivity]).
    rewrite He. reflexivity.
  - now rewrite K.
  - intros plane Hin. destruct (validated_recipe_seed py r v plane Hr Hin) as [z Hz].
    rewrite (planes_seeds _ _ _ Hin), Hz. unfold seed_after. cbn [eq_zero].
    destruct (z =? 0); eexists; reflexivity.
  - eapply keys_set_present; exact Hget.
Qed.

End WriteFacts.

(** ** Reading a dataset *)

Section ReadFacts.
Import FitsExposure.
Variable Obj : Type.
Variable Md : Type.
Variable env : ReadEnv Obj Md.

(** X24: what a read is of.  When the storage class read is the one
    written, the component asked for is ignored and the full object is
    read, parameters included.  When the two differ, a read without a
    component is a [ValueError] naming both storage classes, and a component
    outside the table of components (other than "metadata", which is not
    looked up in it) is the [TypeError] of the failed unpacking; no read of a
    component or of the full object touches the header kept. *)
Theorem read_dispatch (_metadata : option Md) (parameters : option Parameters) :
  (storageClasses_differ Obj Md env = false ->
   forall component,
     read Obj Md env _metadata component parameters = read Obj Md env _metadata None parameters
     /\ (forall e, readFull Obj Md env parameters = Raise e ->
           read Obj Md env _metadata component parameters = Raise e)
     /\ (forall o, readFull Obj Md env parameters = Ok o ->
           read Obj Md env _metadata component parameters = Ok (FullObject Obj Md o, _metadata)))
  /\ (storageClasses_differ Obj Md env = true ->
      read Obj Md env _metadata None parameters
      = Raise (ValueError ("Storage class inconsistency (" ++ readStorageClass_name Obj Md env
                           ++ " vs " ++ storageClass_name Obj Md env
                           ++ ") but no component requested"))
      /\ (forall c, c <> "metadata" -> Dict.get c componentMap = None ->
            read Obj Md env _metadata (Some c) parameters
            = Raise (TypeError "cannot unpack non-iterable NoneType object"))
      /\ (forall c o, c <> "metadata" ->
            readComponent Obj (fileDescriptor Obj Md env) c parameters = Ok o ->
            read Obj Md env _metadata (Some c) parameters
            = Ok (ComponentObject Obj Md o, _metadata))).
Proof.
  split.
  - intros Hsame component. unfold read. rewrite Hsame.
    split; [reflexivity|]. split; [now intros e ->|now intros o ->].
  - intros Hdiff. unfold read. rewrite Hdiff. split; [reflexivity|]. split.
    + intros c Hne Hnone. apply String.eqb_neq in Hne. rewrite Hne.
      now rewrite (readComponent_outside_table Obj (fileDescriptor Obj Md env) c parameters Hnone).
    + intros c o Hne Hread. apply String.eqb_neq in Hne. rewrite Hne, Hread. reflexivity.
Qed.

(** X25: a read of the header, that is of the component "metadata" under
    differing storage classes.  The parameters are neither validated nor
    used.  The file is read, and the header fixed, only when no header is
    kept yet; the header is then stripped of its bounding box and of its
    coordinate system, in that order, and the stripped header is both
    what is returned and what is kept: the next such read strips it again
    without reading the file. *)
Theorem read_metadata_component (parameters : option Parameters) :
  storageClasses_differ Obj Md env = true ->
  let strip md :=
    md <- bboxFromMetadata Obj Md env md ;;
    md <- makeSkyWcs_strip Obj Md env md ;;
    Ok (Header Obj Md md, Some md) in
  read Obj Md env None (Some "metadata") parameters
  = (md <- afw_readMetadata Obj Md env (location_path Obj (fileDescriptor Obj Md env)) ;;
     strip (fix_header Obj Md env md))
  /\ (forall md, read Obj Md env (Some md) (Some "metadata") parameters = strip md)
  /\ (forall kept out kept',
        read Obj Md env kept (Some "metadata") parameters = Ok (out, kept') ->
        exists md, out = Header Obj Md md /\ kept' = Some md
          /\ forall parameters',
               read Obj Md env kept' (Some "metadata") parameters' = strip md).
Proof.
  intros Hdiff strip.
  assert (Hkept : forall md, read Obj Md env (Some md) (Some "metadata") parameters = strip md).
  { intros md. unfold read, stripMetadata, metadata. rewrite Hdiff. cbn [String.eqb Ascii.eqb Bool.eqb bind].
    subst strip. cbn beta.
    destruct (bboxFromMetadata Obj Md env md) as [md1|e]; [|reflexivity]. cbn [bind].
    destruct (makeSkyWcs_strip Obj Md env md1) as [md2|e]; reflexivity. }
  assert (Hnone : read Obj Md env None (Some "metadata") parameters
                  = (md <- afw_readMetadata Obj Md env (location_path Obj (fileDescriptor Obj Md env)) ;;
                     strip (fix_header Obj Md env md))).
  { unfold read, stripMetadata, metadata. rewrite Hdiff. cbn [String.eqb Ascii.eqb Bool.eqb bind].
    destruct (afw_readMetadata Obj Md env (location_path Obj (fileDescriptor Obj Md env))) as [md|e];
      [|reflexivity].
    cbn [bind]. subst strip. cbn beta.
    destruct (bboxFromMetadata Obj Md env (fix_header Obj Md env md)) as [md1|e]; [|reflexivity].
    cbn [bind]. destruct (makeSkyWcs_strip Obj Md env md1) as [md2|e]; reflexivity. }
  split; [exact Hnone|]. split; [exact Hkept|].
  intros kept out kept' Hrun.
  assert (Hstrip : exists md0, strip md0 = Ok (out, kept')).
  { destruct kept as [md0|].
    - exists md0. now rewrite <- Hkept.
    - rewrite Hnone in Hrun.
      destruct (afw_readMetadata Obj Md env (location_path Obj (fileDescriptor Obj Md env))) as [md|e];
        [|discriminate].
      exists (fix_header Obj Md env md). exact Hrun. }
  destruct Hstrip as [md0 Hstrip]. subst strip. cbn beta in Hstrip.
  destruct (bboxFromMetadata Obj Md env md0) as [md1|e]; [|discriminate]. cbn [bind] in Hstrip.
  destruct (makeSkyWcs_strip Obj Md env md1) as [md2|e]; [|discriminate]. cbn [bind] in Hstrip.
  injection Hstrip as <- <-. exists md2. split; [reflexivity|]. split; [reflexivity|].
  intros parameters'.
  unfold read, stripMetadata, metadata. rewrite Hdiff.
  cbn [String.eqb Ascii.eqb Bool.eqb bind].
  destruct (bboxFromMetadata Obj Md env md2) as [md3|e]; [|reflexivity]. cbn [bind].
  destruct (makeSkyWcs_strip Obj Md env md3) as [md4|e]; reflexivity.
Qed.

End ReadFacts.

(** ** Registration of filters and of the unbounded calibration label *)

Section RegistrationFacts.
Import InstrumentBase.
Variable DataId : Type.
Variable registry : Registry DataId.

Local Abbreviation filter_call instrument :=
  (fun filter => insertDimensionData "physical_filter" (filter_record instrument filter)).

Lemma registerFilters_app (instrument : string) (pre rest : list FilterDefinition)
  (inserted : list RegistryCall) :
  _registerFilters DataId registry instrument (pre ++ rest)%list inserted
  = match _registerFilters DataId registry instrument pre inserted with
    | Done log => _registerFilters DataId registry instrument rest log
    | Failed e => Failed e
    end.
Proof.
  revert inserted. induction pre as [|f pre IH]; intros inserted; [reflexivity|].
  cbn [app _registerFilters].
  destruct (refuses DataId registry inserted _); [reflexivity|apply IH].
Qed.

Lemma registerFilters_accepted (instrument : string) (filters : list FilterDefinition)
  (inserted : list RegistryCall) :
  (forall pre f post, filters = (pre ++ f :: post)%list ->
     refuses DataId registry (inserted ++ map (filter_call instrument) pre)%list
       (filter_call instrument f) = None) ->
  _registerFilters DataId registry instrument filters inserted
  = Done (inserted ++ map (filter_call instrument) filters)%list.
Proof.
  revert inserted. induction filters as [|f filters IH]; intros inserted Hall.
  - cbn. now rewrite app_nil_r.
  - cbn [_registerFilters map].
    pose proof (Hall [] f filters eq_refl) as Hf. cbn [map] in Hf.
    rewrite app_nil_r in Hf. rewrite Hf.
    rewrite IH.
    + now rewrite <- app_assoc.
    + intros pre g post ->.
      pose proof (Hall (f :: pre) g post eq_refl) as Hg. cbn [map] in Hg.
      now rewrite <- app_assoc.
Qed.

Lemma registerFilters_Done_inv (instrument : string) (filters : list FilterDefinition)
  (inserted log : list RegistryCall) :
  _registerFilters DataId registry instrument filters inserted = Done log ->
  forall pre f post, filters = (pre ++ f :: post)%list ->
    refuses DataId registry (inserted ++ map (filter_call instrument) pre)%list
      (filter_call instrument f) = None.
Proof.
  revert inserted. induction filters as [|g filters IH]; intros inserted Hrun pre f post Heq.
  - now destruct pre.
  - cbn [_registerFilters] in Hrun.
    destruct (refuses DataId registry inserted _) eqn:Hg; [discriminate|].
    destruct pre as [|g' pre]; cbn [app] in Heq; injection Heq as <- ->.
    + cbn [map]. now rewrite app_nil_r.
    + cbn [map]. specialize (IH _ Hrun pre f post eq_refl).
      now rewrite <- app_assoc in IH.
Qed.

(** X26: the registration of the filters succeeds exactly when the
    registry refuses none of the insertions, each offered after the ones
    before it; it then has made one insertion of a "physical_filter" record
    per filter, in the order of the definitions and after the insertions
    made before, with the instrument, the physical filter as name, and as
    abstract filter the one defined or, when none is defined, the physical
    filter.  The first insertion refused ends the registration with its
    error: no later filter is offered to the registry. *)
Theorem registerFilters_outcome (instrument : string)
  (filters : list FilterDefinition) (inserted : list RegistryCall) :
  let call filter :=
    insertDimensionData "physical_filter"
      [ ("instrument", VStr instrument);
        ("name", VStr (physical_filter filter));
        ("abstract_filter",
         VStr (match abstract_filter filter with
               | Some a => a
               | None => physical_filter filter
               end)) ] in
  (forall log,
     _registerFilters DataId registry instrument filters inserted = Done log
     <-> log = (inserted ++ map call filters)%list
         /\ forall pre f post, filters = (pre ++ f :: post)%list ->
              refuses DataId registry (inserted ++ map call pre)%list (call f) = None)
  /\ (forall pre f post e,
        filters = (pre ++ f :: post)%list ->
        (forall pre' f' post', pre = (pre' ++ f' :: post')%list ->
           refuses DataId registry (inserted ++ map call pre')%list (call f') = None) ->
        refuses DataId registry (inserted ++ map call pre)%list (call f) = Some e ->
        _registerFilters DataId registry instrument filters inserted = Failed e).
Proof.
  intros call. split.
  - intros log. split.
    + intros Hrun.
      pose proof (registerFilters_Done_inv instrument filters inserted log Hrun) as Hall.
      rewrite (registerFilters_accepted instrument filters inserted Hall) in Hrun.
      injection Hrun as <-. split; [reflexivity|exact Hall].
    + intros [-> Hall]. exact (registerFilters_accepted instrument filters inserted Hall).
  - intros pre f post e -> Hpre Hf.
    rewrite registerFilters_app.
    rewrite (registerFilters_accepted instrument pre inserted Hpre).
    cbn [_registerFilters].
    change (refuses DataId registry (inserted ++ map (filter_call instrument) pre)%list
              (filter_call instrument f) = Some e) in Hf.
    cbn beta in Hf. now rewrite Hf.
Qed.

Variable TIMESPAN_MIN TIMESPAN_MAX : PyVal.

(** X27: adding the unbounded calibration label twice is adding it once.
    When a call returns a data ID, the registry expands the label to that
    data ID afterwards, so a second call returns the same data ID and
    inserts nothing.  The call itself has inserted nothing when the label
    was known, and otherwise, after a [LookupError], the one record of the
    label with the whole time span as validity range. *)
Theorem unbounded_label_added_once (instrumentName : string)
  (inserted log : list RegistryCall) (dataId : DataId) :
  addUnboundedCalibrationLabel DataId registry TIMESPAN_MIN TIMESPAN_MAX
    instrumentName inserted = Done (dataId, log) ->
  let d := [ ("instrument", VStr instrumentName);
             ("calibration_label", VStr "unbounded") ] in
  addUnboundedCalibrationLabel DataId registry TIMESPAN_MIN TIMESPAN_MAX
    instrumentName log = Done (dataId, log)
  /\ expandDataId DataId registry log d = Done dataId
  /\ ((log = inserted /\ expandDataId DataId registry inserted d = Done dataId)
      \/ (log = (inserted
                 ++ [ insertDimensionData "calibration_label"
                        [ ("instrument", VStr instrumentName);
                          ("calibration_label", VStr "unbounded");
                          ("datetime_begin", TIMESPAN_MIN);
                          ("datetime_end", TIMESPAN_MAX) ] ])%list
          /\ exists msg,
               expandDataId DataId registry inserted d = Failed (LookupError msg))).
Proof.
  intros Hrun d.
  assert (Hlog : expandDataId DataId registry log d = Done dataId
                 /\ ((log = inserted /\ expandDataId DataId registry inserted d = Done dataId)
                     \/ (log = (inserted
                                ++ [ insertDimensionData "calibration_label"
                                       [ ("instrument", VStr instrumentName);
                                         ("calibration_label", VStr "unbounded");
                                         ("datetime_begin", TIMESPAN_MIN);
                                         ("datetime_end", TIMESPAN_MAX) ] ])%list
                         /\ exists msg,
                              expandDataId DataId registry inserted d
                              = Failed (LookupError msg)))).
  { unfold addUnboundedCalibrationLabel in Hrun. fold d in Hrun. unfold unbounded_id in Hrun.
    fold d in Hrun.
    destruct (expandDataId DataId registry inserted d) as [x|[msg|e]] eqn:Hfirst;
      [injection Hrun as <- <-; split; [exact Hfirst|left; now split]| |discriminate].
    destruct (refuses DataId registry inserted _); [discriminate|].
    match type of Hrun with
    | match expandDataId _ _ ?l _ with _ => _ end = _ =>
        destruct (expandDataId DataId registry l d) as [x|e] eqn:Hsecond;
          [|discriminate]
    end.
    injection Hrun as <- <-. split; [exact Hsecond|].
    right. split; [reflexivity|]. now exists msg. }
  destruct Hlog as [Hexp Hshape]. split; [|split; assumption].
  unfold addUnboundedCalibrationLabel, unbounded_id. fold d. now rewrite Hexp.
Qed.

End RegistrationFacts.

(** ** Configuration overrides *)

Section ConfigOverridesFacts.
Import InstrumentBase.
Variable Config : Type.
Variable exists_ : string -> bool.
Variable load : Config -> string -> result Config.

(** X28: the overrides applied to a task configuration are the files
    [os.path.join(root, name + ".py")] that exist, for the roots of
    [configPaths] in their
    order, loaded one after the other, each into the configuration the one
    before left; the first load that fails ends the call with its error.
    Roots without the file are passed over, and when no root has it the
    configuration is returned as it was. *)
Theorem applyConfigOverrides_loads_existing (configPaths : list string) (name : string)
  (config : Config) :
  applyConfigOverrides Config exists_ load configPaths name config
  = load_all Config load
      (filter exists_ (map (fun root => Path.join root (name ++ ".py")) configPaths))
      config
  /\ ((forall root, In root configPaths ->
         exists_ (Path.join root (name ++ ".py")) = false) ->
      applyConfigOverrides Config exists_ load configPaths name config = Ok config)
  /\ (forall pre root post e,
        configPaths = (pre ++ root :: post)%list ->
        (forall r, In r pre -> exists_ (Path.join r (name ++ ".py")) = false) ->
        exists_ (Path.join root (name ++ ".py")) = true ->
        load config (Path.join root (name ++ ".py")) = Raise e ->
        applyConfigOverrides Config exists_ load configPaths name config = Raise e).
Proof.
  assert (Heq : forall paths c,
            applyConfigOverrides Config exists_ load paths name c
            = load_all Config load
                (filter exists_ (map (fun root => Path.join root (name ++ ".py")) paths)) c).
  { induction paths as [|root rest IH]; intros c; [reflexivity|].
    cbn [applyConfigOverrides map filter].
    destruct (exists_ (Path.join root (name ++ ".py"))); [|apply IH].
    cbn [load_all]. destruct (load c _); [apply IH|reflexivity]. }
  assert (Hskip : forall paths,
            (forall root, In root paths -> exists_ (Path.join root (name ++ ".py")) = false) ->
            filter exists_ (map (fun root => Path.join root (name ++ ".py")) paths) = []).
  { induction paths as [|root rest IH]; intros Hnone; [reflexivity|].
    cbn [map filter]. rewrite (Hnone root (or_introl eq_refl)).
    apply IH. intros r Hr. apply Hnone. now right. }
  split; [apply Heq|]. split.
  - intros Hnone. rewrite Heq, (Hskip configPaths Hnone). reflexivity.
  - intros pre root post e -> Hpre Hroot Hload.
    rewrite Heq, map_app, filter_app, (Hskip pre Hpre).
    cbn [app map filter]. rewrite Hroot. cbn [load_all]. now rewrite Hload.
Qed.

End ConfigOverridesFacts.

Lemma write_with_validated_recipes_witness :
  exists options store,
    FitsExposure.write Examples.py0 Examples.store_env Examples.calexp []
      Examples.own_seed [("visit", VInt 1)]
    = Ok ("calexp/v1.fits",
          FitsExposure.writeFitsWithOptions "/repo/calexp/v1.fits" options, store)
    /\ Dict.keys options = ["image"; "mask"; "variance"]
    /\ (forall plane, In plane ["image"; "mask"; "variance"] ->
          exists z, FitsExposure.recipe_seed plane options = Some (VInt z))
    /\ Dict.keys store = Dict.keys Examples.own_seed.
Proof.
  apply (write_with_validated_recipes Examples.py0 Examples.store_env
           [ ("default", [ ("image", []);
                           ("mask", [ ("scaling", [ ("seed", VInt 7) ]) ]);
                           ("variance", []) ]) ]
           Examples.own_seed Examples.calexp [] [("visit", VInt 1)]).
  - discriminate.
  - vm_compute. reflexivity.
  - reflexivity.
  - intros call. reflexivity.
Defined.

Lemma read_metadata_component_witness :
  FitsExposure.read string (list string) (Examples.read_env true) None
    (Some "metadata") None
  = Ok (FitsExposure.Header string (list string) ["EXPTIME"], Some ["EXPTIME"]).
Proof.
  destruct (read_metadata_component string (list string) (Examples.read_env true) None
              eq_refl) as [H _].
  rewrite H. reflexivity.
Defined.

Lemma unbounded_label_added_once_witness :
  InstrumentBase.addUnboundedCalibrationLabel (Dict.t string PyVal)
    Examples.label_registry (VInt 0) (VInt 9) "Roman"
    [ InstrumentBase.insertDimensionData "calibration_label"
        [ ("instrument", VStr "Roman"); ("calibration_label", VStr "unbounded");
          ("datetime_begin", VInt 0); ("datetime_end", VInt 9) ] ]
  = InstrumentBase.Done
      ([ ("instrument", VStr "Roman"); ("calibration_label", VStr "unbounded") ],
       [ InstrumentBase.insertDimensionData "calibration_label"
           [ ("instrument", VStr "Roman"); ("calibration_label", VStr "unbounded");
             ("datetime_begin", VInt 0); ("datetime_end", VInt 9) ] ]).
Proof.
  apply (unbounded_label_added_once (Dict.t string PyVal) Examples.label_registry
           (VInt 0) (VInt 9) "Roman" []).
  reflexivity.
Defined.
